(** * PMBD: the persistent-memory block driver of linux-pmfs

    A shallow embedding of [drivers/block/pmbd.c] and [include/linux/pmbd.h],
    in three parts:

    - the store: the PM region, the DRAM staging buffers with their BBI/PBI
      tables, the allocator, the flush engine, the buffered and unbuffered
      copy routines and the write barrier;
    - the emulation engine (access time and batched bandwidth) over a
      cycle counter that the model drives;
    - the request dispatcher [pmbd_make_request]: the order of its effects
      for one request, and in [Sync] what it does to the in-flight counter
      when several threads run it.

    The definitions come first, then example devices, then the proofs: for
    each part the lemmas about its functions and after them the properties
    claimed of the driver.

    Conventions.  C arrays are total functions from an index ([Z]) to the
    cell; a C pointer into an array is the index.  [panic()] is the result
    [Panic]; a loop that did not leave within its fuel is [Spin].  Spinlocks
    are not part of the model of the store: each function there runs to
    completion.  The 64-bit types ([sector_t], [PBN_T], [BBN_T],
    [uint64_t]) are [Z]; where the source subtracts, the wrap-around of the
    machine word is written out with [u64]. *)

From Stdlib Require Import ZArith List Bool Lia Permutation.
From Stdlib Require Import Strings.Byte.
Import ListNotations.
Local Open Scope Z_scope.

(** ** Results of fallible code *)

Inductive result (A : Type) : Type :=
| Ok (a : A)
| Panic
| Spin.
Arguments Ok {A} a.
Arguments Panic {A}.
Arguments Spin {A}.

Definition bind {A B : Type} (r : result A) (k : A -> result B) : result B :=
  match r with
  | Ok a => k a
  | Panic => Panic
  | Spin => Spin
  end.

Notation "x <- c ;; k" := (bind c (fun x => k))
  (at level 61, c at next level, right associativity).

(** [for (i = start; i <= end; i++) body], run [n] times from [i]. *)
Fixpoint for_range {S : Type} (n : nat) (i : Z) (body : Z -> S -> result S) (s : S)
  : result S :=
  match n with
  | O => Ok s
  | S n' => s' <- body i s ;; for_range n' (i + 1) body s'
  end.

(** ** Machine words and memory *)

Definition U64_MOD : Z := 18446744073709551616.
Definition U32_MOD : Z := 4294967296.
Definition u64 (z : Z) : Z := z mod U64_MOD.
Definition u32 (z : Z) : Z := z mod U32_MOD.

(** A byte-addressed region; an address is the offset from the region's base. *)
Definition memory : Type := Z -> byte.

(** Array update [f[i] = v]. *)
Definition upd {A : Type} (f : Z -> A) (i : Z) (v : A) : Z -> A :=
  fun j => if j =? i then v else f j.

(** [memcpy(dst + to, src + from, size)]. *)
Definition memcpy (dst : memory) (to : Z) (src : memory) (from : Z) (size : Z) : memory :=
  fun a => if (to <=? a) && (a <? to + size) then src (from + (a - to)) else dst a.

(** [memcmp(m1 + a1, m2 + a2, n) == 0]. *)
Fixpoint mem_eqb (n : nat) (m1 : memory) (a1 : Z) (m2 : memory) (a2 : Z) : bool :=
  match n with
  | O => true
  | S n' => Byte.eqb (m1 a1) (m2 a2) && mem_eqb n' m1 (a1 + 1) m2 (a2 + 1)
  end.

(** The bytes of a page handed in by the block layer, as a region. *)
Definition of_list (l : list byte) : memory :=
  fun a => nth (Z.to_nat a) l x00.

(** The [n] bytes of [m] from address [a] on, as copied out to a page. *)
Fixpoint read_bytes (m : memory) (a : Z) (n : nat) : list byte :=
  match n with
  | O => []
  | S n' => m a :: read_bytes m (a + 1) n'
  end.

(** ** Constants and unit conversions of [pmbd.h] *)

Definition TRUE : bool := true.
Definition FALSE : bool := false.

Definition SECTOR_SHIFT : Z := 9.
Definition PAGE_SHIFT : Z := 12.
Definition SECTOR_SIZE : Z := Z.shiftl 1 SECTOR_SHIFT.
Definition PAGE_SIZE : Z := Z.shiftl 1 PAGE_SHIFT.
Definition PMBD_SECTOR_SIZE : Z := SECTOR_SIZE.

(** [pmbd_create] sets [pmbd->sector_size = PMBD_SECTOR_SIZE] and
    [pmbd->pb_size = PAGE_SIZE]; nothing else assigns them. *)
Definition sector_size : Z := PMBD_SECTOR_SIZE.
Definition pb_size : Z := PAGE_SIZE.

Definition SECTOR_TO_BYTE (n : Z) : Z := Z.shiftl n SECTOR_SHIFT.
Definition BYTE_TO_SECTOR (n : Z) : Z := Z.shiftr n SECTOR_SHIFT.
Definition BYTE_TO_PBN (bytes : Z) : Z := bytes / pb_size.
Definition PBN_TO_BYTE (pbn : Z) : Z := pbn * pb_size.
Definition SECTOR_TO_PBN (sect : Z) : Z := BYTE_TO_PBN (SECTOR_TO_BYTE sect).
Definition PBN_TO_SECTOR (pbn : Z) : Z := BYTE_TO_SECTOR (PBN_TO_BYTE pbn).

Definition CALLER_ALLOCATOR : Z := 0.
Definition CALLER_SYNCER : Z := 1.
Definition CALLER_DESTROYER : Z := 2.

(** ** Data model *)

(** Buffer block info: [struct pmbd_bbi]. *)
Record PMBD_BBI_T : Type := mkBBI {
  bbi_pbn : Z;        (* pbn: physical block number in PM *)
  bbi_dirty : bool    (* dirty: TRUE or FALSE *)
}.

(** An entry of the sort array: [struct pmbd_bsort_entry]. *)
Record PMBD_BSORT_ENTRY_T : Type := mkSE {
  se_bbn : Z;
  se_pbn : Z
}.

(** [struct pmbd_buffer] without its locks, syncer handle and scratch array
    (the scratch array is the list that [pmbd_buffer_flush] builds). *)
Record PMBD_BUFFER_T : Type := mkBuffer {
  num_blocks : Z;
  buffer_space : memory;
  bbi_space : Z -> PMBD_BBI_T;
  num_dirty : Z;
  pos_dirty : Z;
  pos_clean : Z;
  batch_size : Z
}.

(** Physical block info: [struct pmbd_pbi] without its lock. *)
Record PMBD_PBI_T : Type := mkPBI {
  pbi_bbn : Z
}.

(** CPU cache attribute of the PM pages ([g_pmbd_cpu_cache_flag]); the parser
    assigns one of these four and nothing else. *)
Inductive cache_flag : Type :=
| PAGE_CACHE_WB
| PAGE_CACHE_WC
| PAGE_CACHE_UC_MINUS
| PAGE_CACHE_UC.

(** [struct pmbd_device]: the fields the storage path reads or writes,
    and the module-wide switches it consults. *)
Record PMBD_DEVICE_T : Type := mkDevice {
  mem_space : memory;
  num_sectors : Z;
  bufmode : bool;
  wpmode : Z;
  buffers : Z -> PMBD_BUFFER_T;
  num_buffers : Z;
  buffer_stride : Z;
  pbi_space : Z -> PMBD_PBI_T;
  num_flying_wr : Z;
  g_pmbd_wr_verify : bool;
  g_pmbd_cpu_cache_flag : cache_flag;
  g_pmbd_nts : bool;
  g_pmbd_cpu_cache_clflush : bool
}.

(** Field assignments. *)
Definition set_bbi_space (b : PMBD_BUFFER_T) (f : Z -> PMBD_BBI_T) : PMBD_BUFFER_T :=
  mkBuffer (num_blocks b) (buffer_space b) f (num_dirty b) (pos_dirty b)
           (pos_clean b) (batch_size b).

Definition set_buffer_space (b : PMBD_BUFFER_T) (m : memory) : PMBD_BUFFER_T :=
  mkBuffer (num_blocks b) m (bbi_space b) (num_dirty b) (pos_dirty b)
           (pos_clean b) (batch_size b).

Definition set_control (b : PMBD_BUFFER_T) (nd pd pc : Z) : PMBD_BUFFER_T :=
  mkBuffer (num_blocks b) (buffer_space b) (bbi_space b) nd pd pc (batch_size b).

Definition set_mem_space (d : PMBD_DEVICE_T) (m : memory) : PMBD_DEVICE_T :=
  mkDevice m (num_sectors d) (bufmode d) (wpmode d) (buffers d) (num_buffers d)
           (buffer_stride d) (pbi_space d) (num_flying_wr d) (g_pmbd_wr_verify d)
           (g_pmbd_cpu_cache_flag d) (g_pmbd_nts d) (g_pmbd_cpu_cache_clflush d).

Definition set_buffers (d : PMBD_DEVICE_T) (f : Z -> PMBD_BUFFER_T) : PMBD_DEVICE_T :=
  mkDevice (mem_space d) (num_sectors d) (bufmode d) (wpmode d) f (num_buffers d)
           (buffer_stride d) (pbi_space d) (num_flying_wr d) (g_pmbd_wr_verify d)
           (g_pmbd_cpu_cache_flag d) (g_pmbd_nts d) (g_pmbd_cpu_cache_clflush d).

Definition set_pbi_space (d : PMBD_DEVICE_T) (f : Z -> PMBD_PBI_T) : PMBD_DEVICE_T :=
  mkDevice (mem_space d) (num_sectors d) (bufmode d) (wpmode d) (buffers d)
           (num_buffers d) (buffer_stride d) f (num_flying_wr d) (g_pmbd_wr_verify d)
           (g_pmbd_cpu_cache_flag d) (g_pmbd_nts d) (g_pmbd_cpu_cache_clflush d).

(** [*buffer = b] for the buffer with index [bid]. *)
Definition set_buffer (d : PMBD_DEVICE_T) (bid : Z) (b : PMBD_BUFFER_T) : PMBD_DEVICE_T :=
  set_buffers d (upd (buffers d) bid b).

(** ** Macros of [pmbd.h] *)

Definition PMBD_DEV_USE_BUFFER (d : PMBD_DEVICE_T) : bool := bufmode d.
Definition PMBD_DEV_USE_WPMODE_PTE (d : PMBD_DEVICE_T) : bool := wpmode d =? 0.
Definition PMBD_USE_WRITE_VERIFICATION (d : PMBD_DEVICE_T) : bool :=
  Bool.eqb (g_pmbd_wr_verify d) TRUE.

Definition PMBD_MEM_TOTAL_BYTES (d : PMBD_DEVICE_T) : Z := num_sectors d * sector_size.
Definition PMBD_TOTAL_PB_NUM (d : PMBD_DEVICE_T) : Z := PMBD_MEM_TOTAL_BYTES d / pb_size.

Definition PBN_TO_PMBD_BUFFER_ID (d : PMBD_DEVICE_T) (pbn : Z) : Z :=
  (pbn / buffer_stride d) mod num_buffers d.
Definition PBN_TO_PMBD_BUFFER (d : PMBD_DEVICE_T) (pbn : Z) : PMBD_BUFFER_T :=
  buffers d (PBN_TO_PMBD_BUFFER_ID d pbn).

(** Offsets of a physical block in [mem_space] and of a slot in [buffer_space]. *)
Definition PMBD_BLOCK_VADDR (pbn : Z) : Z := pb_size * pbn.
Definition PMBD_BUFFER_BLOCK (bbn : Z) : Z := pb_size * bbn.

Definition PMBD_BLOCK_PBI (d : PMBD_DEVICE_T) (pbn : Z) : PMBD_PBI_T := pbi_space d pbn.
Definition PMBD_BLOCK_IS_BUFFERED (d : PMBD_DEVICE_T) (pbn : Z) : bool :=
  pbi_bbn (PMBD_BLOCK_PBI d pbn) <? num_blocks (PBN_TO_PMBD_BUFFER d pbn).
Definition PMBD_SET_BLOCK_BUFFERED (d : PMBD_DEVICE_T) (pbn bbn : Z) : PMBD_DEVICE_T :=
  set_pbi_space d (upd (pbi_space d) pbn (mkPBI bbn)).
Definition PMBD_SET_BLOCK_UNBUFFERED (d : PMBD_DEVICE_T) (pbn : Z) : PMBD_DEVICE_T :=
  set_pbi_space d (upd (pbi_space d) pbn (mkPBI (PMBD_TOTAL_PB_NUM d + 3))).

Definition PMBD_BUFFER_BBI (b : PMBD_BUFFER_T) (bbn : Z) : PMBD_BBI_T := bbi_space b bbn.
Definition PMBD_BUFFER_SET_BBI_CLEAN (b : PMBD_BUFFER_T) (bbn : Z) : PMBD_BUFFER_T :=
  set_bbi_space b (upd (bbi_space b) bbn (mkBBI (bbi_pbn (bbi_space b bbn)) FALSE)).
Definition PMBD_BUFFER_SET_BBI_DIRTY (b : PMBD_BUFFER_T) (bbn : Z) : PMBD_BUFFER_T :=
  set_bbi_space b (upd (bbi_space b) bbn (mkBBI (bbi_pbn (bbi_space b bbn)) TRUE)).
Definition PMBD_BUFFER_BBI_IS_CLEAN (b : PMBD_BUFFER_T) (bbn : Z) : bool :=
  Bool.eqb (bbi_dirty (PMBD_BUFFER_BBI b bbn)) FALSE.
Definition PMBD_BUFFER_BBI_IS_DIRTY (b : PMBD_BUFFER_T) (bbn : Z) : bool :=
  Bool.eqb (bbi_dirty (PMBD_BUFFER_BBI b bbn)) TRUE.
Definition PMBD_BUFFER_SET_BBI_BUFFERED (b : PMBD_BUFFER_T) (bbn pbn : Z) : PMBD_BUFFER_T :=
  set_bbi_space b (upd (bbi_space b) bbn (mkBBI pbn (bbi_dirty (bbi_space b bbn)))).
Definition PMBD_BUFFER_SET_BBI_UNBUFFERED (d : PMBD_DEVICE_T) (b : PMBD_BUFFER_T) (bbn : Z)
  : PMBD_BUFFER_T :=
  PMBD_BUFFER_SET_BBI_BUFFERED b bbn (PMBD_TOTAL_PB_NUM d + 2).

Definition PMBD_BUFFER_IS_FULL (b : PMBD_BUFFER_T) : bool := num_dirty b >=? num_blocks b.
Definition PMBD_BUFFER_IS_EMPTY (b : PMBD_BUFFER_T) : bool := num_dirty b =? 0.

Definition PMBD_BUFFER_NEXT_POS (b : PMBD_BUFFER_T) (pos : Z) : Z :=
  if pos =? num_blocks b - 1 then 0 else pos + 1.
Definition PMBD_BUFFER_PRIO_POS (b : PMBD_BUFFER_T) (pos : Z) : Z :=
  if pos =? 0 then num_blocks b - 1 else pos - 1.
Definition PMBD_BUFFER_NEXT_N_POS (b : PMBD_BUFFER_T) (pos n : Z) : Z :=
  (pos + n) mod num_blocks b.


(** ** Request geometry: the in-block offsets of the first and last sector *)

Definition pmbd_buffer_aligned_request_start (sector bytes : Z) : Z :=
  let sector_s := sector in
  let pbn_s := SECTOR_TO_PBN sector_s in
  let block_s := PBN_TO_SECTOR pbn_s in
  let offset_s := 0 in
  if sector_s >=? block_s then u64 (sector_s - block_s) else offset_s.

Definition pmbd_buffer_aligned_request_end (sector bytes : Z) : Z :=
  let sector_e := u64 (sector + BYTE_TO_SECTOR bytes - 1) in
  let pbn_e := SECTOR_TO_PBN sector_e in
  let block_e := PBN_TO_SECTOR pbn_e in
  let offset_e := PBN_TO_SECTOR 1 - 1 in
  if sector_e >=? block_e then u64 (sector_e - block_e) else offset_e.

(** ** Copies into and out of the PM region

    [memcpy_to_pmbd] and [memcpy_from_pmbd] choose between the private-mapping,
    non-temporal and sub-page variants; all of them leave the destination
    equal to the source over the copied range, and the emulation hooks
    around them only take time.  The copy itself is what is kept here. *)

Definition memcpy_to_pmbd (d : PMBD_DEVICE_T) (dst : Z) (src : memory) (from : Z) (bytes : Z)
  : PMBD_DEVICE_T :=
  set_mem_space d (memcpy (mem_space d) dst src from bytes).

Definition memcpy_from_pmbd (d : PMBD_DEVICE_T) (dst : memory) (to : Z) (src : Z) (bytes : Z)
  : memory :=
  memcpy dst to (mem_space d) src bytes.

(** [pmbd_verify_wr_pages]: panic when the PM range differs from its source. *)
Definition pmbd_verify_wr_pages (d : PMBD_DEVICE_T) (pmbd_va : Z) (ram : memory) (ram_va : Z)
  (bytes : Z) : result unit :=
  if mem_eqb (Z.to_nat bytes) (mem_space d) pmbd_va ram ram_va then Ok tt else Panic.

(** ** Buffer lookup *)

(** [_pmbd_buffer_lookup]: the BBI of [pbn], as its index in [bbi_space], or
    [None] for the NULL pointer. *)
Definition _pmbd_buffer_lookup (d : PMBD_DEVICE_T) (bid : Z) (pbn : Z) : option Z :=
  let pbi := PMBD_BLOCK_PBI d pbn in
  if PMBD_BLOCK_IS_BUFFERED d pbn then Some (pbi_bbn pbi) else None.

(** ** Flush engine *)

(** First loop of [_pmbd_buffer_flush_range]: one physical block. *)
Definition flush_range_sync (bid : Z) (pbn : Z) (d : PMBD_DEVICE_T) : result PMBD_DEVICE_T :=
  let pbi := PMBD_BLOCK_PBI d pbn in
  let to := PMBD_BLOCK_VADDR pbn in
  let size := pb_size in
  if PMBD_BLOCK_IS_BUFFERED d pbn then
    let bbn := pbi_bbn pbi in
    let from := PMBD_BUFFER_BLOCK (pbi_bbn pbi) in
    if PMBD_BUFFER_BBI_IS_DIRTY (buffers d bid) bbn then
      let d1 := memcpy_to_pmbd d to (buffer_space (buffers d bid)) from size in
      Ok (set_buffer d1 bid (PMBD_BUFFER_SET_BBI_CLEAN (buffers d1 bid) bbn))
    else Ok d
  else Panic.

(** Second loop of [_pmbd_buffer_flush_range]: one physical block. *)
Definition flush_range_unlink (bid : Z) (pbn : Z) (d : PMBD_DEVICE_T) : result PMBD_DEVICE_T :=
  let pbi := PMBD_BLOCK_PBI d pbn in
  let to := PMBD_BLOCK_VADDR pbn in
  let size := pb_size in
  let bbn := pbi_bbn pbi in
  let from := PMBD_BUFFER_BLOCK (pbi_bbn pbi) in
  _ <- (if PMBD_USE_WRITE_VERIFICATION d
        then pmbd_verify_wr_pages d to (buffer_space (buffers d bid)) from size
        else Ok tt) ;;
  let d1 := set_buffer d bid (PMBD_BUFFER_SET_BBI_UNBUFFERED d (buffers d bid) bbn) in
  Ok (PMBD_SET_BLOCK_UNBUFFERED d1 pbn).

(** [_pmbd_buffer_flush_range(buffer, pbn_s, pbn_e)]; [num_cleaned] counts the
    iterations of the second loop. *)
Definition _pmbd_buffer_flush_range (d : PMBD_DEVICE_T) (bid : Z) (pbn_s pbn_e : Z)
  : result (PMBD_DEVICE_T * Z) :=
  let n := Z.to_nat (pbn_e - pbn_s + 1) in
  d1 <- for_range n pbn_s (flush_range_sync bid) d ;;
  d2 <- for_range n pbn_s (flush_range_unlink bid) d1 ;;
  Ok (d2, Z.of_nat n).

(** The scan of the dirty window in [pmbd_buffer_flush]: the loop from
    [i] on, with the entries gathered so far in [scanned]. *)
Fixpoint flush_scan (fuel : nat) (b : PMBD_BUFFER_T) (bbn_e num_to_clean : Z) (i : Z)
  (scanned : list PMBD_BSORT_ENTRY_T) : result (list PMBD_BSORT_ENTRY_T) :=
  match fuel with
  | O => Spin
  | S fuel' =>
    let num_scanned := Z.of_nat (length scanned) in
    if negb (i =? PMBD_BUFFER_NEXT_POS b bbn_e) || (num_scanned =? 0) then
      if PMBD_BUFFER_BBI_IS_CLEAN b i then Panic
      else
        let bbi := PMBD_BUFFER_BBI b i in
        let scanned' := scanned ++ [mkSE i (bbi_pbn bbi)] in
        if Z.of_nat (length scanned') >=? num_to_clean then Ok scanned'
        else flush_scan fuel' b bbn_e num_to_clean (PMBD_BUFFER_NEXT_POS b i) scanned'
    else Ok scanned
  end.

(** [compare_bbi_sort_entries]. *)
Definition compare_bbi_sort_entries (a b : PMBD_BSORT_ENTRY_T) : Z :=
  if se_pbn a <? se_pbn b then -1
  else if se_pbn a =? se_pbn b then 0
  else 1.

(** Modelled from the spec: the kernel's [sort()] of lib/sort.c, which the
    flush calls with [compare_bbi_sort_entries]; the spec says the snapshot
    is sorted by pbn.  It is an insertion sort here. *)
Fixpoint sort_insert (e : PMBD_BSORT_ENTRY_T) (l : list PMBD_BSORT_ENTRY_T)
  : list PMBD_BSORT_ENTRY_T :=
  match l with
  | [] => [e]
  | x :: l' => if compare_bbi_sort_entries e x <=? 0 then e :: l else x :: sort_insert e l'
  end.

Definition sort (l : list PMBD_BSORT_ENTRY_T) : list PMBD_BSORT_ENTRY_T :=
  fold_right sort_insert [] l.

(** The walk over the sorted entries from the second one on, with the open
    sequence [first_pbn .. last_pbn]; the last sequence is flushed after the
    loop. *)
Fixpoint flush_sequences (bid : Z) (entries : list PMBD_BSORT_ENTRY_T)
  (first_pbn last_pbn num_cleaned : Z) (d : PMBD_DEVICE_T) : result (PMBD_DEVICE_T * Z) :=
  match entries with
  | [] =>
    r <- _pmbd_buffer_flush_range d bid first_pbn last_pbn ;;
    Ok (fst r, num_cleaned + snd r)
  | se :: rest =>
    let bbi := PMBD_BUFFER_BBI (buffers d bid) (se_bbn se) in
    if bbi_pbn bbi =? last_pbn + 1 then
      flush_sequences bid rest first_pbn (bbi_pbn bbi) num_cleaned d
    else
      r <- _pmbd_buffer_flush_range d bid first_pbn last_pbn ;;
      flush_sequences bid rest (bbi_pbn bbi) (bbi_pbn bbi) (num_cleaned + snd r) (fst r)
  end.

(** [pmbd_buffer_flush(buffer, num_to_clean)]: the device after the flush and
    [num_cleaned]. *)
Definition pmbd_buffer_flush (d : PMBD_DEVICE_T) (bid : Z) (num_to_clean : Z)
  : result (PMBD_DEVICE_T * Z) :=
  let buffer := buffers d bid in
  let num_to_clean :=
    if num_to_clean >? num_dirty buffer then num_dirty buffer else num_to_clean in
  if PMBD_BUFFER_IS_EMPTY buffer || (num_to_clean =? 0) then Ok (d, 0)
  else
    let bbn_s := pos_dirty buffer in
    let bbn_e := PMBD_BUFFER_PRIO_POS buffer (pos_clean buffer) in
    scanned <- flush_scan (Z.to_nat (num_blocks buffer)) buffer bbn_e num_to_clean bbn_s [] ;;
    match (if PMBD_DEV_USE_WPMODE_PTE d then sort scanned else scanned) with
    | [] => Ok (d, 0)
    | se :: rest =>
      let bbi := PMBD_BUFFER_BBI buffer (se_bbn se) in
      r <- flush_sequences bid rest (bbi_pbn bbi) (bbi_pbn bbi) 0 d ;;
      let d1 := fst r in
      let num_cleaned := snd r in
      let b1 := buffers d1 bid in
      Ok (set_buffer d1 bid
            (set_control b1 (u64 (num_dirty b1 - num_cleaned))
               (PMBD_BUFFER_NEXT_N_POS b1 bbn_s num_cleaned) (pos_clean b1)),
          num_cleaned)
    end.

(** [pmbd_buffer_check_and_flush(buffer, num_to_clean, caller)]. *)
Definition pmbd_buffer_check_and_flush (d : PMBD_DEVICE_T) (bid : Z) (num_to_clean : Z)
  (caller : Z) : result (PMBD_DEVICE_T * Z) :=
  let buffer := buffers d bid in
  if caller =? CALLER_DESTROYER then pmbd_buffer_flush d bid num_to_clean
  else if caller =? CALLER_SYNCER then
    if PMBD_BUFFER_IS_EMPTY buffer then Ok (d, 0) else pmbd_buffer_flush d bid num_to_clean
  else if caller =? CALLER_ALLOCATOR then
    if negb (PMBD_BUFFER_IS_FULL buffer) then Ok (d, 0) else pmbd_buffer_flush d bid num_to_clean
  else Panic.

(** ** Buffer allocator *)

(** [pmbd_buffer_alloc_block(buffer, pbn)]: the device after the allocation
    and the reserved position; [fuel] bounds the passes through
    [check_again]. *)
Fixpoint pmbd_buffer_alloc_block (fuel : nat) (d : PMBD_DEVICE_T) (bid pbn : Z)
  : result (PMBD_DEVICE_T * Z) :=
  match fuel with
  | O => Spin
  | S fuel' =>
    let buffer := buffers d bid in
    if PMBD_BUFFER_IS_FULL buffer then
      r <- pmbd_buffer_check_and_flush d bid (batch_size buffer) CALLER_ALLOCATOR ;;
      pmbd_buffer_alloc_block fuel' (fst r) bid pbn
    else
      let pos := pos_clean buffer in
      let b1 := set_control buffer (num_dirty buffer + 1) (pos_dirty buffer)
                  (PMBD_BUFFER_NEXT_POS buffer (pos_clean buffer)) in
      let b2 := PMBD_BUFFER_SET_BBI_DIRTY b1 pos in
      let b3 := PMBD_BUFFER_SET_BBI_BUFFERED b2 pos pbn in
      let d1 := set_buffer d bid b3 in
      Ok (PMBD_SET_BLOCK_BUFFERED d1 pbn pos, pos)
  end.

(** ** Reads and writes with the buffer *)

(** The sector range of the request inside block [pbn] and its size in bytes. *)
Definition block_sect_s (pbn_s offset_s pbn : Z) : Z :=
  if pbn =? pbn_s then offset_s else 0.
Definition block_sect_e (pbn_e offset_e pbn : Z) : Z :=
  if pbn =? pbn_e then offset_e else PBN_TO_SECTOR 1 - 1.
Definition block_size (sect_s sect_e : Z) : Z := SECTOR_TO_BYTE (sect_e - sect_s + 1).

(** The body of the loop of [copy_to_pmbd_buffered] for block [pbn]; the
    state is the device and the read position [from] in the source page. *)
Definition copy_to_pmbd_buffered_block (fuel : nat) (src : memory)
  (pbn_s pbn_e offset_s offset_e : Z) (pbn : Z) (st : PMBD_DEVICE_T * Z)
  : result (PMBD_DEVICE_T * Z) :=
  let d := fst st in
  let from := snd st in
  let sect_s := block_sect_s pbn_s offset_s pbn in
  let sect_e := block_sect_e pbn_e offset_e pbn in
  let size := block_size sect_s sect_e in
  let bid := PBN_TO_PMBD_BUFFER_ID d pbn in
  d1 <- match _pmbd_buffer_lookup d bid pbn with
        | Some _ => Ok d
        | None =>
          r <- pmbd_buffer_alloc_block fuel d bid pbn ;;
          let d1 := fst r in
          let bbn := pbi_bbn (PMBD_BLOCK_PBI d1 pbn) in
          let b := buffers d1 bid in
          if size <? pb_size then
            Ok (set_buffer d1 bid
                  (set_buffer_space b
                     (memcpy_from_pmbd d1 (buffer_space b) (PMBD_BUFFER_BLOCK bbn)
                        (PMBD_BLOCK_VADDR pbn) pb_size)))
          else Ok d1
        end ;;
  let bbn := pbi_bbn (PMBD_BLOCK_PBI d1 pbn) in
  let to := PMBD_BUFFER_BLOCK bbn + SECTOR_TO_BYTE sect_s in
  let b := buffers d1 bid in
  let b1 := set_buffer_space b (memcpy (buffer_space b) to src from size) in
  Ok (set_buffer d1 bid (PMBD_BUFFER_SET_BBI_DIRTY b1 bbn), from + size).

(** [copy_to_pmbd_buffered(pmbd, src, sector, bytes)]. *)
Definition copy_to_pmbd_buffered (fuel : nat) (d : PMBD_DEVICE_T) (src : memory)
  (sector bytes : Z) : result PMBD_DEVICE_T :=
  let pbn_s := SECTOR_TO_PBN sector in
  let pbn_e := BYTE_TO_PBN (u64 (SECTOR_TO_BYTE sector + bytes - 1)) in
  let offset_s := pmbd_buffer_aligned_request_start sector bytes in
  let offset_e := pmbd_buffer_aligned_request_end sector bytes in
  r <- for_range (Z.to_nat (pbn_e - pbn_s + 1)) pbn_s
         (copy_to_pmbd_buffered_block fuel src pbn_s pbn_e offset_s offset_e) (d, 0) ;;
  Ok (fst r).

(** A loop that cannot fail: [for (i = start; i <= end; i++) body]. *)
Fixpoint for_each {S : Type} (n : nat) (i : Z) (body : Z -> S -> S) (s : S) : S :=
  match n with
  | O => s
  | S n' => for_each n' (i + 1) body (body i s)
  end.

(** The body of the loop of [copy_from_pmbd_buffered] for block [pbn]; the
    state is what has been copied out to the destination page so far. *)
Definition copy_from_pmbd_buffered_block (d : PMBD_DEVICE_T)
  (pbn_s pbn_e offset_s offset_e : Z) (pbn : Z) (dst : list byte) : list byte :=
  let pbi := PMBD_BLOCK_PBI d pbn in
  let sect_s := block_sect_s pbn_s offset_s pbn in
  let sect_e := block_sect_e pbn_e offset_e pbn in
  let size := block_size sect_s sect_e in
  let bid := PBN_TO_PMBD_BUFFER_ID d pbn in
  match _pmbd_buffer_lookup d bid pbn with
  | Some _ =>
    let from := PMBD_BUFFER_BLOCK (pbi_bbn pbi) + SECTOR_TO_BYTE sect_s in
    dst ++ read_bytes (buffer_space (buffers d bid)) from (Z.to_nat size)
  | None =>
    let from := PMBD_BLOCK_VADDR pbn + SECTOR_TO_BYTE sect_s in
    dst ++ read_bytes (mem_space d) from (Z.to_nat size)
  end.

(** [copy_from_pmbd_buffered(pmbd, dst, sector, bytes)]: the bytes stored
    to [dst]. *)
Definition copy_from_pmbd_buffered (d : PMBD_DEVICE_T) (sector bytes : Z) : list byte :=
  let pbn_s := SECTOR_TO_PBN sector in
  let pbn_e := BYTE_TO_PBN (u64 (SECTOR_TO_BYTE sector + bytes - 1)) in
  let offset_s := pmbd_buffer_aligned_request_start sector bytes in
  let offset_e := pmbd_buffer_aligned_request_end sector bytes in
  for_each (Z.to_nat (pbn_e - pbn_s + 1)) pbn_s
    (copy_from_pmbd_buffered_block d pbn_s pbn_e offset_s offset_e) [].

(** ** Reads and writes without the buffer *)

Definition copy_to_pmbd_unbuffered (d : PMBD_DEVICE_T) (src : memory) (sector bytes : Z)
  (do_fua : bool) : result PMBD_DEVICE_T :=
  let dst := sector * sector_size in
  let d1 := memcpy_to_pmbd d dst src 0 bytes in
  _ <- (if PMBD_USE_WRITE_VERIFICATION d1
        then pmbd_verify_wr_pages d1 dst src 0 bytes
        else Ok tt) ;;
  Ok d1.

Definition copy_from_pmbd_unbuffered (d : PMBD_DEVICE_T) (sector bytes : Z) : list byte :=
  let src := sector * sector_size in
  read_bytes (mem_space d) src (Z.to_nat bytes).

(** ** Read/write functions *)

Definition copy_to_pmbd (fuel : nat) (d : PMBD_DEVICE_T) (src : memory) (sector bytes : Z)
  (do_fua : bool) : result PMBD_DEVICE_T :=
  if PMBD_DEV_USE_BUFFER d then
    d1 <- copy_to_pmbd_buffered fuel d src sector bytes ;;
    if do_fua then copy_to_pmbd_unbuffered d1 src sector bytes do_fua else Ok d1
  else copy_to_pmbd_unbuffered d src sector bytes do_fua.

Definition copy_from_pmbd (d : PMBD_DEVICE_T) (sector bytes : Z) : list byte :=
  if PMBD_DEV_USE_BUFFER d then copy_from_pmbd_buffered d sector bytes
  else copy_from_pmbd_unbuffered d sector bytes.

(** ** Write barrier *)

(** [pmbd_clflush_all]: write back and invalidate the CPU caches; the
    regions of this model are coherent, so nothing changes. *)
Definition pmbd_clflush_all (d : PMBD_DEVICE_T) : PMBD_DEVICE_T := d.

(** [pmbd_write_barrier(pmbd)].  With no other thread running, the wait for
    [num_flying_wr] to reach zero either is over at once or never ends. *)
Definition pmbd_write_barrier (d : PMBD_DEVICE_T) : result PMBD_DEVICE_T :=
  if negb (num_flying_wr d =? 0) then Spin
  else
    d1 <- (if PMBD_DEV_USE_BUFFER d then
             for_range (Z.to_nat (num_buffers d)) 0
               (fun i d' =>
                  r <- pmbd_buffer_check_and_flush d' i (num_blocks (buffers d' i))
                         CALLER_DESTROYER ;;
                  Ok (fst r)) d
           else Ok d) ;;
    match g_pmbd_cpu_cache_flag d1 with
    | PAGE_CACHE_WB =>
      if g_pmbd_nts d1 then Ok d1
      else if g_pmbd_cpu_cache_clflush d1 then Ok d1
      else Ok (pmbd_clflush_all d1)
    | PAGE_CACHE_WC | PAGE_CACHE_UC_MINUS => Ok d1
    | PAGE_CACHE_UC => Ok d1
    end.

(** ** Device creation *)

Definition MB_SHIFT : Z := 20.
Definition GB_SHIFT : Z := 30.
Definition MB_TO_BYTES (n : Z) : Z := Z.shiftl n MB_SHIFT.
Definition GB_TO_SECTORS (n : Z) : Z := Z.shiftl n (GB_SHIFT - SECTOR_SHIFT).
Definition PMBD_BUFFER_MIN_BUFSIZE : Z := 4.

(** The module parameters of one device, as [pmbd_parse_conf] leaves them. *)
Record PMBD_CONF : Type := mkConf {
  g_pmbd_size : Z;                 (* GBs *)
  g_pmbd_bufsize : Z;              (* MBs *)
  g_pmbd_num_buffers : Z;
  g_pmbd_buffer_stride : Z;
  g_pmbd_buffer_batch_size : Z;
  g_pmbd_wpmode : Z;
  conf_wr_verify : bool;
  conf_cpu_cache_flag : cache_flag;
  conf_nts : bool;
  conf_clflush : bool
}.

(** [pmbd_buffer_create]: [buffer_space] comes from [vmalloc] with whatever
    it holds ([junk]); every BBI is clean and unbuffered. *)
Definition pmbd_buffer_create (c : PMBD_CONF) (total_pb_num : Z) (junk : memory)
  : PMBD_BUFFER_T :=
  let nb := if g_pmbd_bufsize c >? PMBD_BUFFER_MIN_BUFSIZE
            then MB_TO_BYTES (g_pmbd_bufsize c) / pb_size
            else MB_TO_BYTES PMBD_BUFFER_MIN_BUFSIZE / pb_size in
  mkBuffer nb junk (fun _ => mkBBI (total_pb_num + 2) FALSE) 0 0 0
           (g_pmbd_buffer_batch_size c).

(** [pmbd_alloc] and [pmbd_create]: the device right after registration;
    [pm] is what the reserved memory holds and [junk] what the fresh buffer
    pages hold. *)
Definition pmbd_create (c : PMBD_CONF) (pm : memory) (junk : Z -> memory) : PMBD_DEVICE_T :=
  let sectors := GB_TO_SECTORS (g_pmbd_size c) in
  let total := (sectors * sector_size) / pb_size in
  mkDevice pm sectors
    ((g_pmbd_bufsize c >? 0) && (g_pmbd_num_buffers c >? 0))
    (g_pmbd_wpmode c)
    (fun i => pmbd_buffer_create c total (junk i))
    (g_pmbd_num_buffers c)
    (g_pmbd_buffer_stride c)
    (fun _ => mkPBI (total + 3))
    0
    (conf_wr_verify c) (conf_cpu_cache_flag c) (conf_nts c) (conf_clflush c).

(** ** The logical content of the device and the buffer invariants *)

(** The byte at device address [a] as a read sees it: in the slot when the
    block is buffered, in the PM region otherwise. *)
Definition dev_byte (d : PMBD_DEVICE_T) (a : Z) : byte :=
  let pbn := a / pb_size in
  if PMBD_BLOCK_IS_BUFFERED d pbn
  then buffer_space (PBN_TO_PMBD_BUFFER d pbn)
         (PMBD_BUFFER_BLOCK (pbi_bbn (pbi_space d pbn)) + a mod pb_size)
  else mem_space d a.

Definition dev_view (d : PMBD_DEVICE_T) (a : Z) : byte :=
  if PMBD_DEV_USE_BUFFER d then dev_byte d a else mem_space d a.

(** Slot [k] lies in the dirty segment [[pos_dirty, pos_clean)] of the ring. *)
Definition in_window (b : PMBD_BUFFER_T) (k : Z) : Prop :=
  0 <= k < num_blocks b /\
  (pos_dirty b <= k < pos_dirty b + num_dirty b \/
   k + num_blocks b < pos_dirty b + num_dirty b).

(** Position [x] of the ring, for [0 <= x < 2 * num_blocks]. *)
Definition ring (b : PMBD_BUFFER_T) (x : Z) : Z :=
  if x <? num_blocks b then x else x - num_blocks b.

Definition control_ok (d : PMBD_DEVICE_T) (b : PMBD_BUFFER_T) : Prop :=
  0 < num_blocks b <= PMBD_TOTAL_PB_NUM d + 3 /\
  0 <= pos_dirty b < num_blocks b /\
  0 <= num_dirty b <= num_blocks b /\
  pos_clean b = ring b (pos_dirty b + num_dirty b) /\
  1 <= batch_size b.

(** Slot [k] of buffer [bid] and the physical block it names point at each
    other. *)
Definition linked (d : PMBD_DEVICE_T) (bid k : Z) : Prop :=
  let p := bbi_pbn (bbi_space (buffers d bid) k) in
  0 <= p < PMBD_TOTAL_PB_NUM d /\
  PBN_TO_PMBD_BUFFER_ID d p = bid /\
  pbi_bbn (pbi_space d p) = k.

(** The PM block named by slot [k] holds the bytes of the slot. *)
Definition synced (d : PMBD_DEVICE_T) (bid k : Z) : Prop :=
  forall j, 0 <= j < pb_size ->
    mem_space d (PMBD_BLOCK_VADDR (bbi_pbn (bbi_space (buffers d bid) k)) + j) =
    buffer_space (buffers d bid) (PMBD_BUFFER_BLOCK k + j).

Definition slot_dirty (d : PMBD_DEVICE_T) (bid k : Z) : Prop :=
  linked d bid k /\ bbi_dirty (bbi_space (buffers d bid) k) = true.

Definition slot_synced (d : PMBD_DEVICE_T) (bid k : Z) : Prop :=
  linked d bid k /\ bbi_dirty (bbi_space (buffers d bid) k) = false /\ synced d bid k.

Definition slot_free (d : PMBD_DEVICE_T) (bid k : Z) : Prop :=
  bbi_pbn (bbi_space (buffers d bid) k) = PMBD_TOTAL_PB_NUM d + 2.

Definition device_ok (d : PMBD_DEVICE_T) : Prop :=
  0 < num_buffers d /\ 0 < buffer_stride d /\
  0 <= num_sectors d /\ num_sectors d mod 8 = 0 /\
  num_sectors d * sector_size + 3 < U64_MOD.

(** The invariant of a buffered device while buffer [hb] is being flushed:
    the slots of its dirty segment may already be synced to PM, or already
    unlinked; in every other buffer each slot of the dirty segment is linked
    and dirty. *)
Definition wfr (d : PMBD_DEVICE_T) (hb : Z) : Prop :=
  device_ok d /\
  (forall bid, 0 <= bid < num_buffers d ->
     control_ok d (buffers d bid) /\
     forall k, in_window (buffers d bid) k ->
       slot_dirty d bid k \/
       (bid = hb /\ (slot_synced d bid k \/ slot_free d bid k))) /\
  (forall p, 0 <= p < PMBD_TOTAL_PB_NUM d ->
     0 <= pbi_bbn (pbi_space d p) /\
     (PMBD_BLOCK_IS_BUFFERED d p = true ->
      in_window (PBN_TO_PMBD_BUFFER d p) (pbi_bbn (pbi_space d p)) /\
      bbi_pbn (bbi_space (PBN_TO_PMBD_BUFFER d p) (pbi_bbn (pbi_space d p))) = p)).

(** The invariant between operations: no flush is under way. *)
Definition wf (d : PMBD_DEVICE_T) : Prop := wfr d (-1).

(** What holds of a device between operations: the buffer tables are sound
    when the device uses the buffer. *)
Definition dev_inv (d : PMBD_DEVICE_T) : Prop :=
  if PMBD_DEV_USE_BUFFER d then wf d else True.

(** The view after writing [bytes] bytes of [src] at [sector]. *)
Definition written (view : memory) (src : memory) (sector bytes : Z) : memory :=
  memcpy view (SECTOR_TO_BYTE sector) src 0 bytes.

(** [d'] has the configuration of [d]. *)
Definition same_conf (d d' : PMBD_DEVICE_T) : Prop :=
  num_sectors d' = num_sectors d /\ bufmode d' = bufmode d /\ wpmode d' = wpmode d /\
  num_buffers d' = num_buffers d /\ buffer_stride d' = buffer_stride d /\
  num_flying_wr d' = num_flying_wr d /\
  g_pmbd_wr_verify d' = g_pmbd_wr_verify d /\
  g_pmbd_cpu_cache_flag d' = g_pmbd_cpu_cache_flag d /\
  g_pmbd_nts d' = g_pmbd_nts d /\
  g_pmbd_cpu_cache_clflush d' = g_pmbd_cpu_cache_clflush d.

(** [d'] differs from [d] at most in the PM region, the PBI table and the
    BBI table of buffer [hb]. *)
Definition flush_step (d d' : PMBD_DEVICE_T) (hb : Z) : Prop :=
  same_conf d d' /\
  (forall bid, bid <> hb -> buffers d' bid = buffers d bid) /\
  num_blocks (buffers d' hb) = num_blocks (buffers d hb) /\
  num_dirty (buffers d' hb) = num_dirty (buffers d hb) /\
  pos_dirty (buffers d' hb) = pos_dirty (buffers d hb) /\
  pos_clean (buffers d' hb) = pos_clean (buffers d hb) /\
  batch_size (buffers d' hb) = batch_size (buffers d hb) /\
  buffer_space (buffers d' hb) = buffer_space (buffers d hb).

(** Reads of the device see the same bytes in [d'] as in [d]. *)
Definition same_view (d d' : PMBD_DEVICE_T) : Prop :=
  forall a, 0 <= a < PMBD_MEM_TOTAL_BYTES d -> dev_byte d' a = dev_byte d a.

(** A request that [pmbd_make_request] lets through: whole sectors, not
    empty, inside the capacity. *)
Definition request_ok (d : PMBD_DEVICE_T) (sector bytes : Z) : Prop :=
  0 <= sector /\ 0 < bytes /\ bytes mod SECTOR_SIZE = 0 /\
  sector + BYTE_TO_SECTOR bytes <= num_sectors d.

(** Module parameters under which the buffer tables are sound: the device
    is not empty, and when buffering is on, the stride and the batch size are
    positive and a buffer has no more slots than the value
    [PMBD_TOTAL_PB_NUM + 3] that marks a block as not buffered. *)
Definition conf_ok (c : PMBD_CONF) : Prop :=
  0 < g_pmbd_size c < 8589934592 /\
  ((g_pmbd_bufsize c >? 0) && (g_pmbd_num_buffers c >? 0) = true ->
   0 < g_pmbd_buffer_stride c /\ 1 <= g_pmbd_buffer_batch_size c /\
   num_blocks (pmbd_buffer_create c 0 (fun _ => x00)) <=
     (GB_TO_SECTORS (g_pmbd_size c) * sector_size) / pb_size + 3).

(** The states of a device between calls of its storage routines. *)
Inductive reachable (c : PMBD_CONF) : PMBD_DEVICE_T -> Prop :=
| reach_create (pm : memory) (junk : Z -> memory) :
    reachable c (pmbd_create c pm junk)
| reach_write (d d' : PMBD_DEVICE_T) (fuel : nat) (src : memory) (sector bytes : Z)
    (do_fua : bool) :
    reachable c d -> request_ok d sector bytes ->
    copy_to_pmbd fuel d src sector bytes do_fua = Ok d' ->
    reachable c d'
| reach_alloc (d d' : PMBD_DEVICE_T) (fuel : nat) (pbn pos : Z) :
    reachable c d -> bufmode d = true ->
    0 <= pbn < PMBD_TOTAL_PB_NUM d ->
    _pmbd_buffer_lookup d (PBN_TO_PMBD_BUFFER_ID d pbn) pbn = None ->
    pmbd_buffer_alloc_block fuel d (PBN_TO_PMBD_BUFFER_ID d pbn) pbn = Ok (d', pos) ->
    reachable c d'
| reach_flush (d d' : PMBD_DEVICE_T) (bid num_to_clean caller cleaned : Z) :
    reachable c d -> bufmode d = true ->
    0 <= bid < num_buffers d -> 0 <= num_to_clean ->
    pmbd_buffer_check_and_flush d bid num_to_clean caller = Ok (d', cleaned) ->
    reachable c d'
| reach_barrier (d d' : PMBD_DEVICE_T) :
    reachable c d -> pmbd_write_barrier d = Ok d' ->
    reachable c d'.

(** [a, a+1, ..., a+n-1]. *)
Fixpoint zseq (a : Z) (n : nat) : list Z :=
  match n with
  | O => []
  | S n' => a :: zseq (a + 1) n'
  end.

(** The entry that the scan of [pmbd_buffer_flush] records for the [i]-th
    slot of the dirty segment. *)
Definition entry_at (b : PMBD_BUFFER_T) (i : Z) : PMBD_BSORT_ENTRY_T :=
  mkSE (ring b (pos_dirty b + i)) (bbi_pbn (bbi_space b (ring b (pos_dirty b + i)))).

(** An entry of the snapshot whose slot is still linked and dirty. *)
Definition entry_pending (d : PMBD_DEVICE_T) (hb : Z) (e : PMBD_BSORT_ENTRY_T) : Prop :=
  in_window (buffers d hb) (se_bbn e) /\ slot_dirty d hb (se_bbn e).

(** What a flush of buffer [hb] that cleaned [r] slots leaves behind. *)
Definition flush_post (d : PMBD_DEVICE_T) (hb : Z) (d' : PMBD_DEVICE_T) (r : Z) : Prop :=
  wf d' /\ same_view d d' /\ same_conf d d' /\
  (forall bid, bid <> hb -> buffers d' bid = buffers d bid) /\
  num_blocks (buffers d' hb) = num_blocks (buffers d hb) /\
  batch_size (buffers d' hb) = batch_size (buffers d hb) /\
  buffer_space (buffers d' hb) = buffer_space (buffers d hb) /\
  pos_clean (buffers d' hb) = pos_clean (buffers d hb) /\
  num_dirty (buffers d' hb) = num_dirty (buffers d hb) - r /\
  pos_dirty (buffers d' hb) = (pos_dirty (buffers d hb) + r) mod num_blocks (buffers d hb) /\
  (forall p, PMBD_BLOCK_IS_BUFFERED d p = false -> pbi_space d' p = pbi_space d p).



(** * Device emulation

    The emulation code of [pmbd.c] reads the CPU cycle counter and waits.
    The emulation fields of [PMBD_DEVICE_T] are kept in a record of their
    own, [PMBD_EMUL_T], together with the counter: [tsc] is the value the
    next [TIMESTAMP] reads, and [pace t] the cycles that pass between a read
    at [t] and the next one.  What the waits do is also written to a log,
    so that one can say when, and under which lock, a wait took place. *)

Definition READ : Z := 0.
Definition WRITE : Z := 1.

Definition MAX_SYNC_SLOWDOWN : Z := 10000000.
Definition PMBD_BATCH_MAX_SECTORS : Z := 4096.
Definition PMBD_BATCH_MIN_SECTORS : Z := 256.
Definition PMBD_BATCH_MAX_INTERVAL : Z := 1000000.
Definition PMBD_BATCH_MAX_DURATION : Z := 10000000.

(** What the outside sees of a run, each with the cycle at which it
    happened in the log. *)
Inductive EVENT : Type :=
| EvBusyWait (ns : Z) (batch_locked : bool)   (* [sync_slowdown(ns)] began *)
| EvSleep (ms : Z) (batch_locked : bool)      (* [msleep(ms)] *)
| EvEndio (err : Z) (flying : Z)              (* [bio_endio(bio, err)] *)
| EvEmulEnd                                   (* [emul_end] returned *)
| EvDec (flying : Z).                         (* [atomic_dec(&num_flying_wr)] *)

Record PMBD_EMUL_T : Type := mkEmul {
  simmode : Z;                  (* whole device (0) or PM only (1) *)
  rdlat : Z;                    (* read access latency (ns) *)
  wrlat : Z;                    (* write access latency (ns) *)
  rdbw : Z;                     (* read bandwidth (MB/sec) *)
  wrbw : Z;                     (* write bandwidth (MB/sec) *)
  batch_start_cycle : Z -> Z;   (* indexed by READ, WRITE *)
  batch_end_cycle : Z -> Z;
  batch_sectors : Z -> Z;
  batch_lock : bool;            (* held or not *)
  tsc : Z;
  cpu_khz : Z;
  pace : Z -> Z;
  trace : list (Z * EVENT)      (* newest first *)
}.

Definition set_batch (e : PMBD_EMUL_T) (s en sec : Z -> Z) : PMBD_EMUL_T :=
  mkEmul (simmode e) (rdlat e) (wrlat e) (rdbw e) (wrbw e) s en sec
         (batch_lock e) (tsc e) (cpu_khz e) (pace e) (trace e).

Definition set_batch_lock (e : PMBD_EMUL_T) (l : bool) : PMBD_EMUL_T :=
  mkEmul (simmode e) (rdlat e) (wrlat e) (rdbw e) (wrbw e) (batch_start_cycle e)
         (batch_end_cycle e) (batch_sectors e) l (tsc e) (cpu_khz e) (pace e) (trace e).

Definition set_tsc (e : PMBD_EMUL_T) (t : Z) : PMBD_EMUL_T :=
  mkEmul (simmode e) (rdlat e) (wrlat e) (rdbw e) (wrbw e) (batch_start_cycle e)
         (batch_end_cycle e) (batch_sectors e) (batch_lock e) t (cpu_khz e) (pace e)
         (trace e).

Definition log_event (e : PMBD_EMUL_T) (ev : EVENT) : PMBD_EMUL_T :=
  mkEmul (simmode e) (rdlat e) (wrlat e) (rdbw e) (wrbw e) (batch_start_cycle e)
         (batch_end_cycle e) (batch_sectors e) (batch_lock e) (tsc e) (cpu_khz e) (pace e)
         ((tsc e, ev) :: trace e).

(** [TIMESTAMP(TS)], which is [rdtscll(TS)]. *)
Definition TIMESTAMP (e : PMBD_EMUL_T) : Z * PMBD_EMUL_T :=
  (tsc e, set_tsc e (tsc e + pace e (tsc e))).

(** [msleep(ms)]: [ms] milliseconds pass, which are [ms * cpu_khz] cycles. *)
Definition msleep (ms : Z) (e : PMBD_EMUL_T) : PMBD_EMUL_T :=
  let e1 := log_event e (EvSleep ms (batch_lock e)) in
  set_tsc e1 (tsc e1 + ms * cpu_khz e1).

Definition PMBD_DEV_USE_EMULATION (e : PMBD_EMUL_T) : bool :=
  negb (rdlat e =? 0) || negb (wrlat e =? 0) || negb (rdbw e =? 0) || negb (wrbw e =? 0).
Definition PMBD_DEV_SIM_PMBD (e : PMBD_EMUL_T) : bool :=
  PMBD_DEV_USE_EMULATION e && (simmode e =? 1).

(** [DIV64_ROUND(dividend, divisor)]; the four locals are [uint32_t], and so
    is their sum before it is widened. *)
Definition DIV64_ROUND (dividend divisor : Z) : Z :=
  if divisor >? 0 then
    let quot1 := u32 (dividend / divisor) in
    let mod_ := u32 (dividend mod divisor) in
    let mult := u32 (mod_ * 2) in
    let quot2 := u32 (mult / divisor) in
    let result := u32 (quot1 + quot2) in
    result
  else 0.

Definition get_cpu_freq (e : PMBD_EMUL_T) : Z := cpu_khz e.

Definition _cycle_to_ns (cycle khz : Z) : Z := u64 (cycle * 1000000) / khz.

Definition cycle_to_ns (e : PMBD_EMUL_T) (cycle : Z) : Z :=
  let khz := get_cpu_freq e in
  _cycle_to_ns cycle khz.

(** [cal_trans_time(num_sectors, rw, pmbd)]; [num_sectors] is an
    [unsigned int], and so is its product with [PMBD_SECTOR_SIZE]. *)
Definition cal_trans_time (num_sectors rw : Z) (e : PMBD_EMUL_T) : Z :=
  let num_sectors := u32 num_sectors in
  let ns := 0 in
  let bw := if rw =? READ then rdbw e else wrbw e in
  if negb (bw =? 0) then
    let tmp := u32 (num_sectors * PMBD_SECTOR_SIZE) in
    let tt := Z.shiftr 1000000000 MB_SHIFT in
    u64 (ns + DIV64_ROUND (u64 (tmp * tt)) bw)
  else ns.


(** The loop of [sync_slowdown]: read the counter until more than [ns]
    nanoseconds have passed since [start]; [fuel] bounds the reads. *)
Fixpoint sync_poll (fuel : nat) (start ns khz : Z) (e : PMBD_EMUL_T) : result PMBD_EMUL_T :=
  match fuel with
  | O => Spin
  | S fuel' =>
    let (now, e1) := TIMESTAMP e in
    if _cycle_to_ns (u64 (now - start)) khz >? ns then Ok e1
    else sync_poll fuel' start ns khz e1
  end.

Definition sync_slowdown (fuel : nat) (ns : Z) (e : PMBD_EMUL_T) : result PMBD_EMUL_T :=
  let khz := get_cpu_freq e in
  if negb (ns =? 0) then
    let e0 := log_event e (EvBusyWait ns (batch_lock e)) in
    let (start, e1) := TIMESTAMP e0 in
    sync_poll fuel start ns khz e1
  else Ok e.

Definition async_slowdown (fuel : nat) (ns : Z) (e : PMBD_EMUL_T) : result PMBD_EMUL_T :=
  let ms := ns / 1000000 in
  let left := u64 (ns - u64 (ms * 1000000)) in
  let e1 := msleep ms e in
  sync_slowdown fuel left e1.

Definition pmbd_slowdown (fuel : nat) (ns : Z) (in_lock : bool) (e : PMBD_EMUL_T)
  : result PMBD_EMUL_T :=
  if (ns >? MAX_SYNC_SLOWDOWN) && negb in_lock then async_slowdown fuel ns e
  else if ns >? 0 then sync_slowdown fuel ns e
  else Ok e.

(** [spin_lock(&pmbd->batch_lock)]: with the lock held the caller spins. *)
Definition spin_lock_batch (e : PMBD_EMUL_T) : result PMBD_EMUL_T :=
  if batch_lock e then Spin else Ok (set_batch_lock e true).
Definition spin_unlock_batch (e : PMBD_EMUL_T) : PMBD_EMUL_T := set_batch_lock e false.

(** [pmbd_emul_transfer_time(num_sectors, rw, pmbd)]. *)
Definition pmbd_emul_transfer_time (fuel : nat) (num_sectors rw : Z) (e : PMBD_EMUL_T)
  : result PMBD_EMUL_T :=
  e <- spin_lock_batch e ;;
  let (now_cycle, e) := TIMESTAMP e in
  if batch_start_cycle e rw =? 0 then
    let e := set_batch e (upd (batch_start_cycle e) rw now_cycle)
                         (upd (batch_end_cycle e) rw now_cycle) (batch_sectors e) in
    Ok (spin_unlock_batch e)
  else
    if negb (now_cycle >=? batch_end_cycle e rw) then Panic
    else
      let interval_ns := cycle_to_ns e (u64 (now_cycle - batch_end_cycle e rw)) in
      let new_batch := interval_ns >=? PMBD_BATCH_MAX_INTERVAL in
      let end_batch := interval_ns >=? PMBD_BATCH_MAX_INTERVAL in
      let e :=
        if interval_ns >=? PMBD_BATCH_MAX_INTERVAL then e
        else set_batch e (batch_start_cycle e) (upd (batch_end_cycle e) rw now_cycle)
               (upd (batch_sectors e) rw (u64 (batch_sectors e rw + num_sectors))) in
      let duration_ns :=
        cycle_to_ns e (u64 (batch_end_cycle e rw - batch_start_cycle e rw)) in
      let end_batch := end_batch || (duration_ns >=? PMBD_BATCH_MAX_DURATION) in
      let end_batch := end_batch || (batch_sectors e rw >=? PMBD_BATCH_MAX_SECTORS) in
      e <- (if end_batch then
              e <- (if batch_sectors e rw >? PMBD_BATCH_MIN_SECTORS then
                      let real_ns :=
                        cycle_to_ns e (u64 (batch_end_cycle e rw - batch_start_cycle e rw)) in
                      let emul_ns := cal_trans_time (batch_sectors e rw) rw e in
                      if emul_ns >? real_ns
                      then pmbd_slowdown fuel (u64 (emul_ns - real_ns)) TRUE e
                      else Ok e
                    else Ok e) ;;
              Ok (set_batch e (upd (batch_start_cycle e) rw now_cycle)
                              (upd (batch_end_cycle e) rw now_cycle)
                              (upd (batch_sectors e) rw 0))
            else Ok e) ;;
      let e :=
        if new_batch
        then set_batch e (upd (batch_start_cycle e) rw now_cycle)
                         (upd (batch_end_cycle e) rw now_cycle)
                         (upd (batch_sectors e) rw (u64 num_sectors))
        else e in
      Ok (spin_unlock_batch e).




(** ** The clock

    The least number of cycles [c] for which [_cycle_to_ns c khz > ns]. *)
Definition cycles_for (khz ns : Z) : Z := ((ns + 1) * khz + 999999) / 1000000.

(** The counter runs: the frequency is known, every read of the counter
    takes at least one cycle and at most [P], and a wait of [ns] nanoseconds
    ends before the conversion to nanoseconds leaves 64 bits. *)
Definition clock_ok (e : PMBD_EMUL_T) (P ns : Z) : Prop :=
  0 < cpu_khz e /\ (forall t, 0 < pace e t <= P) /\ 0 <= tsc e /\
  (cycles_for (cpu_khz e) ns + P) * 1000000 < U64_MOD.

(** [e'] has the emulation parameters and the clock of [e]. *)
Definition same_emul (e e' : PMBD_EMUL_T) : Prop :=
  simmode e' = simmode e /\ rdlat e' = rdlat e /\ wrlat e' = wrlat e /\
  rdbw e' = rdbw e /\ wrbw e' = wrbw e /\ cpu_khz e' = cpu_khz e /\ pace e' = pace e.

(** [e'] has the batch windows and the lock of [e]. *)
Definition same_batch (e e' : PMBD_EMUL_T) : Prop :=
  batch_start_cycle e' = batch_start_cycle e /\ batch_end_cycle e' = batch_end_cycle e /\
  batch_sectors e' = batch_sectors e /\ batch_lock e' = batch_lock e.

(** ** The batch window at a call of [pmbd_emul_transfer_time]

    The quantities the function computes when it is called in state [e] for
    [num_sectors] sectors in direction [rw]; the counter reads [tsc e]. *)

(** The gap since the last request of the batch is too long. *)
Definition batch_gap (e : PMBD_EMUL_T) (rw : Z) : bool :=
  cycle_to_ns e (u64 (tsc e - batch_end_cycle e rw)) >=? PMBD_BATCH_MAX_INTERVAL.

(** The sectors of the batch, with this request unless there is a gap. *)
Definition batch_accumulated (e : PMBD_EMUL_T) (rw num_sectors : Z) : Z :=
  if batch_gap e rw then batch_sectors e rw else u64 (batch_sectors e rw + num_sectors).

(** How long the batch has lasted. *)
Definition batch_real_ns (e : PMBD_EMUL_T) (rw : Z) : Z :=
  cycle_to_ns e
    (u64 ((if batch_gap e rw then batch_end_cycle e rw else tsc e) - batch_start_cycle e rw)).

(** The batch ends with this call. *)
Definition batch_closes (e : PMBD_EMUL_T) (rw num_sectors : Z) : bool :=
  batch_gap e rw || (batch_real_ns e rw >=? PMBD_BATCH_MAX_DURATION) ||
  (batch_accumulated e rw num_sectors >=? PMBD_BATCH_MAX_SECTORS).

(** How long the batch should last at the target bandwidth. *)
Definition batch_target_ns (e : PMBD_EMUL_T) (rw num_sectors : Z) : Z :=
  cal_trans_time (batch_accumulated e rw num_sectors) rw e.

(** The batch window of direction [rw] is open and the lock is free. *)
Definition batch_open (e : PMBD_EMUL_T) (rw : Z) : Prop :=
  batch_lock e = false /\ batch_start_cycle e rw <> 0 /\ batch_end_cycle e rw <= tsc e.

(** The log entry is a wait. *)
Definition is_wait (x : Z * EVENT) : bool :=
  match snd x with
  | EvBusyWait _ _ | EvSleep _ _ => true
  | _ => false
  end.


(** * The dispatcher *)












(** ** Requests in flight

    What [pmbd_make_request] and [pmbd_write_barrier] do to
    [num_flying_wr] and [wr_barrier_lock] when several threads run them: a
    thread is at one of the points below, and a step moves one thread to its
    next point.  Nothing else in the driver assigns the two variables, so
    the steps that service a request change neither. *)
Module Sync.

Inductive PC : Type :=
| Entry            (* before the barrier check *)
| BarrierLock      (* at [spin_lock(&pmbd->wr_barrier_lock)] of the barrier *)
| BarrierWait      (* at [while (atomic_read(&pmbd->num_flying_wr) != 0)] *)
| BarrierFlush     (* flushing the buffers and the cache *)
| BarrierUnlock    (* at [spin_unlock(&pmbd->wr_barrier_lock)] *)
| Gate             (* at [if (rw == WRITE)] with its lock and unlock *)
| Inc              (* at [atomic_inc(&pmbd->num_flying_wr)] *)
| Work             (* emulation start, range check and the segments *)
| Endio            (* at [bio_endio(bio, err)] *)
| EmulEnd          (* at [emul_end] *)
| Dec              (* at [atomic_dec(&pmbd->num_flying_wr)] *)
| Done.

Record THREAD : Type := mkThread {
  rw : Z;
  barrier : bool;       (* BIO_WR_BARRIER(bio) *)
  pc : PC
}.

Record STATE : Type := mkState {
  num_flying_wr : Z;
  wr_barrier_lock : bool;       (* held or not *)
  threads : list THREAD
}.

Definition at_pc (t : THREAD) (p : PC) : THREAD := mkThread (rw t) (barrier t) p.

(** One step of thread [t]: the new counter, lock and thread, or nothing
    when the thread has to wait or has returned. *)
Definition step_thread (g_pmbd_wb : bool) (n : Z) (l : bool) (t : THREAD)
  : option (Z * bool * THREAD) :=
  match pc t with
  | Entry =>
    if barrier t && Bool.eqb g_pmbd_wb TRUE then Some (n, l, at_pc t BarrierLock)
    else Some (n, l, at_pc t Gate)
  | BarrierLock => if l then None else Some (n, true, at_pc t BarrierWait)
  | BarrierWait => if negb (n =? 0) then None else Some (n, l, at_pc t BarrierFlush)
  | BarrierFlush => Some (n, l, at_pc t BarrierUnlock)
  | BarrierUnlock => Some (n, false, at_pc t Gate)
  | Gate =>
    if rw t =? WRITE then (if l then None else Some (n, l, at_pc t Inc))
    else Some (n, l, at_pc t Inc)
  | Inc => Some (n + 1, l, at_pc t Work)
  | Work => Some (n, l, at_pc t Endio)
  | Endio => Some (n, l, at_pc t EmulEnd)
  | EmulEnd => Some (n, l, at_pc t Dec)
  | Dec => Some (n - 1, l, at_pc t Done)
  | Done => None
  end.

Fixpoint set_nth (ts : list THREAD) (i : nat) (t : THREAD) : list THREAD :=
  match ts, i with
  | [], _ => []
  | _ :: rest, O => t :: rest
  | x :: rest, S i' => x :: set_nth rest i' t
  end.

(** A step of the [i]-th thread. *)
Definition step (g_pmbd_wb : bool) (s : STATE) (i : nat) : option STATE :=
  match nth_error (threads s) i with
  | None => None
  | Some t =>
    match step_thread g_pmbd_wb (num_flying_wr s) (wr_barrier_lock s) t with
    | None => None
    | Some (n, l, t') => Some (mkState n l (set_nth (threads s) i t'))
    end
  end.

(** The thread is between its [atomic_inc] and its [atomic_dec]. *)
Definition in_flight (t : THREAD) : bool :=
  match pc t with
  | Work | Endio | EmulEnd | Dec => true
  | _ => false
  end.

Definition flying (ts : list THREAD) : Z :=
  Z.of_nat (length (filter in_flight ts)).

(** Requests of any kind arrive, each in a thread of its own, on a device
    whose counter is 0 and whose lock is free. *)
Definition arrive (reqs : list (Z * bool)) : STATE :=
  mkState 0 false (map (fun r => mkThread (fst r) (snd r) Entry) reqs).

Inductive reachable (g_pmbd_wb : bool) : STATE -> Prop :=
| reach_arrive (reqs : list (Z * bool)) : reachable g_pmbd_wb (arrive reqs)
| reach_step (s s' : STATE) (i : nat) :
    reachable g_pmbd_wb s -> step g_pmbd_wb s i = Some s' -> reachable g_pmbd_wb s'.


End Sync.

(** * Example devices and requests *)

(** A 1 GB device with one buffer of 4 MB (1024 slots), stride and batch
    size 1024, and the same device without a buffer. *)
Definition conf_buffered : PMBD_CONF :=
  mkConf 1 4 1 1024 1024 0 FALSE PAGE_CACHE_WB FALSE FALSE.
Definition conf_unbuffered : PMBD_CONF :=
  mkConf 1 0 0 1024 1024 0 FALSE PAGE_CACHE_WB FALSE FALSE.

Definition zero_memory : memory := fun _ => x00.

Definition dev_buffered : PMBD_DEVICE_T :=
  pmbd_create conf_buffered zero_memory (fun _ => zero_memory).
Definition dev_unbuffered : PMBD_DEVICE_T :=
  pmbd_create conf_unbuffered zero_memory (fun _ => zero_memory).

(** One sector of [0x11] bytes. *)
Definition sector_11 : list byte := repeat x11 512.

(** The buffered device after a write of one sector at sector 9: block 1 is
    buffered and its slot is dirty. *)
Definition dev_dirty : PMBD_DEVICE_T :=
  match copy_to_pmbd 2 dev_buffered (of_list sector_11) 9 512 false with
  | Ok d => d
  | _ => dev_buffered
  end.

(** A machine at 1 GHz on which a read of the cycle counter takes 1000
    cycles, with both bandwidths set to 100 MB/s.  The write batch has 256
    sectors, gathered within 0.1 ms, and the last request came 2.9 ms ago. *)
Definition emul_batch_256 : PMBD_EMUL_T :=
  mkEmul 0 0 0 100 100 (fun _ => 1000) (fun _ => 101000) (upd (fun _ => 0) WRITE 256)
         false 3000000 1000000 (fun _ => 1000) [].

(** A machine at 1 MHz on which a read of the cycle counter takes one cycle;
    the write batch has 4088 sectors, and the last request came 10 cycles
    ago. *)
Definition emul_batch_4088 : PMBD_EMUL_T :=
  mkEmul 0 0 0 100 100 (fun _ => 10) (fun _ => 20) (upd (fun _ => 0) WRITE 4088)
         false 30 1000 (fun _ => 1) [].








(** * More of the driver

    The routines of [pmbd.c] around the ones above: tearing a device down,
    the loops that copy into the PM region piece by piece, the page
    checksums, the allocator of the reserved memory, and the pauses and
    slowdowns measured in cycles. *)

(** ** Tearing the device down *)

(** [pmbd_buffer_destroy(buffer)]: the flush on behalf of the destroyer;
    what follows it gives the memory of the buffer back. *)
Definition pmbd_buffer_destroy (d : PMBD_DEVICE_T) (bid : Z) : result PMBD_DEVICE_T :=
  r <- pmbd_buffer_check_and_flush d bid (num_blocks (buffers d bid)) CALLER_DESTROYER ;;
  Ok (fst r).

Definition pmbd_buffers_destroy (d : PMBD_DEVICE_T) : result PMBD_DEVICE_T :=
  for_range (Z.to_nat (num_buffers d)) 0 (fun i d' => pmbd_buffer_destroy d' i) d.

Definition pmbd_buffer_space_free (d : PMBD_DEVICE_T) : result PMBD_DEVICE_T :=
  if num_buffers d <=? 0 then Ok d else pmbd_buffers_destroy d.

(** [pmbd_destroy(pmbd)] up to [pmbd_mem_space_free]: what the PM region
    holds when the device lets go of it. *)
Definition pmbd_destroy (d : PMBD_DEVICE_T) : result memory :=
  d1 <- pmbd_write_barrier d ;;
  d2 <- pmbd_buffer_space_free d1 ;;
  Ok (mem_space d2).

(** ** Copying into the PM region piece by piece

    The loops of [memcpy_to_pmbd_nopmap] and [_memcpy_pmbd_pmap] with
    [MEMCPY_TO_PMBD] and [MEMCPY_FROM_PMBD] being [memcpy] (no non-temporal
    stores or loads).  Next to the memory they return the pieces that
    [MEMCPY_TO_PMBD] wrote, as address and size, newest first.  The
    timestamps, the slowdown and the cache-line flushes between the pieces
    change no byte and are left out. *)

Definition PMBD_CACHELINE_SIZE : Z := 64.
Definition MIN_OF (a b : Z) : Z := if a <? b then a else b.
Definition MAX_OF (a b : Z) : Z := if a >? b then a else b.
Definition PAGE_MASK : Z := Z.lnot (PAGE_SIZE - 1).

Fixpoint memcpy_to_pmbd_nopmap (fuel : nat) (g_pmbd_subpage_update : bool)
  (pm : memory) (dst : Z) (src : memory) (from : Z) (left : Z)
  (wr : list (Z * Z)) : result (memory * list (Z * Z)) :=
  match fuel with
  | O => Spin
  | S fuel' =>
    if left =? 0 then Ok (pm, wr)
    else
      let size := left in
      let size :=
        if Bool.eqb g_pmbd_subpage_update TRUE then MIN_OF size PMBD_CACHELINE_SIZE
        else size in
      let (pm, wr) :=
        if Bool.eqb g_pmbd_subpage_update TRUE then
          if negb (mem_eqb (Z.to_nat size) pm dst src from)
          then (memcpy pm dst src from size, (dst, size) :: wr)
          else (pm, wr)
        else (memcpy pm dst src from size, (dst, size) :: wr) in
      memcpy_to_pmbd_nopmap fuel' g_pmbd_subpage_update pm (dst + size) src (from + size)
        (left - size) wr
  end.

(** A piece written by a sub-page update: at most a cache line, inside the
    range, and over bytes of which at least one was different. *)
Definition piece_differs (pm : memory) (dst : Z) (src : memory) (from left : Z)
  (x : Z * Z) : Prop :=
  0 < snd x <= PMBD_CACHELINE_SIZE /\ dst <= fst x /\ fst x + snd x <= dst + left /\
  exists j, 0 <= j < snd x /\ pm (fst x + j) <> src (from + (fst x - dst) + j).

(** [PMBD_PMAP_VA_TO_PA(VA)]. *)
Definition PMBD_PMAP_DUMMY_BASE_VA : Z := 4096.
Definition PMBD_PMAP_VA_TO_PA (g_highmem_phys_addr va : Z) : Z :=
  g_highmem_phys_addr + va - PMBD_PMAP_DUMMY_BASE_VA.

(** [pmap_atomic_pfn(pfn, pmbd, rw)] maps the page frame [pfn]; the byte at
    offset [off] of the mapping is the byte of physical memory below. *)
Definition pmap_atomic_pfn (pfn off : Z) : Z := Z.shiftl pfn PAGE_SHIFT + off.

(** [_memcpy_pmbd_pmap(pmbd, ram_va, pmbd_dummy_va, bytes, rw, do_fua)]:
    [phys] is the physical memory, [ram] the other side of the copy; the
    result is the physical memory, the RAM side and the pieces written to
    physical memory. *)
Fixpoint _memcpy_pmbd_pmap_loop (fuel : nat) (g_pmbd_subpage_update : bool)
  (phys : memory) (ram : memory) (ram_va pa bytes rw : Z) (wr : list (Z * Z))
  : result (memory * memory * list (Z * Z)) :=
  match fuel with
  | O => Spin
  | S fuel' =>
    if bytes =? 0 then Ok (phys, ram, wr)
    else
      let pfn := Z.shiftr pa PAGE_SHIFT in
      let off := Z.land pa (Z.lnot PAGE_MASK) in
      let size := MIN_OF (PAGE_SIZE - off) bytes in
      let pmbd_va := pmap_atomic_pfn pfn off in
      if rw =? READ then
        _memcpy_pmbd_pmap_loop fuel' g_pmbd_subpage_update phys
          (memcpy ram ram_va phys pmbd_va size) (ram_va + size) (pa + size) (bytes - size)
          rw wr
      else
        let size :=
          if Bool.eqb g_pmbd_subpage_update TRUE then MIN_OF size PMBD_CACHELINE_SIZE
          else size in
        let (phys, wr) :=
          if Bool.eqb g_pmbd_subpage_update TRUE then
            if negb (mem_eqb (Z.to_nat size) phys pmbd_va ram ram_va)
            then (memcpy phys pmbd_va ram ram_va size, (pmbd_va, size) :: wr)
            else (phys, wr)
          else (memcpy phys pmbd_va ram ram_va size, (pmbd_va, size) :: wr) in
        _memcpy_pmbd_pmap_loop fuel' g_pmbd_subpage_update phys ram (ram_va + size)
          (pa + size) (bytes - size) rw wr
  end.

Definition _memcpy_pmbd_pmap (fuel : nat) (g_pmbd_subpage_update : bool)
  (g_highmem_phys_addr : Z) (phys ram : memory) (ram_va pmbd_dummy_va bytes rw : Z)
  : result (memory * memory * list (Z * Z)) :=
  let pa := PMBD_PMAP_VA_TO_PA g_highmem_phys_addr pmbd_dummy_va in
  _memcpy_pmbd_pmap_loop fuel g_pmbd_subpage_update phys ram ram_va pa bytes rw [].

(** A piece that lies in one page. *)
Definition piece_in_page (x : Z * Z) : Prop :=
  0 < snd x /\ fst x / PAGE_SIZE = (fst x + snd x - 1) / PAGE_SIZE.

(** ** Page checksums

    The checksum fields of [PMBD_DEVICE_T] are kept in a record of their
    own; [mismatches] counts the warnings that [pmbd_checksum_on_read]
    prints. *)

Definition byte_val (b : byte) : Z := Z.of_N (Byte.to_N b).

(** The body of the inner loop of [crc32_my]; [0xedb88320] is 3988292384. *)
Definition crc32_bit (crc : Z) : Z :=
  Z.lxor (Z.shiftr crc 1) (if negb (Z.land crc 1 =? 0) then 3988292384 else 0).

(** [crc32_my(p, len)]: the bytes are those of [p] from [a] on. *)
Fixpoint crc32_loop (p : memory) (a : Z) (len : nat) (crc : Z) : Z :=
  match len with
  | O => crc
  | S len' =>
    let crc := Z.lxor crc (byte_val (p a)) in
    let crc := for_each 8 0 (fun _ crc => crc32_bit crc) crc in
    crc32_loop p (a + 1) len' crc
  end.

Definition crc32_my (p : memory) (a : Z) (len : Z) : Z :=
  let crc := 0 in
  crc32_loop p a (Z.to_nat len) crc.

Definition pmbd_checksum_func (data : memory) (a : Z) (size : Z) : Z := crc32_my data a size.

Record PMBD_CHECKSUM_FIELDS : Type := mkChecksum {
  checksum_unit_size : Z;
  checksum_space : Z -> Z;          (* one checksum per unit of the PM region *)
  checksum_iomem_buf : memory;
  mismatches : Z                    (* warnings printed so far *)
}.

Definition set_checksum_iomem_buf (k : PMBD_CHECKSUM_FIELDS) (m : memory) : PMBD_CHECKSUM_FIELDS :=
  mkChecksum (checksum_unit_size k) (checksum_space k) m (mismatches k).

Definition set_checksum_space (k : PMBD_CHECKSUM_FIELDS) (f : Z -> Z) : PMBD_CHECKSUM_FIELDS :=
  mkChecksum (checksum_unit_size k) f (checksum_iomem_buf k) (mismatches k).

Definition warn_mismatch (k : PMBD_CHECKSUM_FIELDS) : PMBD_CHECKSUM_FIELDS :=
  mkChecksum (checksum_unit_size k) (checksum_space k) (checksum_iomem_buf k)
             (mismatches k + 1).

Definition PMBD_CHECKSUM_FIELDSOTAL_NUM (d : PMBD_DEVICE_T) (k : PMBD_CHECKSUM_FIELDS) : Z :=
  PMBD_MEM_TOTAL_BYTES d / checksum_unit_size k.
Definition VADDR_TO_CHECKSUM_IDX (k : PMBD_CHECKSUM_FIELDS) (addr : Z) : Z :=
  addr / checksum_unit_size k.
Definition CHECKSUM_IDX_TO_VADDR (k : PMBD_CHECKSUM_FIELDS) (idx : Z) : Z :=
  idx * checksum_unit_size k.

(** [pmbd_checksum_space_alloc]: the table and the buffer are zeroed. *)
Definition pmbd_checksum_space_alloc : PMBD_CHECKSUM_FIELDS :=
  mkChecksum PAGE_SIZE (fun _ => 0) (fun _ => x00) 0.

(** [pmbd_cal_checksum(pmbd, data)]: the unit is copied into
    [checksum_iomem_buf] and summed there. *)
Definition pmbd_cal_checksum (d : PMBD_DEVICE_T) (k : PMBD_CHECKSUM_FIELDS) (data : Z)
  : result (PMBD_CHECKSUM_FIELDS * Z) :=
  let size := checksum_unit_size k in
  if negb (checksum_unit_size k =? PAGE_SIZE) then Panic
  else
    let k := set_checksum_iomem_buf k
               (memcpy_from_pmbd d (checksum_iomem_buf k) 0 data (checksum_unit_size k)) in
    let chk := pmbd_checksum_func (checksum_iomem_buf k) 0 size in
    Ok (k, chk).

(** [pmbd_checksum_on_write(pmbd, vaddr, bytes)]; [vaddr] is the offset in
    the PM region. *)
Definition pmbd_checksum_on_write (d : PMBD_DEVICE_T) (k : PMBD_CHECKSUM_FIELDS) (vaddr bytes : Z)
  : result PMBD_CHECKSUM_FIELDS :=
  let ck_id_s := VADDR_TO_CHECKSUM_IDX k vaddr in
  let ck_id_e := VADDR_TO_CHECKSUM_IDX k (vaddr + bytes - 1) in
  for_range (Z.to_nat (ck_id_e - ck_id_s + 1)) ck_id_s
    (fun i k =>
       let data := CHECKSUM_IDX_TO_VADDR k i in
       r <- pmbd_cal_checksum d k data ;;
       let (k, checksum) := r in
       Ok (set_checksum_space k (upd (checksum_space k) i checksum)))
    k.

(** [pmbd_checksum_on_read(pmbd, vaddr, bytes)]. *)
Definition pmbd_checksum_on_read (d : PMBD_DEVICE_T) (k : PMBD_CHECKSUM_FIELDS) (vaddr bytes : Z)
  : result PMBD_CHECKSUM_FIELDS :=
  let ck_id_s := VADDR_TO_CHECKSUM_IDX k vaddr in
  let ck_id_e := VADDR_TO_CHECKSUM_IDX k (vaddr + bytes - 1) in
  for_range (Z.to_nat (ck_id_e - ck_id_s + 1)) ck_id_s
    (fun i k =>
       let data := CHECKSUM_IDX_TO_VADDR k i in
       r <- pmbd_cal_checksum d k data ;;
       let (k, checksum) := r in
       if negb (checksum_space k i =? checksum) then Ok (warn_mismatch k) else Ok k)
    k.

(** The units of the range whose stored checksum is not the checksum of
    what the PM region holds. *)
Definition stale_units (d : PMBD_DEVICE_T) (k : PMBD_CHECKSUM_FIELDS) (vaddr bytes : Z) : list Z :=
  filter
    (fun i => negb (checksum_space k i =?
                    crc32_my (mem_space d) (CHECKSUM_IDX_TO_VADDR k i) (checksum_unit_size k)))
    (zseq (VADDR_TO_CHECKSUM_IDX k vaddr)
          (Z.to_nat (VADDR_TO_CHECKSUM_IDX k (vaddr + bytes - 1) -
                     VADDR_TO_CHECKSUM_IDX k vaddr + 1))).

(** ** The reserved high memory *)

Record HIGHMEM : Type := mkHighmem {
  g_highmem_size : Z;             (* size of the reserved space (bytes) *)
  g_highmem_virt_addr : Z;        (* beginning of the reserved space *)
  g_highmem_curr_addr : Z         (* beginning of what is still available *)
}.

Definition PMBD_HIGHMEM_AVAILABLE_SPACE (h : HIGHMEM) : Z :=
  g_highmem_virt_addr h + g_highmem_size h - g_highmem_curr_addr h.

(** [hmalloc(bytes)]: the address, or nothing for [NULL], and the new
    state; the available space is compared as an unsigned number. *)
Definition hmalloc (h : HIGHMEM) (bytes : Z) : option Z * HIGHMEM :=
  let rtn := None in
  if bytes <=? u64 (PMBD_HIGHMEM_AVAILABLE_SPACE h) then
    (Some (g_highmem_curr_addr h),
     mkHighmem (g_highmem_size h) (g_highmem_virt_addr h) (g_highmem_curr_addr h + bytes))
  else (rtn, h).

(** [pmbd_mem_space_alloc] for one device after the other on high memory:
    the [mem_space] of each device, with its size. *)
Fixpoint mem_space_alloc_all (h : HIGHMEM) (sizes : list Z) : list (option Z * Z) * HIGHMEM :=
  match sizes with
  | [] => ([], h)
  | bytes :: rest =>
    let (rtn, h1) := hmalloc h bytes in
    let (l, h2) := mem_space_alloc_all h1 rest in
    ((rtn, bytes) :: l, h2)
  end.

(** The reserved space is mapped and the allocation mark lies inside it. *)
Definition highmem_ok (h : HIGHMEM) : Prop :=
  0 <= g_highmem_size h /\
  g_highmem_virt_addr h <= g_highmem_curr_addr h <= g_highmem_virt_addr h + g_highmem_size h /\
  g_highmem_virt_addr h + g_highmem_size h < U64_MOD.

(** ** Pauses and slowdowns in cycles *)

(** The slowdown fields of [PMBD_DEVICE_T]. *)
Record PMBD_SLOW_T : Type := mkSlow {
  rdsx : Z;           (* read slowdown (X) *)
  wrsx : Z;           (* write slowdown (X) *)
  rdpause : Z;        (* read pause (cycles per 4KB page) *)
  wrpause : Z         (* write pause (cycles per 4KB page) *)
}.

Definition BYTE_TO_PAGE (n : Z) : Z := Z.shiftr n PAGE_SHIFT.

(** The loop of [sync_slowdown_cycles]. *)
Fixpoint sync_poll_cycles (fuel : nat) (start cycles : Z) (e : PMBD_EMUL_T)
  : result PMBD_EMUL_T :=
  match fuel with
  | O => Spin
  | S fuel' =>
    let (now, e1) := TIMESTAMP e in
    if u64 (now - start) >=? cycles then Ok e1
    else sync_poll_cycles fuel' start cycles e1
  end.

Definition sync_slowdown_cycles (fuel : nat) (cycles : Z) (e : PMBD_EMUL_T)
  : result PMBD_EMUL_T :=
  if negb (cycles =? 0) then
    let (start, e1) := TIMESTAMP e in
    sync_poll_cycles fuel start cycles e1
  else Ok e.

(** [pmbd_rdwr_pause(pmbd, bytes, rw)], with the time statistics off. *)
Definition pmbd_rdwr_pause (fuel : nat) (p : PMBD_SLOW_T) (bytes rw : Z) (e : PMBD_EMUL_T)
  : result PMBD_EMUL_T :=
  let cycles := 0 in
  if (rdpause p =? 0) && (wrpause p =? 0) then Ok e
  else
    let cycles :=
      if (rw =? READ) && negb (rdpause p =? 0)
      then MAX_OF (u64 (BYTE_TO_PAGE bytes * rdpause p)) (rdpause p)
      else if (rw =? WRITE) && negb (wrpause p =? 0)
      then MAX_OF (u64 (BYTE_TO_PAGE bytes * wrpause p)) (wrpause p)
      else cycles in
    if negb (cycles =? 0) then sync_slowdown_cycles fuel cycles e else Ok e.

(** [pmbd_rdwr_slowdown(pmbd, rw, start, end)], with the time statistics
    off; [rdsx] and [wrsx] are [unsigned]. *)
Definition pmbd_rdwr_slowdown (fuel : nat) (p : PMBD_SLOW_T) (rw start end_ : Z)
  (e : PMBD_EMUL_T) : result PMBD_EMUL_T :=
  if negb (((rw =? READ) && (rdsx p >? 1)) || ((rw =? WRITE) && (wrsx p >? 1))) then Ok e
  else if end_ <? start then Ok e
  else
    let cycles :=
      u64 ((end_ - start) * (if rw =? READ then u32 (rdsx p - 1) else u32 (wrsx p - 1))) in
    if negb (cycles =? 0) then sync_slowdown_cycles fuel cycles e else Ok e.

(** [memcpy_from_pmbd_nopmap(pmbd, dst, src, bytes)] as the clock sees it:
    the copy lies between the two reads of the counter and is slowed down
    after it. *)
Definition memcpy_from_pmbd_nopmap_clock (fuel : nat) (p : PMBD_SLOW_T) (e : PMBD_EMUL_T)
  : result PMBD_EMUL_T :=
  let (time_p1, e) := TIMESTAMP e in
  let (time_p2, e) := TIMESTAMP e in
  if (rdsx p >? 1) || (wrsx p >? 1)
  then pmbd_rdwr_slowdown fuel p READ time_p1 time_p2 e
  else Ok e.

(** * Facts about the storage path *)

(** ** Arithmetic of the units *)

Lemma pb_size_eq : pb_size = 4096.
Proof. reflexivity. Qed.

Lemma sector_size_eq : sector_size = 512.
Proof. reflexivity. Qed.

Lemma SECTOR_SIZE_eq : SECTOR_SIZE = 512.
Proof. reflexivity. Qed.

Lemma SECTOR_TO_BYTE_eq (n : Z) : SECTOR_TO_BYTE n = n * 512.
Proof. unfold SECTOR_TO_BYTE, SECTOR_SHIFT. now rewrite Z.shiftl_mul_pow2 by lia. Qed.

Lemma BYTE_TO_SECTOR_eq (n : Z) : BYTE_TO_SECTOR n = n / 512.
Proof. unfold BYTE_TO_SECTOR, SECTOR_SHIFT. now rewrite Z.shiftr_div_pow2 by lia. Qed.

Lemma u64_small (z : Z) : 0 <= z < U64_MOD -> u64 z = z.
Proof. intros H. unfold u64. now apply Z.mod_small. Qed.

Ltac units :=
  repeat rewrite ?SECTOR_TO_BYTE_eq, ?BYTE_TO_SECTOR_eq, ?pb_size_eq, ?sector_size_eq,
    ?SECTOR_SIZE_eq in *.

Ltac zdiv := Z.to_euclidean_division_equations; lia.

(** ** Arrays and regions *)

Lemma upd_same {A : Type} (f : Z -> A) (i : Z) (v : A) : upd f i v i = v.
Proof. unfold upd. now rewrite Z.eqb_refl. Qed.

Lemma upd_other {A : Type} (f : Z -> A) (i j : Z) (v : A) : j <> i -> upd f i v j = f j.
Proof. intros H. unfold upd. destruct (Z.eqb_spec j i); [contradiction | reflexivity]. Qed.

Lemma memcpy_in (dst : memory) (to : Z) (src : memory) (from size a : Z) :
  to <= a < to + size -> memcpy dst to src from size a = src (from + (a - to)).
Proof.
  intros H. unfold memcpy.
  destruct (Z.leb_spec to a); destruct (Z.ltb_spec a (to + size)); simpl; try lia.
  reflexivity.
Qed.

Lemma memcpy_out (dst : memory) (to : Z) (src : memory) (from size a : Z) :
  ~ (to <= a < to + size) -> memcpy dst to src from size a = dst a.
Proof.
  intros H. unfold memcpy.
  destruct (Z.leb_spec to a); destruct (Z.ltb_spec a (to + size)); simpl; try lia.
  all: reflexivity.
Qed.

Lemma mem_eqb_true (n : nat) (m1 : memory) (a1 : Z) (m2 : memory) (a2 : Z) :
  (forall j, 0 <= j < Z.of_nat n -> m1 (a1 + j) = m2 (a2 + j)) ->
  mem_eqb n m1 a1 m2 a2 = true.
Proof.
  revert a1 a2. induction n as [|n IH]; intros a1 a2 H; simpl; [reflexivity|].
  apply andb_true_intro. split.
  - specialize (H 0). rewrite !Z.add_0_r in H. rewrite H by lia.
    now apply byte_dec_lb.
  - apply IH. intros j Hj.
    replace (a1 + 1 + j) with (a1 + (1 + j)) by lia.
    replace (a2 + 1 + j) with (a2 + (1 + j)) by lia.
    apply H. lia.
Qed.

Lemma length_read_bytes (m : memory) (a : Z) (n : nat) : length (read_bytes m a n) = n.
Proof. revert a. induction n as [|n IH]; intros a; simpl; [reflexivity | now rewrite IH]. Qed.

Lemma read_bytes_app (m : memory) (a : Z) (n k : nat) :
  read_bytes m a (n + k) = read_bytes m a n ++ read_bytes m (a + Z.of_nat n) k.
Proof.
  revert a. induction n as [|n IH]; intros a.
  - simpl. now rewrite Z.add_0_r.
  - cbn [Nat.add read_bytes app]. rewrite IH. do 3 f_equal. lia.
Qed.

Lemma read_bytes_ext (m1 m2 : memory) (a1 a2 : Z) (n : nat) :
  (forall j, 0 <= j < Z.of_nat n -> m1 (a1 + j) = m2 (a2 + j)) ->
  read_bytes m1 a1 n = read_bytes m2 a2 n.
Proof.
  revert a1 a2. induction n as [|n IH]; intros a1 a2 H; simpl; [reflexivity|].
  f_equal.
  - specialize (H 0). rewrite !Z.add_0_r in H. apply H. lia.
  - apply IH. intros j Hj.
    replace (a1 + 1 + j) with (a1 + (1 + j)) by lia.
    replace (a2 + 1 + j) with (a2 + (1 + j)) by lia.
    apply H. lia.
Qed.

Lemma read_bytes_of_list_from (l l0 : list byte) :
  read_bytes (of_list (l0 ++ l)) (Z.of_nat (length l0)) (length l) = l.
Proof.
  revert l0. induction l as [|x l IH]; intros l0; [reflexivity|].
  cbn [length read_bytes]. f_equal.
  - unfold of_list. rewrite Nat2Z.id, app_nth2 by lia. now rewrite Nat.sub_diag.
  - specialize (IH (l0 ++ [x])). rewrite <- app_assoc in IH. cbn [app] in IH.
    rewrite length_app in IH. cbn [length] in IH.
    replace (Z.of_nat (length l0) + 1) with (Z.of_nat (length l0 + 1)) by lia.
    exact IH.
Qed.

Lemma read_bytes_of_list (l : list byte) :
  read_bytes (of_list l) 0 (length l) = l.
Proof. exact (read_bytes_of_list_from l []). Qed.

(** ** Loops *)

Lemma for_range_inv {St : Type} (I : Z -> St -> Prop) (body : Z -> St -> result St)
  (n : nat) (lo : Z) (s : St) :
  (forall i s0, lo <= i < lo + Z.of_nat n -> I i s0 ->
     exists s1, body i s0 = Ok s1 /\ I (i + 1) s1) ->
  I lo s ->
  exists s', for_range n lo body s = Ok s' /\ I (lo + Z.of_nat n) s'.
Proof.
  revert lo s. induction n as [|n IH]; intros lo s Hstep H0.
  - exists s. split; [reflexivity|]. now rewrite Z.add_0_r.
  - destruct (Hstep lo s ltac:(lia) H0) as (s1 & Hb & H1).
    destruct (IH (lo + 1) s1) as (s' & Hf & H').
    + intros i s0 Hi. apply Hstep. lia.
    + exact H1.
    + exists s'. split.
      * cbn [for_range]. rewrite Hb. exact Hf.
      * replace (lo + Z.of_nat (S n)) with (lo + 1 + Z.of_nat n) by lia. exact H'.
Qed.

Lemma for_each_inv {St : Type} (I : Z -> St -> Prop) (body : Z -> St -> St)
  (n : nat) (lo : Z) (s : St) :
  (forall i s0, lo <= i < lo + Z.of_nat n -> I i s0 -> I (i + 1) (body i s0)) ->
  I lo s ->
  I (lo + Z.of_nat n) (for_each n lo body s).
Proof.
  revert lo s. induction n as [|n IH]; intros lo s Hstep H0.
  - now rewrite Z.add_0_r.
  - cbn [for_each].
    replace (lo + Z.of_nat (S n)) with (lo + 1 + Z.of_nat n) by lia.
    apply IH.
    + intros i s0 Hi. apply Hstep. lia.
    + apply Hstep; [lia | exact H0].
Qed.

(** ** Configuration, frames and views *)

Lemma owner_bound (d : PMBD_DEVICE_T) (p : Z) :
  0 < num_buffers d -> 0 <= PBN_TO_PMBD_BUFFER_ID d p < num_buffers d.
Proof. intros H. unfold PBN_TO_PMBD_BUFFER_ID. apply Z.mod_pos_bound. exact H. Qed.

Lemma same_conf_refl (d : PMBD_DEVICE_T) : same_conf d d.
Proof. unfold same_conf. repeat split. Qed.

Lemma same_conf_trans (d1 d2 d3 : PMBD_DEVICE_T) :
  same_conf d1 d2 -> same_conf d2 d3 -> same_conf d1 d3.
Proof. unfold same_conf. intuition congruence. Qed.

Lemma total_conf (d d' : PMBD_DEVICE_T) :
  same_conf d d' -> PMBD_TOTAL_PB_NUM d' = PMBD_TOTAL_PB_NUM d.
Proof.
  intros H. unfold PMBD_TOTAL_PB_NUM, PMBD_MEM_TOTAL_BYTES.
  destruct H as (-> & _). reflexivity.
Qed.

Lemma bytes_conf (d d' : PMBD_DEVICE_T) :
  same_conf d d' -> PMBD_MEM_TOTAL_BYTES d' = PMBD_MEM_TOTAL_BYTES d.
Proof. intros H. unfold PMBD_MEM_TOTAL_BYTES. destruct H as (-> & _). reflexivity. Qed.

Lemma owner_conf (d d' : PMBD_DEVICE_T) (p : Z) :
  same_conf d d' -> PBN_TO_PMBD_BUFFER_ID d' p = PBN_TO_PMBD_BUFFER_ID d p.
Proof.
  intros H. unfold PBN_TO_PMBD_BUFFER_ID.
  destruct H as (_ & _ & _ & -> & -> & _). reflexivity.
Qed.

Lemma device_ok_conf (d d' : PMBD_DEVICE_T) :
  same_conf d d' -> device_ok d -> device_ok d'.
Proof.
  intros H. unfold device_ok.
  destruct H as (-> & _ & _ & -> & -> & _). tauto.
Qed.

Lemma flush_step_refl (d : PMBD_DEVICE_T) (hb : Z) : flush_step d d hb.
Proof. unfold flush_step. split; [apply same_conf_refl | repeat split]. Qed.

Lemma flush_step_trans (d1 d2 d3 : PMBD_DEVICE_T) (hb : Z) :
  flush_step d1 d2 hb -> flush_step d2 d3 hb -> flush_step d1 d3 hb.
Proof.
  unfold flush_step.
  intros (C1 & O1 & A1 & B1 & E1 & F1 & G1 & H1) (C2 & O2 & A2 & B2 & E2 & F2 & G2 & H2).
  split; [eapply same_conf_trans; eassumption|].
  split; [intros bid Hb; rewrite O2, O1 by exact Hb; reflexivity|].
  repeat split; congruence.
Qed.

Lemma flush_step_conf (d d' : PMBD_DEVICE_T) (hb : Z) : flush_step d d' hb -> same_conf d d'.
Proof. now intros (H & _). Qed.

Lemma flush_step_num_blocks (d d' : PMBD_DEVICE_T) (hb bid : Z) :
  flush_step d d' hb -> num_blocks (buffers d' bid) = num_blocks (buffers d bid).
Proof.
  intros (_ & O & A & _). destruct (Z.eq_dec bid hb) as [->|Hne]; [exact A|].
  now rewrite O.
Qed.

Lemma flush_step_window (d d' : PMBD_DEVICE_T) (hb bid k : Z) :
  flush_step d d' hb -> in_window (buffers d' bid) k <-> in_window (buffers d bid) k.
Proof.
  intros (_ & O & A & B & E & _). unfold in_window.
  destruct (Z.eq_dec bid hb) as [->|Hne].
  - rewrite A, B, E. tauto.
  - rewrite O by exact Hne. tauto.
Qed.

Lemma flush_step_control (d d' : PMBD_DEVICE_T) (hb bid : Z) :
  flush_step d d' hb -> control_ok d (buffers d bid) -> control_ok d' (buffers d' bid).
Proof.
  intros Hs. pose proof (total_conf _ _ (flush_step_conf _ _ _ Hs)) as HT.
  destruct Hs as (_ & O & A & B & E & F & G & _). unfold control_ok, ring.
  rewrite HT.
  destruct (Z.eq_dec bid hb) as [->|Hne].
  - rewrite A, B, E, F, G. tauto.
  - rewrite O by exact Hne. tauto.
Qed.

Lemma is_buffered_eq (d d' : PMBD_DEVICE_T) (hb p : Z) :
  flush_step d d' hb -> pbi_space d' p = pbi_space d p ->
  PMBD_BLOCK_IS_BUFFERED d' p = PMBD_BLOCK_IS_BUFFERED d p.
Proof.
  intros Hs Hp. unfold PMBD_BLOCK_IS_BUFFERED, PMBD_BLOCK_PBI, PBN_TO_PMBD_BUFFER.
  rewrite Hp, (owner_conf _ _ _ (flush_step_conf _ _ _ Hs)).
  now rewrite (flush_step_num_blocks _ _ _ _ Hs).
Qed.

Lemma same_view_refl (d : PMBD_DEVICE_T) : same_view d d.
Proof. intros a _. reflexivity. Qed.

Lemma same_view_trans (d1 d2 d3 : PMBD_DEVICE_T) :
  same_conf d1 d2 -> same_view d1 d2 -> same_view d2 d3 -> same_view d1 d3.
Proof.
  intros Hc H12 H23 a Ha. rewrite H23, H12; [reflexivity | exact Ha |].
  now rewrite (bytes_conf _ _ Hc).
Qed.

(** ** Reading the invariant *)

Lemma wfr_device (d : PMBD_DEVICE_T) (hb : Z) : wfr d hb -> device_ok d.
Proof. now intros (H & _). Qed.

Lemma wfr_control (d : PMBD_DEVICE_T) (hb bid : Z) :
  wfr d hb -> 0 <= bid < num_buffers d -> control_ok d (buffers d bid).
Proof. intros (_ & H & _) Hb. exact (proj1 (H bid Hb)). Qed.

Lemma wfr_slot (d : PMBD_DEVICE_T) (hb bid k : Z) :
  wfr d hb -> 0 <= bid < num_buffers d -> in_window (buffers d bid) k ->
  slot_dirty d bid k \/ (bid = hb /\ (slot_synced d bid k \/ slot_free d bid k)).
Proof. intros (_ & H & _) Hb. exact (proj2 (H bid Hb) k). Qed.

Lemma wfr_pbi_nonneg (d : PMBD_DEVICE_T) (hb p : Z) :
  wfr d hb -> 0 <= p < PMBD_TOTAL_PB_NUM d -> 0 <= pbi_bbn (pbi_space d p).
Proof. intros (_ & _ & H) Hp. exact (proj1 (H p Hp)). Qed.

Lemma wfr_buffered (d : PMBD_DEVICE_T) (hb p : Z) :
  wfr d hb -> 0 <= p < PMBD_TOTAL_PB_NUM d -> PMBD_BLOCK_IS_BUFFERED d p = true ->
  in_window (PBN_TO_PMBD_BUFFER d p) (pbi_bbn (pbi_space d p)) /\
  bbi_pbn (bbi_space (PBN_TO_PMBD_BUFFER d p) (pbi_bbn (pbi_space d p))) = p.
Proof. intros (_ & _ & H) Hp. exact (proj2 (H p Hp)). Qed.

Lemma wfr_owner (d : PMBD_DEVICE_T) (hb p : Z) :
  wfr d hb -> 0 <= PBN_TO_PMBD_BUFFER_ID d p < num_buffers d.
Proof. intros H. apply owner_bound. now destruct (wfr_device _ _ H). Qed.

Lemma wf_wfr (d : PMBD_DEVICE_T) (hb : Z) : wf d -> wfr d hb.
Proof.
  intros (Hd & Hb & Hp). split; [exact Hd|]. split; [|exact Hp].
  intros bid Hbid. destruct (Hb bid Hbid) as (Hc & Hs). split; [exact Hc|].
  intros k Hk. destruct (Hs k Hk) as [H|(H & _)]; [now left | lia].
Qed.

(** A slot of the dirty segment that is dirty, or names a physical block, is
    not an unlinked one. *)
Lemma slot_free_not_linked (d : PMBD_DEVICE_T) (bid k : Z) :
  slot_free d bid k -> linked d bid k -> False.
Proof. unfold slot_free, linked. intros H (H1 & _). lia. Qed.

(** A buffered block and its slot point at each other. *)
Lemma wfr_buffered_linked (d : PMBD_DEVICE_T) (hb p : Z) :
  wfr d hb -> 0 <= p < PMBD_TOTAL_PB_NUM d -> PMBD_BLOCK_IS_BUFFERED d p = true ->
  linked d (PBN_TO_PMBD_BUFFER_ID d p) (pbi_bbn (pbi_space d p)).
Proof.
  intros Hw Hp Hb. destruct (wfr_buffered _ _ _ Hw Hp Hb) as (_ & Hl).
  unfold linked, PBN_TO_PMBD_BUFFER in *. rewrite Hl. auto.
Qed.

(** Two linked slots of one buffer that name the same block are the same. *)
Lemma linked_inj (d : PMBD_DEVICE_T) (bid k1 k2 : Z) :
  linked d bid k1 -> linked d bid k2 ->
  bbi_pbn (bbi_space (buffers d bid) k1) = bbi_pbn (bbi_space (buffers d bid) k2) ->
  k1 = k2.
Proof. unfold linked. intros (_ & _ & H1) (_ & _ & H2) E. rewrite E in H1. congruence. Qed.

(** Preservation of the slot states under changes elsewhere. *)
Lemma linked_pres (d d' : PMBD_DEVICE_T) (bid k : Z) :
  same_conf d d' ->
  bbi_pbn (bbi_space (buffers d' bid) k) = bbi_pbn (bbi_space (buffers d bid) k) ->
  pbi_space d' (bbi_pbn (bbi_space (buffers d bid) k)) =
    pbi_space d (bbi_pbn (bbi_space (buffers d bid) k)) ->
  linked d bid k -> linked d' bid k.
Proof.
  intros Hc Hb Hp. unfold linked. cbv zeta.
  rewrite Hb, Hp, (total_conf _ _ Hc), (owner_conf _ _ _ Hc). tauto.
Qed.

Lemma slot_dirty_pres (d d' : PMBD_DEVICE_T) (bid k : Z) :
  same_conf d d' ->
  bbi_space (buffers d' bid) k = bbi_space (buffers d bid) k ->
  pbi_space d' (bbi_pbn (bbi_space (buffers d bid) k)) =
    pbi_space d (bbi_pbn (bbi_space (buffers d bid) k)) ->
  slot_dirty d bid k -> slot_dirty d' bid k.
Proof.
  intros Hc Hb Hp (Hl & Hd). split.
  - eapply linked_pres; try eassumption. now rewrite Hb.
  - now rewrite Hb.
Qed.

Lemma slot_synced_pres (d d' : PMBD_DEVICE_T) (bid k : Z) :
  same_conf d d' ->
  bbi_space (buffers d' bid) k = bbi_space (buffers d bid) k ->
  pbi_space d' (bbi_pbn (bbi_space (buffers d bid) k)) =
    pbi_space d (bbi_pbn (bbi_space (buffers d bid) k)) ->
  buffer_space (buffers d' bid) = buffer_space (buffers d bid) ->
  (forall j, 0 <= j < pb_size ->
     mem_space d' (PMBD_BLOCK_VADDR (bbi_pbn (bbi_space (buffers d bid) k)) + j) =
     mem_space d (PMBD_BLOCK_VADDR (bbi_pbn (bbi_space (buffers d bid) k)) + j)) ->
  slot_synced d bid k -> slot_synced d' bid k.
Proof.
  intros Hc Hb Hp Hs Hm (Hl & Hd & Hy). split; [|split].
  - eapply linked_pres; try eassumption. now rewrite Hb.
  - now rewrite Hb.
  - intros j Hj. unfold synced in Hy. rewrite Hb, Hs, Hm by exact Hj. now apply Hy.
Qed.

Lemma slot_free_pres (d d' : PMBD_DEVICE_T) (bid k : Z) :
  same_conf d d' ->
  bbi_space (buffers d' bid) k = bbi_space (buffers d bid) k ->
  slot_free d bid k -> slot_free d' bid k.
Proof. intros Hc Hb. unfold slot_free. now rewrite Hb, (total_conf _ _ Hc). Qed.

Lemma in_block (a p j : Z) : a = pb_size * p + j -> 0 <= j < pb_size -> a / pb_size = p.
Proof. units. intros -> H. zdiv. Qed.

Arguments mem_eqb : simpl never.
Arguments read_bytes : simpl never.

Ltac conj := repeat match goal with |- _ /\ _ => split end.

(** ** The two loops of [_pmbd_buffer_flush_range] *)

Lemma flush_range_sync_ok (d : PMBD_DEVICE_T) (hb p : Z) :
  wfr d hb -> 0 <= p < PMBD_TOTAL_PB_NUM d -> PBN_TO_PMBD_BUFFER_ID d p = hb ->
  PMBD_BLOCK_IS_BUFFERED d p = true ->
  exists d', flush_range_sync hb p d = Ok d' /\
    wfr d' hb /\ flush_step d d' hb /\ same_view d d' /\
    pbi_space d' = pbi_space d /\
    (forall k, k <> pbi_bbn (pbi_space d p) ->
       bbi_space (buffers d' hb) k = bbi_space (buffers d hb) k) /\
    (forall k, bbi_pbn (bbi_space (buffers d' hb) k) = bbi_pbn (bbi_space (buffers d hb) k)) /\
    (forall k, slot_synced d hb k -> slot_synced d' hb k) /\
    slot_synced d' hb (pbi_bbn (pbi_space d p)) /\
    (forall a, a / pb_size <> p -> mem_space d' a = mem_space d a).
Proof.
  intros Hw Hp Ho Hb.
  pose proof (wfr_buffered_linked _ _ _ Hw Hp Hb) as Hl. rewrite Ho in Hl.
  destruct (wfr_buffered _ _ _ Hw Hp Hb) as (Hwin & Hpbn).
  unfold PBN_TO_PMBD_BUFFER in Hwin, Hpbn. rewrite Ho in Hwin, Hpbn.
  assert (Hhb : 0 <= hb < num_buffers d) by (rewrite <- Ho; eapply wfr_owner; eauto).
  unfold flush_range_sync. rewrite Hb. unfold PMBD_BLOCK_PBI.
  set (k0 := pbi_bbn (pbi_space d p)) in *.
  destruct (PMBD_BUFFER_BBI_IS_DIRTY (buffers d hb) k0) eqn:Hdirty.
  - eexists. split; [reflexivity|].
    match goal with |- wfr ?x _ /\ _ => set (d' := x) end.
    assert (Hc : same_conf d d') by (unfold same_conf; repeat split).
    assert (Hpbi : pbi_space d' = pbi_space d) by reflexivity.
    assert (Hmem : mem_space d' = memcpy (mem_space d) (PMBD_BLOCK_VADDR p)
                     (buffer_space (buffers d hb)) (PMBD_BUFFER_BLOCK k0) pb_size)
      by reflexivity.
    assert (Hoth : forall bid, bid <> hb -> buffers d' bid = buffers d bid).
    { intros bid Hne. unfold d', set_buffer, set_buffers. cbn. now apply upd_other. }
    assert (Hbbi : bbi_space (buffers d' hb) =
                   upd (bbi_space (buffers d hb)) k0 (mkBBI (bbi_pbn (bbi_space (buffers d hb) k0)) FALSE)).
    { unfold d', set_buffer, set_buffers. cbn. now rewrite upd_same. }
    assert (Hs : flush_step d d' hb).
    { split; [exact Hc|]. split; [exact Hoth|].
      unfold d', set_buffer, set_buffers. cbn. rewrite upd_same. cbn. repeat split. }
    assert (Hbo : forall k, k <> k0 -> bbi_space (buffers d' hb) k = bbi_space (buffers d hb) k).
    { intros k Hk. rewrite Hbbi. now apply upd_other. }
    assert (Hbp : forall bid k, bbi_pbn (bbi_space (buffers d' bid) k) =
                                bbi_pbn (bbi_space (buffers d bid) k)).
    { intros bid k. destruct (Z.eq_dec bid hb) as [->|Hne]; [|now rewrite Hoth].
      rewrite Hbbi. unfold upd. destruct (Z.eqb_spec k k0) as [->|]; reflexivity. }
    assert (Hmo : forall a, a / pb_size <> p -> mem_space d' a = mem_space d a).
    { intros a Ha. rewrite Hmem. apply memcpy_out. unfold PMBD_BLOCK_VADDR.
      intros Hr. apply Ha. apply (in_block a p (a - pb_size * p)); lia. }
    assert (Hsy0 : slot_synced d' hb k0).
    { split; [|split].
      - apply (linked_pres d d' hb k0 Hc); auto.
      - rewrite Hbbi, upd_same. reflexivity.
      - intros j Hj. rewrite Hbp, Hpbn, Hmem.
        destruct Hs as (_ & _ & _ & _ & _ & _ & _ & ->).
        rewrite memcpy_in by lia. f_equal. lia. }
    assert (Hsyn : forall k, slot_synced d hb k -> slot_synced d' hb k).
    { intros k Hk. destruct (Z.eq_dec k k0) as [->|Hne]; [exact Hsy0|].
      destruct Hs as (_ & _ & _ & _ & _ & _ & _ & Hbs).
      apply (slot_synced_pres d d' hb k Hc); auto.
      intros j Hj. apply Hmo. destruct Hk as (Hlk & _).
        rewrite (in_block _ (bbi_pbn (bbi_space (buffers d hb) k)) j) by (unfold PMBD_BLOCK_VADDR; lia).
        intros E. apply Hne. apply (linked_inj d hb k k0 Hlk Hl). congruence. }
    split; [|split; [exact Hs|split; [|conj; auto]]].
    + (* invariant *)
      split; [eapply device_ok_conf; eauto; eapply wfr_device; eauto|]. split.
      * intros bid Hbid. pose proof Hc as (_ & _ & _ & Hnb & _). rewrite Hnb in Hbid.
        split; [eapply flush_step_control; eauto; eapply wfr_control; eauto|].
        intros k Hk. apply (flush_step_window _ _ _ _ _ Hs) in Hk.
        destruct (wfr_slot _ _ _ _ Hw Hbid Hk) as [Hsd|(-> & [Hsd|Hsd])].
        -- destruct (Z.eq_dec bid hb) as [->|Hne].
           ++ destruct (Z.eq_dec k k0) as [->|Hnk]; [right; split; [reflexivity | left; exact Hsy0]|].
              left. apply (slot_dirty_pres d d' hb k); auto.
           ++ left. apply (slot_dirty_pres d d' bid k); auto.
              now rewrite Hoth.
        -- right. split; [reflexivity|]. left. now apply Hsyn.
        -- right. split; [reflexivity|]. right.
           unfold slot_free in *. now rewrite Hbp, (total_conf _ _ Hc).
      * intros q Hq. rewrite (total_conf _ _ Hc) in Hq. rewrite Hpbi. split.
        -- eapply wfr_pbi_nonneg; eauto.
        -- rewrite (is_buffered_eq d d' hb q Hs) by now rewrite Hpbi.
           intros Hbq. destruct (wfr_buffered _ _ _ Hw Hq Hbq) as (H1 & H2).
           unfold PBN_TO_PMBD_BUFFER in *. rewrite (owner_conf _ _ _ Hc). split.
           ++ now apply (flush_step_window _ _ _ _ _ Hs).
           ++ now rewrite Hbp.
    + (* view *)
      intros a Ha. unfold dev_byte.
      rewrite (is_buffered_eq d d' hb (a / pb_size) Hs) by now rewrite Hpbi.
      destruct (PMBD_BLOCK_IS_BUFFERED d (a / pb_size)) eqn:Hba.
      * rewrite Hpbi. unfold PBN_TO_PMBD_BUFFER. rewrite (owner_conf _ _ _ Hc).
        destruct Hs as (_ & Ho' & _ & _ & _ & _ & _ & Hbs).
        destruct (Z.eq_dec (PBN_TO_PMBD_BUFFER_ID d (a / pb_size)) hb) as [->|Hne].
        -- now rewrite Hbs.
        -- now rewrite Ho'.
      * apply Hmo. intros E. rewrite E in Hba. congruence.
  - (* already clean: nothing to do *)
    exists d. split; [reflexivity|].
    assert (Hsy0 : slot_synced d hb k0).
    { destruct (wfr_slot _ _ _ _ Hw Hhb Hwin) as [(_ & Hd)|(_ & [H|H])].
      - unfold PMBD_BUFFER_BBI_IS_DIRTY, PMBD_BUFFER_BBI, TRUE in Hdirty. rewrite Hd in Hdirty. discriminate.
      - exact H.
      - exfalso. eapply slot_free_not_linked; eauto. }
    split; [exact Hw|]. split; [apply flush_step_refl|]. split; [apply same_view_refl|].
    conj; auto.
Qed.

Lemma valid_block (d : PMBD_DEVICE_T) (a : Z) :
  device_ok d -> 0 <= a < PMBD_MEM_TOTAL_BYTES d ->
  0 <= a / pb_size < PMBD_TOTAL_PB_NUM d.
Proof.
  unfold device_ok, PMBD_TOTAL_PB_NUM, PMBD_MEM_TOTAL_BYTES. units.
  intros (_ & _ & H1 & H2 & _) Ha. zdiv.
Qed.

Lemma flush_range_unlink_ok (d : PMBD_DEVICE_T) (hb p : Z) :
  wfr d hb -> 0 <= p < PMBD_TOTAL_PB_NUM d -> PBN_TO_PMBD_BUFFER_ID d p = hb ->
  PMBD_BLOCK_IS_BUFFERED d p = true ->
  slot_synced d hb (pbi_bbn (pbi_space d p)) ->
  exists d', flush_range_unlink hb p d = Ok d' /\
    wfr d' hb /\ flush_step d d' hb /\ same_view d d' /\
    mem_space d' = mem_space d /\
    pbi_space d' = upd (pbi_space d) p (mkPBI (PMBD_TOTAL_PB_NUM d + 3)) /\
    bbi_space (buffers d' hb) =
      upd (bbi_space (buffers d hb)) (pbi_bbn (pbi_space d p))
          (mkBBI (PMBD_TOTAL_PB_NUM d + 2) false) /\
    (forall k, k <> pbi_bbn (pbi_space d p) -> slot_synced d hb k -> slot_synced d' hb k).
Proof.
  intros Hw Hp Ho Hb Hsy.
  destruct (wfr_buffered _ _ _ Hw Hp Hb) as (Hwin & Hpbn).
  unfold PBN_TO_PMBD_BUFFER in Hwin, Hpbn. rewrite Ho in Hwin, Hpbn.
  assert (Hhb : 0 <= hb < num_buffers d) by (rewrite <- Ho; eapply wfr_owner; eauto).
  pose proof (wfr_control _ _ _ Hw Hhb) as Hctl.
  pose proof (wfr_device _ _ Hw) as Hdev.
  unfold flush_range_unlink, PMBD_BLOCK_PBI.
  set (k0 := pbi_bbn (pbi_space d p)) in *.
  destruct Hsy as (Hl & Hcl & Hsyn).
  assert (Hver : (if PMBD_USE_WRITE_VERIFICATION d
                  then pmbd_verify_wr_pages d (PMBD_BLOCK_VADDR p)
                         (buffer_space (buffers d hb)) (PMBD_BUFFER_BLOCK k0) pb_size
                  else Ok tt) = Ok tt).
  { destruct (PMBD_USE_WRITE_VERIFICATION d); [|reflexivity].
    unfold pmbd_verify_wr_pages. rewrite mem_eqb_true; [reflexivity|].
    intros j Hj. rewrite <- Hpbn. apply Hsyn. revert Hj. units. lia. }
  rewrite Hver. cbn [bind].
  eexists. split; [reflexivity|].
  match goal with |- wfr ?x _ /\ _ => set (d' := x) end.
  assert (Hc : same_conf d d') by (unfold same_conf; repeat split).
  assert (HT : PMBD_TOTAL_PB_NUM d' = PMBD_TOTAL_PB_NUM d) by (now apply total_conf).
  assert (Hmem : mem_space d' = mem_space d) by reflexivity.
  assert (Hpbi : pbi_space d' = upd (pbi_space d) p (mkPBI (PMBD_TOTAL_PB_NUM d + 3)))
    by reflexivity.
  assert (Hoth : forall bid, bid <> hb -> buffers d' bid = buffers d bid).
  { intros bid Hne. unfold d', PMBD_SET_BLOCK_UNBUFFERED, set_buffer, set_buffers. cbn.
    now apply upd_other. }
  assert (Hbbi : bbi_space (buffers d' hb) =
                 upd (bbi_space (buffers d hb)) k0 (mkBBI (PMBD_TOTAL_PB_NUM d + 2) false)).
  { unfold d', PMBD_SET_BLOCK_UNBUFFERED, set_buffer, set_buffers. cbn.
    rewrite upd_same. cbn. now rewrite Hcl. }
  assert (Hs : flush_step d d' hb).
  { split; [exact Hc|]. split; [exact Hoth|].
    unfold d', PMBD_SET_BLOCK_UNBUFFERED, set_buffer, set_buffers. cbn.
    rewrite upd_same. cbn. repeat split. }
  clearbody d'.
  assert (Hbo : forall bid k, ~ (bid = hb /\ k = k0) ->
                  bbi_space (buffers d' bid) k = bbi_space (buffers d bid) k).
  { intros bid k Hk. destruct (Z.eq_dec bid hb) as [->|Hne]; [|now rewrite Hoth].
    rewrite Hbbi. apply upd_other. intros E. apply Hk. auto. }
  assert (Hpo : forall bid k, ~ (bid = hb /\ k = k0) -> linked d bid k ->
                  pbi_space d' (bbi_pbn (bbi_space (buffers d bid) k)) =
                  pbi_space d (bbi_pbn (bbi_space (buffers d bid) k))).
  { intros bid k Hk (_ & H2 & H3). rewrite Hpbi. apply upd_other. intros E.
    apply Hk. rewrite E in H2, H3. split; [congruence | symmetry; exact H3]. }
  assert (Hnb : PMBD_BLOCK_IS_BUFFERED d' p = false).
  { unfold PMBD_BLOCK_IS_BUFFERED, PMBD_BLOCK_PBI, PBN_TO_PMBD_BUFFER.
    rewrite Hpbi, upd_same, (owner_conf _ _ _ Hc), Ho. cbn.
    rewrite (flush_step_num_blocks _ _ _ _ Hs).
    destruct Hctl as (Hn & _). apply Z.ltb_ge. lia. }
  assert (Hsp : forall k, k <> k0 -> slot_synced d hb k -> slot_synced d' hb k).
  { intros k Hnk Hsd. assert (Hneq : ~ (hb = hb /\ k = k0)) by tauto.
    pose proof Hs as (_ & _ & _ & _ & _ & _ & _ & Hbs).
    apply (slot_synced_pres d d' hb k); auto.
    - apply Hpo; auto. apply Hsd.
    - intros j Hj. now rewrite Hmem. }
  split; [|split; [exact Hs|split; [|conj; auto]]].
  - (* invariant *)
    split; [eapply device_ok_conf; eauto|]. split.
    + intros bid Hbid. pose proof Hc as (_ & _ & _ & Hnum & _). rewrite Hnum in Hbid.
      split; [eapply flush_step_control; eauto; eapply wfr_control; eauto|].
      intros k Hk. apply (flush_step_window _ _ _ _ _ Hs) in Hk.
      destruct (Z.eq_dec bid hb) as [->|Hne].
      * destruct (Z.eq_dec k k0) as [->|Hnk].
        -- right. split; [reflexivity|]. right. unfold slot_free.
           now rewrite Hbbi, upd_same, HT.
        -- assert (Hneq : ~ (hb = hb /\ k = k0)) by tauto.
           destruct (wfr_slot _ _ _ _ Hw Hbid Hk) as [Hsd|(_ & [Hsd|Hsd])].
           ++ left. apply (slot_dirty_pres d d' hb k); auto. apply Hpo; auto. apply Hsd.
           ++ right. split; [reflexivity|]. left. auto.
           ++ right. split; [reflexivity|]. right.
              apply (slot_free_pres d d' hb k); auto.
      * assert (Hneq : ~ (bid = hb /\ k = k0)) by tauto.
        destruct (wfr_slot _ _ _ _ Hw Hbid Hk) as [Hsd|(E & _)]; [|contradiction].
        left. apply (slot_dirty_pres d d' bid k); auto. apply Hpo; auto. apply Hsd.
    + intros q Hq. rewrite HT in Hq.
      destruct (Z.eq_dec q p) as [->|Hqp].
      * split; [rewrite Hpbi, upd_same; cbn; lia|]. rewrite Hnb. discriminate.
      * assert (Hpq : pbi_space d' q = pbi_space d q) by (rewrite Hpbi; now apply upd_other).
        rewrite Hpq. split; [eapply wfr_pbi_nonneg; eauto|].
        rewrite (is_buffered_eq d d' hb q Hs Hpq).
        intros Hbq. destruct (wfr_buffered _ _ _ Hw Hq Hbq) as (H1 & H2).
        unfold PBN_TO_PMBD_BUFFER in *. rewrite (owner_conf _ _ _ Hc). split.
        -- now apply (flush_step_window _ _ _ _ _ Hs).
        -- rewrite Hbo; [exact H2|]. intros (E1 & E2). rewrite E1, E2 in H2. congruence.
  - (* view *)
    intros a Ha. unfold dev_byte.
    pose proof (valid_block d a Hdev Ha) as Hq.
    destruct (Z.eq_dec (a / pb_size) p) as [E|Hqp].
    + rewrite E, Hnb, Hb. unfold PBN_TO_PMBD_BUFFER. rewrite Ho. fold k0.
      rewrite Hmem. unfold synced in Hsyn. rewrite Hpbn in Hsyn.
      rewrite <- Hsyn by (revert Hq; units; zdiv). f_equal.
      unfold PMBD_BLOCK_VADDR. rewrite <- E. revert Hq. units. zdiv.
    + assert (Hpq : pbi_space d' (a / pb_size) = pbi_space d (a / pb_size))
        by (rewrite Hpbi; now apply upd_other).
      rewrite (is_buffered_eq d d' hb _ Hs Hpq), Hpq, Hmem.
      unfold PBN_TO_PMBD_BUFFER. rewrite (owner_conf _ _ _ Hc).
      destruct Hs as (_ & Ho' & _ & _ & _ & _ & _ & Hbs).
      destruct (Z.eq_dec (PBN_TO_PMBD_BUFFER_ID d (a / pb_size)) hb) as [->|Hne].
      * now rewrite Hbs.
      * now rewrite Ho'.
Qed.

Lemma flush_range_ok (d : PMBD_DEVICE_T) (hb s e : Z) :
  wfr d hb -> s <= e + 1 ->
  (forall p, s <= p <= e ->
     0 <= p < PMBD_TOTAL_PB_NUM d /\ PBN_TO_PMBD_BUFFER_ID d p = hb /\
     PMBD_BLOCK_IS_BUFFERED d p = true) ->
  exists d', _pmbd_buffer_flush_range d hb s e = Ok (d', e - s + 1) /\
    wfr d' hb /\ flush_step d d' hb /\ same_view d d' /\
    (forall p, ~ (s <= p <= e) -> pbi_space d' p = pbi_space d p) /\
    (forall p, s <= p <= e -> pbi_bbn (pbi_space d' p) = PMBD_TOTAL_PB_NUM d + 3) /\
    (forall k, (forall p, s <= p <= e -> pbi_bbn (pbi_space d p) <> k) ->
       bbi_space (buffers d' hb) k = bbi_space (buffers d hb) k) /\
    (forall p, s <= p <= e -> slot_free d' hb (pbi_bbn (pbi_space d p))).
Proof.
  intros Hw Hse Hrun. unfold _pmbd_buffer_flush_range.
  set (n := Z.to_nat (e - s + 1)).
  assert (Hn : Z.of_nat n = e - s + 1) by (unfold n; lia).
  (* first loop *)
  destruct (for_range_inv
    (fun i d1 => wfr d1 hb /\ flush_step d d1 hb /\ same_view d d1 /\
       pbi_space d1 = pbi_space d /\
       (forall k, (forall q, s <= q < i -> pbi_bbn (pbi_space d q) <> k) ->
          bbi_space (buffers d1 hb) k = bbi_space (buffers d hb) k) /\
       (forall q, s <= q < i -> slot_synced d1 hb (pbi_bbn (pbi_space d q))))
    (flush_range_sync hb) n s d) as (d1 & Hf1 & Hw1 & Hs1 & Hv1 & Hp1 & Hb1 & Hy1).
  { intros i d1 Hi (Hw1 & Hs1 & Hv1 & Hp1 & Hb1 & Hy1).
    destruct (Hrun i ltac:(lia)) as (Hiv & Hio & Hib).
    pose proof (flush_step_conf _ _ _ Hs1) as Hc1.
    destruct (flush_range_sync_ok d1 hb i Hw1) as
      (d2 & Hr & Hw2 & Hs2 & Hv2 & Hp2 & Hb2 & _ & Hy2 & Hy2' & _).
    - now rewrite (total_conf _ _ Hc1).
    - now rewrite (owner_conf _ _ _ Hc1).
    - rewrite (is_buffered_eq d d1 hb i Hs1) by now rewrite Hp1. exact Hib.
    - exists d2. split; [exact Hr|]. conj.
      + exact Hw2.
      + eapply flush_step_trans; eauto.
      + eapply same_view_trans; eauto.
      + congruence.
      + intros k Hk. rewrite Hb2, Hb1; [reflexivity | |].
        * intros q Hq. apply Hk. lia.
        * rewrite Hp1. intros E. apply (Hk i); [lia | now symmetry].
      + intros q Hq. destruct (Z.eq_dec q i) as [->|Hne].
        * rewrite Hp1 in Hy2'. exact Hy2'.
        * apply Hy2. apply Hy1. lia. }
  { conj; auto using flush_step_refl, same_view_refl. intros q Hq. lia. }
  rewrite Hf1. cbn [bind].
  pose proof (flush_step_conf _ _ _ Hs1) as Hc1.
  pose proof (total_conf _ _ Hc1) as HT1.
  (* second loop *)
  destruct (for_range_inv
    (fun i d2 => wfr d2 hb /\ flush_step d1 d2 hb /\ same_view d1 d2 /\
       (forall q, ~ (s <= q < i) -> pbi_space d2 q = pbi_space d1 q) /\
       (forall q, s <= q < i -> pbi_bbn (pbi_space d2 q) = PMBD_TOTAL_PB_NUM d + 3) /\
       (forall k, (forall q, s <= q < i -> pbi_bbn (pbi_space d1 q) <> k) ->
          bbi_space (buffers d2 hb) k = bbi_space (buffers d1 hb) k) /\
       (forall q, s <= q < i -> slot_free d2 hb (pbi_bbn (pbi_space d1 q))) /\
       (forall q, i <= q <= e -> slot_synced d2 hb (pbi_bbn (pbi_space d1 q))))
    (flush_range_unlink hb) n s d1) as (d2 & Hf2 & Hw2 & Hs2 & Hv2 & Hp2 & Hq2 & Hb2 & Hfr2 & _).
  { intros i d2 Hi (Hw2 & Hs2 & Hv2 & Hp2 & Hq2 & Hb2 & Hfr2 & Hy2).
    destruct (Hrun i ltac:(lia)) as (Hiv & Hio & Hib).
    pose proof (flush_step_conf _ _ _ Hs2) as Hc2.
    pose proof (total_conf _ _ Hc2) as HT2.
    assert (Hpi : pbi_space d2 i = pbi_space d1 i) by (apply Hp2; lia).
    assert (Hbuf : forall q, i <= q <= e -> PMBD_BLOCK_IS_BUFFERED d2 q = true).
    { intros q Hq. rewrite (is_buffered_eq d1 d2 hb q Hs2) by (apply Hp2; lia).
      rewrite (is_buffered_eq d d1 hb q Hs1) by now rewrite Hp1.
      apply Hrun. lia. }
    destruct (flush_range_unlink_ok d2 hb i Hw2) as
      (d3 & Hr & Hw3 & Hs3 & Hv3 & Hm3 & Hp3 & Hb3 & Hy3).
    - rewrite HT2, HT1. exact Hiv.
    - rewrite (owner_conf _ _ _ Hc2), (owner_conf _ _ _ Hc1). exact Hio.
    - apply Hbuf. lia.
    - rewrite Hpi. apply Hy2. lia.
    - exists d3. split; [exact Hr|]. rewrite Hpi in Hb3, Hy3. rewrite HT2, HT1 in Hp3, Hb3. conj.
      + exact Hw3.
      + eapply flush_step_trans; eauto.
      + eapply same_view_trans; eauto.
      + intros q Hq. rewrite Hp3, upd_other by lia. apply Hp2. lia.
      + intros q Hq. rewrite Hp3. destruct (Z.eq_dec q i) as [->|Hne].
        * now rewrite upd_same.
        * rewrite upd_other by exact Hne. apply Hq2. lia.
      + intros k Hk. rewrite Hb3, upd_other.
        * apply Hb2. intros q Hq. apply Hk. lia.
        * intros E. apply (Hk i); [lia | now symmetry].
      + intros q Hq. unfold slot_free. rewrite Hb3.
        rewrite (total_conf _ _ (flush_step_conf _ _ _ Hs3)), HT2, HT1.
        unfold upd. destruct (Z.eqb_spec (pbi_bbn (pbi_space d1 q)) (pbi_bbn (pbi_space d1 i))) as [E|Hne];
          [reflexivity|].
        destruct (Z.eq_dec q i) as [->|Hqi]; [contradiction|].
        specialize (Hfr2 q ltac:(lia)). unfold slot_free in Hfr2. now rewrite Hfr2, HT2, HT1.
      + intros q Hq. apply Hy3; [|apply Hy2; lia].
        intros E.
        assert (Hvq : 0 <= q < PMBD_TOTAL_PB_NUM d2).
        { rewrite HT2, HT1. apply Hrun. lia. }
        assert (Hvi : 0 <= i < PMBD_TOTAL_PB_NUM d2) by (rewrite HT2, HT1; exact Hiv).
        destruct (wfr_buffered _ _ _ Hw2 Hvq (Hbuf q ltac:(lia))) as (_ & Eq).
        destruct (wfr_buffered _ _ _ Hw2 Hvi (Hbuf i ltac:(lia))) as (_ & Ei).
        unfold PBN_TO_PMBD_BUFFER in Eq, Ei.
        rewrite (owner_conf _ _ _ Hc2), (owner_conf _ _ _ Hc1) in Eq.
        rewrite (owner_conf _ _ _ Hc2), (owner_conf _ _ _ Hc1) in Ei.
        rewrite (proj1 (proj2 (Hrun q ltac:(lia)))) in Eq. rewrite Hio in Ei.
        rewrite (Hp2 q ltac:(lia)) in Eq. rewrite Hpi in Ei. rewrite E in Eq. lia. }
  { conj; auto using flush_step_refl, same_view_refl.
    - intros q Hq. lia.
    - intros q Hq. lia.
    - intros q Hq. rewrite Hp1. apply Hy1. lia. }
  rewrite Hf2. cbn [bind]. rewrite Hn.
  exists d2. split; [reflexivity|]. conj.
  - exact Hw2.
  - eapply flush_step_trans; eauto.
  - eapply same_view_trans; eauto.
  - intros p Hp. rewrite Hp2 by lia. now rewrite Hp1.
  - intros p Hp. apply Hq2. lia.
  - intros k Hk. rewrite Hb2, Hb1; [reflexivity | |].
    + intros q Hq. apply Hk. lia.
    + intros q Hq. rewrite Hp1. apply Hk. lia.
  - intros p Hp. rewrite <- Hp1. apply Hfr2. lia.
Qed.

(** ** The walk over the snapshot *)

Lemma pending_buffered (d : PMBD_DEVICE_T) (hb : Z) (e : PMBD_BSORT_ENTRY_T) :
  entry_pending d hb e ->
  let p := bbi_pbn (bbi_space (buffers d hb) (se_bbn e)) in
  0 <= p < PMBD_TOTAL_PB_NUM d /\ PBN_TO_PMBD_BUFFER_ID d p = hb /\
  PMBD_BLOCK_IS_BUFFERED d p = true /\ pbi_bbn (pbi_space d p) = se_bbn e.
Proof.
  intros ((Hk & _) & (H1 & H2 & H3) & _). cbv zeta.
  split; [exact H1|]. split; [exact H2|]. split; [|exact H3].
  unfold PMBD_BLOCK_IS_BUFFERED, PMBD_BLOCK_PBI, PBN_TO_PMBD_BUFFER.
  rewrite H2, H3. apply Z.ltb_lt. lia.
Qed.

Lemma pending_distinct (d : PMBD_DEVICE_T) (hb : Z) (e1 e2 : PMBD_BSORT_ENTRY_T) :
  entry_pending d hb e1 -> entry_pending d hb e2 ->
  bbi_pbn (bbi_space (buffers d hb) (se_bbn e1)) =
  bbi_pbn (bbi_space (buffers d hb) (se_bbn e2)) ->
  se_bbn e1 = se_bbn e2.
Proof.
  intros (_ & H1 & _) (_ & H2 & _) E. eapply linked_inj; eauto.
Qed.

(** An entry that stays pending when the blocks [first .. last], none of
    them its own, are flushed. *)
Lemma pending_after_range (d d' : PMBD_DEVICE_T) (hb first last : Z)
  (e : PMBD_BSORT_ENTRY_T) :
  wfr d hb -> flush_step d d' hb ->
  (forall p, first <= p <= last ->
     0 <= p < PMBD_TOTAL_PB_NUM d /\ PBN_TO_PMBD_BUFFER_ID d p = hb /\
     PMBD_BLOCK_IS_BUFFERED d p = true) ->
  (forall p, ~ (first <= p <= last) -> pbi_space d' p = pbi_space d p) ->
  (forall k, (forall p, first <= p <= last -> pbi_bbn (pbi_space d p) <> k) ->
     bbi_space (buffers d' hb) k = bbi_space (buffers d hb) k) ->
  entry_pending d hb e ->
  ~ (first <= bbi_pbn (bbi_space (buffers d hb) (se_bbn e)) <= last) ->
  entry_pending d' hb e /\
  bbi_space (buffers d' hb) (se_bbn e) = bbi_space (buffers d hb) (se_bbn e).
Proof.
  intros Hw Hs Hrun Hp Hb Hpe Hout.
  assert (Hbe : bbi_space (buffers d' hb) (se_bbn e) = bbi_space (buffers d hb) (se_bbn e)).
  { apply Hb. intros p Hpr E.
    destruct (Hrun p Hpr) as (Hv & Ho & Hbuf).
    destruct (wfr_buffered _ _ _ Hw Hv Hbuf) as (_ & Hq).
    unfold PBN_TO_PMBD_BUFFER in Hq. rewrite Ho, E in Hq. lia. }
  split; [|exact Hbe].
  destruct Hpe as (Hwin & Hsd). split.
  - now apply (flush_step_window _ _ _ _ _ Hs).
  - apply (slot_dirty_pres d d' hb (se_bbn e)).
    + eapply flush_step_conf; eauto.
    + exact Hbe.
    + apply Hp. exact Hout.
    + exact Hsd.
Qed.

Lemma flush_sequences_ok (hb : Z) (rest : list PMBD_BSORT_ENTRY_T) :
  forall (d : PMBD_DEVICE_T) (first last nc : Z),
  wfr d hb -> first <= last ->
  (forall p, first <= p <= last ->
     0 <= p < PMBD_TOTAL_PB_NUM d /\ PBN_TO_PMBD_BUFFER_ID d p = hb /\
     PMBD_BLOCK_IS_BUFFERED d p = true) ->
  Forall (entry_pending d hb) rest ->
  NoDup (map se_bbn rest) ->
  (forall e, In e rest ->
     ~ (first <= bbi_pbn (bbi_space (buffers d hb) (se_bbn e)) <= last)) ->
  exists d',
    flush_sequences hb rest first last nc d =
      Ok (d', nc + (last - first + 1) + Z.of_nat (length rest)) /\
    wfr d' hb /\ flush_step d d' hb /\ same_view d d' /\
    (forall k, ~ ((exists p, first <= p <= last /\ pbi_bbn (pbi_space d p) = k) \/
                  In k (map se_bbn rest)) ->
       bbi_space (buffers d' hb) k = bbi_space (buffers d hb) k) /\
    (forall k, (exists p, first <= p <= last /\ pbi_bbn (pbi_space d p) = k) \/
               In k (map se_bbn rest) ->
       slot_free d' hb k) /\
    (forall p, PMBD_BLOCK_IS_BUFFERED d p = false -> pbi_space d' p = pbi_space d p).
Proof.
  induction rest as [|e rest IH]; intros d first last nc Hw Hfl Hrun Hpend Hnd Hout.
  - destruct (flush_range_ok d hb first last Hw ltac:(lia) Hrun)
      as (d' & Hr & Hw' & Hs' & Hv' & Hp' & Hq' & Hb' & Hf').
    exists d'. cbn [flush_sequences]. rewrite Hr. cbn [bind fst snd length].
    split; [f_equal; f_equal; lia|]. conj; auto.
    + intros k Hk. apply Hb'. intros p Hp E. apply Hk. left. eauto.
    + intros k [(p & Hp & <-)|[]]. now apply Hf'.
    + intros p Hp. apply Hp'. intros Hin. destruct (Hrun p Hin) as (_ & _ & E). congruence.
  - cbn [flush_sequences]. unfold PMBD_BUFFER_BBI.
    pose proof (Forall_inv Hpend) as Hpe. pose proof (Forall_inv_tail Hpend) as Hpt.
    cbn [map] in Hnd. apply NoDup_cons_iff in Hnd. destruct Hnd as (Hnin & Hnd).
    set (pe := bbi_pbn (bbi_space (buffers d hb) (se_bbn e))) in *.
    destruct (pending_buffered d hb e Hpe) as (Hev & Heo & Heb & Hek). fold pe in Hev, Heo, Heb, Hek.
    assert (Hdist : forall e', In e' rest ->
                      bbi_pbn (bbi_space (buffers d hb) (se_bbn e')) <> pe).
    { intros e' Hin E. apply Hnin. apply in_map_iff. exists e'. split; [|exact Hin].
      apply (pending_distinct d hb e' e); auto.
      rewrite Forall_forall in Hpt. now apply Hpt. }
    destruct (Z.eqb_spec pe (last + 1)) as [Eq|Hne].
    + (* the sequence goes on *)
      destruct (IH d first pe nc Hw ltac:(lia)) as (d' & Hr & Hw' & Hs' & Hv' & Hb' & Hf' & Hp');
        auto.
      * intros p Hp. destruct (Z.eq_dec p pe) as [->|Hn]; [auto|]. apply Hrun. lia.
      * intros e' Hin Hr. specialize (Hdist e' Hin).
        apply (Hout e'); [now right | lia].
      * exists d'. split; [rewrite Hr; f_equal; f_equal; cbn [length]; lia|]. conj; auto.
        -- intros k Hk. apply Hb'. intros [(p & Hp & E)|Hin]; apply Hk.
           ++ destruct (Z.eq_dec p pe) as [->|Hn].
              ** right. left. congruence.
              ** left. exists p. split; [lia | exact E].
           ++ right. now right.
        -- intros k [(p & Hp & E)|[E|Hin]]; apply Hf'.
           ++ left. exists p. split; [lia | exact E].
           ++ left. exists pe. split; [lia | congruence].
           ++ now right.
    + (* the sequence ends: flush it and open a new one *)
      destruct (flush_range_ok d hb first last Hw ltac:(lia) Hrun)
        as (d1 & Hr1 & Hw1 & Hs1 & Hv1 & Hp1 & Hq1 & Hb1 & Hf1).
      rewrite Hr1. cbn [bind fst snd].
      pose proof (flush_step_conf _ _ _ Hs1) as Hc1.
      pose proof (total_conf _ _ Hc1) as HT1.
      assert (Hkeep : forall e', In e' (e :: rest) ->
                entry_pending d1 hb e' /\
                bbi_space (buffers d1 hb) (se_bbn e') = bbi_space (buffers d hb) (se_bbn e')).
      { intros e' Hin. apply (pending_after_range d d1 hb first last e'); auto.
        rewrite Forall_forall in Hpend. now apply Hpend. }
      assert (Hpe1 : pbi_space d1 pe = pbi_space d pe).
      { apply Hp1. apply (Hout e). now left. }
      destruct (IH d1 pe pe (nc + (last - first + 1)) Hw1 ltac:(lia))
        as (d' & Hr & Hw' & Hs' & Hv' & Hb' & Hf' & Hp'); auto.
      * intros p Hp. assert (p = pe) as -> by lia.
        rewrite HT1, (owner_conf _ _ _ Hc1), (is_buffered_eq d d1 hb pe Hs1 Hpe1). auto.
      * rewrite Forall_forall. intros e' Hin. apply Hkeep. now right.
      * intros e' Hin Hr. rewrite (proj2 (Hkeep e' (or_intror Hin))) in Hr.
        apply (Hdist e' Hin). lia.
      * exists d'. split; [rewrite Hr; f_equal; f_equal; cbn [length]; lia|]. conj; auto.
        -- eapply flush_step_trans; eauto.
        -- eapply same_view_trans; eauto.
        -- intros k Hk. rewrite Hb', Hb1; [reflexivity| |].
           ++ intros p Hp E. apply Hk. left. eauto.
           ++ intros [(p & Hp & E)|Hin]; apply Hk.
              ** assert (p = pe) as -> by lia. right. left. congruence.
              ** right. now right.
        -- intros k [(p & Hp & E)|Hin].
           ++ (* a slot of the flushed sequence stays free *)
              assert (Hsf : slot_free d1 hb k) by (rewrite <- E; now apply Hf1).
              apply (slot_free_pres d1 d' hb k); [eapply flush_step_conf; eauto| |exact Hsf].
              apply Hb'. intros [(q & Hq & E')|Hin].
              ** assert (q = pe) as -> by lia. rewrite Hpe1, Hek in E'.
                 destruct (Hkeep e (or_introl eq_refl)) as ((_ & Hl & _) & _).
                 rewrite E' in Hl. eapply slot_free_not_linked; eauto.
              ** apply in_map_iff in Hin. destruct Hin as (e' & E' & Hin).
                 destruct (Hkeep e' (or_intror Hin)) as ((_ & Hl & _) & _).
                 rewrite E' in Hl. eapply slot_free_not_linked; eauto.
           ++ apply Hf'. destruct Hin as [E|Hin]; [|now right].
              left. exists pe. split; [lia|]. congruence.
        -- intros p Hp. rewrite Hp'.
           ++ apply Hp1. intros Hin. destruct (Hrun p Hin) as (_ & _ & E). congruence.
           ++ rewrite (is_buffered_eq d d1 hb p Hs1); [exact Hp|].
              apply Hp1. intros Hin. destruct (Hrun p Hin) as (_ & _ & E). congruence.
Qed.

(** ** The ring and the scan of the dirty segment *)

Lemma length_zseq (a : Z) (n : nat) : length (zseq a n) = n.
Proof. revert a. induction n as [|n IH]; intros a; cbn; [reflexivity | now rewrite IH]. Qed.

Lemma in_zseq (a : Z) (n : nat) (x : Z) : In x (zseq a n) <-> a <= x < a + Z.of_nat n.
Proof.
  revert a. induction n as [|n IH]; intros a; cbn [zseq In].
  - lia.
  - rewrite IH. lia.
Qed.

Lemma zseq_snoc (a : Z) (n : nat) : zseq a (S n) = zseq a n ++ [a + Z.of_nat n].
Proof.
  revert a. induction n as [|n IH]; intros a.
  - cbn. now rewrite Z.add_0_r.
  - change (zseq a (S (S n))) with (a :: zseq (a + 1) (S n)).
    rewrite IH. cbn [zseq app]. do 3 f_equal. lia.
Qed.

Lemma NoDup_zseq (a : Z) (n : nat) : NoDup (zseq a n).
Proof.
  revert a. induction n as [|n IH]; intros a; cbn [zseq]; constructor.
  - rewrite in_zseq. lia.
  - apply IH.
Qed.

Lemma next_pos_ring (d : PMBD_DEVICE_T) (b : PMBD_BUFFER_T) (i : Z) :
  control_ok d b -> 0 <= i < num_blocks b ->
  PMBD_BUFFER_NEXT_POS b (ring b (pos_dirty b + i)) = ring b (pos_dirty b + (i + 1)).
Proof.
  intros (Hn & Hd & _) Hi. unfold PMBD_BUFFER_NEXT_POS, ring.
  repeat match goal with
         | |- context [?x <? ?y] => destruct (Z.ltb_spec x y)
         end;
  repeat match goal with
         | |- context [?x =? ?y] => destruct (Z.eqb_spec x y)
         end; lia.
Qed.

Lemma next_prio_pos (d : PMBD_DEVICE_T) (b : PMBD_BUFFER_T) :
  control_ok d b ->
  PMBD_BUFFER_NEXT_POS b (PMBD_BUFFER_PRIO_POS b (pos_clean b)) =
  ring b (pos_dirty b + num_dirty b).
Proof.
  intros (Hn & Hd & Hnd & Hc & _). rewrite Hc.
  assert (Hr : 0 <= ring b (pos_dirty b + num_dirty b) < num_blocks b).
  { unfold ring. destruct (Z.ltb_spec (pos_dirty b + num_dirty b) (num_blocks b)); lia. }
  revert Hr. generalize (ring b (pos_dirty b + num_dirty b)). intros pc Hr.
  unfold PMBD_BUFFER_NEXT_POS, PMBD_BUFFER_PRIO_POS.
  destruct (Z.eqb_spec pc 0) as [->|H0].
  - now rewrite Z.eqb_refl.
  - destruct (Z.eqb_spec (pc - 1) (num_blocks b - 1)); lia.
Qed.

Lemma next_n_pos_ring (d : PMBD_DEVICE_T) (b : PMBD_BUFFER_T) (n : Z) :
  control_ok d b -> 0 <= n <= num_blocks b ->
  PMBD_BUFFER_NEXT_N_POS b (pos_dirty b) n = ring b (pos_dirty b + n).
Proof.
  intros (Hn & Hd & _) Hi. unfold PMBD_BUFFER_NEXT_N_POS, ring.
  destruct (Z.ltb_spec (pos_dirty b + n) (num_blocks b)).
  - apply Z.mod_small. lia.
  - symmetry. apply (Z.mod_unique _ _ 1); lia.
Qed.

Lemma ring_inj (d : PMBD_DEVICE_T) (b : PMBD_BUFFER_T) (i j : Z) :
  control_ok d b -> 0 <= i < num_blocks b -> 0 <= j < num_blocks b ->
  ring b (pos_dirty b + i) = ring b (pos_dirty b + j) -> i = j.
Proof.
  intros (Hn & Hd & _) Hi Hj. unfold ring.
  repeat match goal with
         | |- context [?x <? ?y] => destruct (Z.ltb_spec x y)
         end; lia.
Qed.

Lemma in_window_ring (d : PMBD_DEVICE_T) (b : PMBD_BUFFER_T) (k : Z) :
  control_ok d b ->
  in_window b k <-> exists i, 0 <= i < num_dirty b /\ k = ring b (pos_dirty b + i).
Proof.
  intros (Hn & Hd & Hnd & _). unfold in_window, ring. split.
  - intros (Hk & [H|H]).
    + exists (k - pos_dirty b). split; [lia|].
      destruct (Z.ltb_spec (pos_dirty b + (k - pos_dirty b)) (num_blocks b)); lia.
    + exists (k + num_blocks b - pos_dirty b). split; [lia|].
      destruct (Z.ltb_spec (pos_dirty b + (k + num_blocks b - pos_dirty b)) (num_blocks b)); lia.
  - intros (i & Hi & ->).
    destruct (Z.ltb_spec (pos_dirty b + i) (num_blocks b)); lia.
Qed.

Lemma flush_scan_ok (d : PMBD_DEVICE_T) (b : PMBD_BUFFER_T) (n : Z) (fuel : nat) :
  forall j,
  control_ok d b ->
  (forall i, 0 <= i < num_dirty b ->
     bbi_dirty (bbi_space b (ring b (pos_dirty b + i))) = true) ->
  1 <= n <= num_dirty b -> 0 <= j < n -> n - j <= Z.of_nat fuel ->
  flush_scan fuel b (PMBD_BUFFER_PRIO_POS b (pos_clean b)) n (ring b (pos_dirty b + j))
    (map (entry_at b) (zseq 0 (Z.to_nat j))) =
  Ok (map (entry_at b) (zseq 0 (Z.to_nat n))).
Proof.
  induction fuel as [|fuel IH]; intros j Hc Hdirty Hn Hj Hfuel; [lia|].
  cbn [flush_scan].
  rewrite (next_prio_pos d b Hc).
  rewrite length_map, length_zseq, Z2Nat.id by lia.
  assert (Hcond : negb (ring b (pos_dirty b + j) =? ring b (pos_dirty b + num_dirty b))
                  || (j =? 0) = true).
  { destruct (Z.eqb_spec j 0) as [->|Hj0]; [apply orb_true_r|].
    rewrite orb_false_r. apply negb_true_iff, Z.eqb_neq.
    destruct Hc as (HN & Hd & Hnd & _). unfold ring.
    repeat match goal with
           | |- context [?x <? ?y] => destruct (Z.ltb_spec x y)
           end; lia. }
  rewrite Hcond.
  unfold PMBD_BUFFER_BBI_IS_CLEAN, PMBD_BUFFER_BBI. rewrite Hdirty by lia. cbn [Bool.eqb FALSE].
  rewrite length_app, length_map, length_zseq. cbn [length].
  assert (Hsnoc : map (entry_at b) (zseq 0 (Z.to_nat j)) ++
                  [mkSE (ring b (pos_dirty b + j))
                        (bbi_pbn (bbi_space b (ring b (pos_dirty b + j))))] =
                  map (entry_at b) (zseq 0 (Z.to_nat (j + 1)))).
  { replace (Z.to_nat (j + 1)) with (S (Z.to_nat j)) by lia.
    rewrite zseq_snoc, map_app. cbn [map]. unfold entry_at at 3.
    rewrite Z2Nat.id by lia. reflexivity. }
  rewrite Hsnoc.
  destruct (Z.geb_spec (Z.of_nat (Z.to_nat j + 1)) n) as [Hge|Hlt].
  - replace (j + 1) with n by lia. reflexivity.
  - assert (HN : 0 <= j < num_blocks b) by (destruct Hc as (_ & _ & ? & _); lia).
    rewrite (next_pos_ring d b j Hc HN).
    apply IH; auto; lia.
Qed.

(** ** The sort *)

Lemma sort_insert_perm (e : PMBD_BSORT_ENTRY_T) (l : list PMBD_BSORT_ENTRY_T) :
  Permutation (sort_insert e l) (e :: l).
Proof.
  induction l as [|x l IH]; cbn [sort_insert]; [reflexivity|].
  destruct (compare_bbi_sort_entries e x <=? 0); [reflexivity|].
  rewrite IH. apply perm_swap.
Qed.

Lemma sort_perm (l : list PMBD_BSORT_ENTRY_T) : Permutation (sort l) l.
Proof.
  induction l as [|x l IH]; cbn; [reflexivity|].
  fold (sort l). rewrite sort_insert_perm. now constructor.
Qed.

(** ** [pmbd_buffer_flush] *)

(** The snapshot of the first [n] slots of the dirty segment. *)
Lemma snapshot_props (d : PMBD_DEVICE_T) (hb n : Z) :
  wf d -> 0 <= hb < num_buffers d -> 0 <= n <= num_dirty (buffers d hb) ->
  let l := map (entry_at (buffers d hb)) (zseq 0 (Z.to_nat n)) in
  Forall (entry_pending d hb) l /\ NoDup (map se_bbn l) /\
  (forall k, In k (map se_bbn l) <->
     exists i, 0 <= i < n /\ k = ring (buffers d hb) (pos_dirty (buffers d hb) + i)).
Proof.
  intros Hw Hhb Hn l.
  pose proof (wfr_control _ _ _ Hw Hhb) as Hc.
  assert (HN : num_dirty (buffers d hb) <= num_blocks (buffers d hb))
    by (destruct Hc as (_ & _ & ? & _); lia).
  conj.
  - apply Forall_forall. intros e He. apply in_map_iff in He.
    destruct He as (i & <- & Hi). apply in_zseq in Hi.
    assert (Hwin : in_window (buffers d hb) (se_bbn (entry_at (buffers d hb) i))).
    { apply (in_window_ring d _ _ Hc). exists i. split; [lia | reflexivity]. }
    split; [exact Hwin|].
    destruct (wfr_slot _ _ _ _ Hw Hhb Hwin) as [H|(E & _)]; [exact H | lia].
  - unfold l. rewrite map_map. apply NoDup_map_NoDup_ForallPairs; [|apply NoDup_zseq].
    intros i j Hi Hj E. apply in_zseq in Hi, Hj. cbn [entry_at se_bbn] in E.
    apply (ring_inj d _ i j Hc); auto; lia.
  - intros k. unfold l. rewrite map_map, in_map_iff. split.
    + intros (i & <- & Hi). apply in_zseq in Hi. exists i. split; [lia | reflexivity].
    + intros (i & Hi & ->). exists i. split; [reflexivity|]. apply in_zseq. lia.
Qed.

(** The dirty segment without its first [n] slots. *)
Lemma window_shrink (d : PMBD_DEVICE_T) (b b' : PMBD_BUFFER_T) (n k : Z) :
  control_ok d b -> 0 <= n <= num_dirty b ->
  num_blocks b' = num_blocks b ->
  pos_dirty b' = ring b (pos_dirty b + n) ->
  num_dirty b' = num_dirty b - n ->
  (in_window b' k <->
   in_window b k /\ ~ (exists i, 0 <= i < n /\ k = ring b (pos_dirty b + i))).
Proof.
  intros (HN & Hd & Hnd & _) Hn E1 E2 E3. unfold in_window. rewrite E1, E2, E3.
  unfold ring. split.
  - intros H. split.
    + destruct (Z.ltb_spec (pos_dirty b + n) (num_blocks b)); lia.
    + intros (i & Hi & ->).
      destruct (Z.ltb_spec (pos_dirty b + n) (num_blocks b));
        destruct (Z.ltb_spec (pos_dirty b + i) (num_blocks b)); lia.
  - intros (H & Hno).
    assert (Hk : ~ (pos_dirty b <= k < pos_dirty b + n) /\
                 ~ (k + num_blocks b < pos_dirty b + n)).
    { split; intros Hin; apply Hno.
      - exists (k - pos_dirty b). split; [lia|].
        destruct (Z.ltb_spec (pos_dirty b + (k - pos_dirty b)) (num_blocks b)); lia.
      - exists (k + num_blocks b - pos_dirty b). split; [lia|].
        destruct (Z.ltb_spec (pos_dirty b + (k + num_blocks b - pos_dirty b)) (num_blocks b));
          lia. }
    destruct (Z.ltb_spec (pos_dirty b + n) (num_blocks b)); lia.
Qed.

Lemma total_bound (d : PMBD_DEVICE_T) :
  device_ok d -> 0 <= PMBD_TOTAL_PB_NUM d /\ PMBD_TOTAL_PB_NUM d + 3 < U64_MOD.
Proof.
  unfold device_ok, PMBD_TOTAL_PB_NUM, PMBD_MEM_TOTAL_BYTES, U64_MOD. units.
  intros (_ & _ & H1 & _ & H2). zdiv.
Qed.

Lemma pmbd_buffer_flush_ok (d : PMBD_DEVICE_T) (hb budget : Z) :
  wf d -> 0 <= hb < num_buffers d -> 0 <= budget ->
  exists d',
    pmbd_buffer_flush d hb budget = Ok (d', Z.min budget (num_dirty (buffers d hb))) /\
    wf d' /\ same_view d d' /\ same_conf d d' /\
    (forall bid, bid <> hb -> buffers d' bid = buffers d bid) /\
    num_blocks (buffers d' hb) = num_blocks (buffers d hb) /\
    batch_size (buffers d' hb) = batch_size (buffers d hb) /\
    buffer_space (buffers d' hb) = buffer_space (buffers d hb) /\
    pos_clean (buffers d' hb) = pos_clean (buffers d hb) /\
    num_dirty (buffers d' hb) =
      num_dirty (buffers d hb) - Z.min budget (num_dirty (buffers d hb)) /\
    pos_dirty (buffers d' hb) =
      (pos_dirty (buffers d hb) + Z.min budget (num_dirty (buffers d hb)))
        mod num_blocks (buffers d hb) /\
    (forall p, PMBD_BLOCK_IS_BUFFERED d p = false -> pbi_space d' p = pbi_space d p).
Proof.
  intros Hw Hhb Hbud.
  pose proof (wfr_control _ _ _ Hw Hhb) as Hc.
  pose proof (wfr_device _ _ Hw) as Hdev.
  pose proof Hc as (HN & Hpd & Hnd & Hpc & Hbs).
  unfold pmbd_buffer_flush.
  set (b := buffers d hb) in *.
  set (n := Z.min budget (num_dirty b)).
  assert (En : (if budget >? num_dirty b then num_dirty b else budget) = n).
  { unfold n. destruct (Z.gtb_spec budget (num_dirty b)); lia. }
  rewrite En.
  destruct (PMBD_BUFFER_IS_EMPTY b || (n =? 0)) eqn:Hempty.
  - (* nothing to clean *)
    assert (n = 0) as ->.
    { apply orb_true_iff in Hempty. unfold PMBD_BUFFER_IS_EMPTY in Hempty.
      destruct Hempty as [H|H]; apply Z.eqb_eq in H; unfold n in *; lia. }
    exists d. split; [reflexivity|]. fold b. conj; auto using same_view_refl, same_conf_refl.
    + lia.
    + rewrite Z.add_0_r. symmetry. apply Z.mod_small. lia.
  - apply orb_false_iff in Hempty. destruct Hempty as (_ & Hn0). apply Z.eqb_neq in Hn0.
    assert (Hn : 1 <= n <= num_dirty b) by (unfold n in *; lia).
    (* the scan *)
    assert (Hscan : flush_scan (Z.to_nat (num_blocks b)) b
                      (PMBD_BUFFER_PRIO_POS b (pos_clean b)) n (pos_dirty b) [] =
                    Ok (map (entry_at b) (zseq 0 (Z.to_nat n)))).
    { replace (pos_dirty b) with (ring b (pos_dirty b + 0)) at 1
        by (unfold ring; rewrite Z.add_0_r; destruct (Z.ltb_spec (pos_dirty b) (num_blocks b)); lia).
      apply (flush_scan_ok d b n (Z.to_nat (num_blocks b)) 0); auto; try lia.
      intros i Hi.
      assert (Hwin : in_window b (ring b (pos_dirty b + i))).
      { apply (in_window_ring d _ _ Hc). exists i. split; [lia | reflexivity]. }
      destruct (wfr_slot _ _ _ _ Hw Hhb Hwin) as [(_ & H)|(E & _)]; [exact H | lia]. }
    rewrite Hscan. cbn [bind].
    destruct (snapshot_props d hb n Hw Hhb ltac:(fold b; lia)) as (Hpend0 & Hnd0 & Hin0).
    fold b in Hpend0, Hnd0, Hin0.
    set (l0 := map (entry_at b) (zseq 0 (Z.to_nat n))) in *.
    set (l := if PMBD_DEV_USE_WPMODE_PTE d then sort l0 else l0).
    assert (Hperm : Permutation l l0).
    { unfold l. destruct (PMBD_DEV_USE_WPMODE_PTE d); [apply sort_perm | reflexivity]. }
    assert (Hlen : Z.of_nat (length l) = n).
    { rewrite (Permutation_length Hperm). unfold l0. rewrite length_map, length_zseq. lia. }
    assert (Hpend : Forall (entry_pending d hb) l).
    { eapply Permutation_Forall; [symmetry; exact Hperm | exact Hpend0]. }
    assert (Hndl : NoDup (map se_bbn l)).
    { eapply Permutation_NoDup; [apply Permutation_map; symmetry; exact Hperm | exact Hnd0]. }
    assert (Hinl : forall k, In k (map se_bbn l) <->
                     exists i, 0 <= i < n /\ k = ring b (pos_dirty b + i)).
    { intros k. rewrite <- Hin0. split; apply Permutation_in, Permutation_map;
        [exact Hperm | symmetry; exact Hperm]. }
    clearbody l. clear Hperm Hpend0 Hnd0 Hin0 Hscan.
    destruct l as [|se rest]; [cbn in Hlen; lia|].
    unfold PMBD_BUFFER_BBI.
    pose proof (Forall_inv Hpend) as Hpe. pose proof (Forall_inv_tail Hpend) as Hpt.
    cbn [map] in Hndl. pose proof Hndl as Hndl'.
    apply NoDup_cons_iff in Hndl'. destruct Hndl' as (Hnin & Hndr).
    set (pe := bbi_pbn (bbi_space b (se_bbn se))) in *.
    destruct (pending_buffered d hb se Hpe) as (Hev & Heo & Heb & Hek).
    fold b in Hev, Heo, Heb, Hek. fold pe in Hev, Heo, Heb, Hek.
    destruct (flush_sequences_ok hb rest d pe pe 0 (wf_wfr d hb Hw) ltac:(lia))
      as (d1 & Hr & Hw1 & Hs1 & Hv1 & Hb1 & Hf1 & Hp1); auto.
    { intros p Hp. assert (p = pe) as -> by lia. auto. }
    { intros e' Hin Hr. fold b in Hr. apply Hnin. apply in_map_iff. exists e'.
      split; [|exact Hin]. apply (pending_distinct d hb e' se); auto.
      - rewrite Forall_forall in Hpt. now apply Hpt.
      - fold b. fold pe. lia. }
    rewrite Hr. cbn [bind fst snd].
    assert (Hcnt : 0 + (pe - pe + 1) + Z.of_nat (length rest) = n)
      by (cbn [length] in Hlen; lia).
    rewrite Hcnt.
    (* the slots cleaned are those of the snapshot *)
    assert (Hflushed : forall k,
              ((exists p, pe <= p <= pe /\ pbi_bbn (pbi_space d p) = k) \/
               In k (map se_bbn rest)) <->
              exists i, 0 <= i < n /\ k = ring b (pos_dirty b + i)).
    { intros k. rewrite <- Hinl. cbn [map In]. split.
      - intros [(p & Hp & E)|H]; [left | now right].
        assert (p = pe) as -> by lia. congruence.
      - intros [E|H]; [left | now right]. exists pe. split; [lia | congruence]. }
    pose proof (flush_step_conf _ _ _ Hs1) as Hc1.
    pose proof (total_conf _ _ Hc1) as HT1.
    pose proof Hs1 as (_ & Ho1 & EN1 & END1 & EPD1 & EPC1 & EBS1 & ESP1).
    fold b in EN1, END1, EPD1, EPC1, EBS1, ESP1.
    destruct (total_bound d Hdev) as (HT0 & HTU).
    eexists. split; [reflexivity|].
    match goal with |- wf ?x /\ _ => set (d2 := x) end.
    assert (Hc2 : same_conf d1 d2) by (unfold same_conf; repeat split).
    assert (Hpbi2 : pbi_space d2 = pbi_space d1) by reflexivity.
    assert (Hmem2 : mem_space d2 = mem_space d1) by reflexivity.
    assert (Ho2 : forall bid, bid <> hb -> buffers d2 bid = buffers d1 bid).
    { intros bid Hne. unfold d2, set_buffer, set_buffers. cbn. now apply upd_other. }
    assert (Hb2 : bbi_space (buffers d2 hb) = bbi_space (buffers d1 hb) /\
                  buffer_space (buffers d2 hb) = buffer_space (buffers d1 hb) /\
                  num_blocks (buffers d2 hb) = num_blocks (buffers d1 hb) /\
                  batch_size (buffers d2 hb) = batch_size (buffers d1 hb) /\
                  pos_clean (buffers d2 hb) = pos_clean (buffers d1 hb) /\
                  num_dirty (buffers d2 hb) = u64 (num_dirty (buffers d1 hb) - n) /\
                  pos_dirty (buffers d2 hb) =
                    PMBD_BUFFER_NEXT_N_POS (buffers d1 hb) (pos_dirty b) n).
    { unfold d2, set_buffer, set_buffers. cbn. rewrite upd_same. cbn. repeat split. }
    clearbody d2.
    destruct Hb2 as (EB2 & ES2 & EN2 & EBS2 & EPC2 & END2 & EPD2).
    rewrite END1, u64_small in END2 by lia.
    assert (EPD2' : pos_dirty (buffers d2 hb) = ring b (pos_dirty b + n)).
    { rewrite EPD2. unfold PMBD_BUFFER_NEXT_N_POS. rewrite EN1.
      apply (next_n_pos_ring d b n Hc). lia. }
    assert (Hc02 : same_conf d d2) by (eapply same_conf_trans; eauto).
    assert (HT2 : PMBD_TOTAL_PB_NUM d2 = PMBD_TOTAL_PB_NUM d) by (now apply total_conf).
    assert (Hnb2 : forall bid, num_blocks (buffers d2 bid) = num_blocks (buffers d1 bid)).
    { intros bid. destruct (Z.eq_dec bid hb) as [->|Hne]; [exact EN2 | now rewrite Ho2]. }
    assert (Hbuf2 : forall p, PMBD_BLOCK_IS_BUFFERED d2 p = PMBD_BLOCK_IS_BUFFERED d1 p).
    { intros p. unfold PMBD_BLOCK_IS_BUFFERED, PMBD_BLOCK_PBI, PBN_TO_PMBD_BUFFER.
      now rewrite Hpbi2, (owner_conf _ _ _ Hc2), Hnb2. }
    assert (Hwin2 : forall k, in_window (buffers d2 hb) k <->
                      in_window b k /\
                      ~ (exists i, 0 <= i < n /\ k = ring b (pos_dirty b + i))).
    { intros k. apply (window_shrink d b (buffers d2 hb) n k Hc); try lia; congruence. }
    assert (Hbbi2 : forall bid k, bbi_space (buffers d2 bid) k = bbi_space (buffers d1 bid) k).
    { intros bid k. destruct (Z.eq_dec bid hb) as [->|Hne]; [now rewrite EB2 | now rewrite Ho2]. }
    assert (Hsd2 : forall bid k, slot_dirty d1 bid k -> slot_dirty d2 bid k).
    { intros bid k. apply slot_dirty_pres; auto. now rewrite Hpbi2. }
    conj.
    + (* invariant *)
      split; [eapply device_ok_conf; eauto|]. split.
      * intros bid Hbid. pose proof Hc02 as (_ & _ & _ & Hnum & _). rewrite Hnum in Hbid.
        destruct (Z.eq_dec bid hb) as [->|Hne].
        -- split.
           ++ unfold control_ok. rewrite HT2, EN2, EN1, EBS2, EBS1, EPC2, EPC1, END2, EPD2'.
              assert (Hrn : 0 <= ring b (pos_dirty b + n) < num_blocks b).
              { unfold ring. destruct (Z.ltb_spec (pos_dirty b + n) (num_blocks b)); lia. }
              conj; try lia.
              rewrite Hpc. unfold ring. rewrite EN2, EN1.
                 repeat match goal with
                        | |- context [?x <? ?y] => destruct (Z.ltb_spec x y)
                        end; lia.
           ++ intros k Hk. left. apply Hwin2 in Hk. destruct Hk as (Hk & Hno).
              apply Hsd2.
              assert (Hsame : bbi_space (buffers d1 hb) k = bbi_space b k).
              { apply Hb1. rewrite Hflushed. exact Hno. }
              assert (Hk1 : in_window (buffers d1 hb) k)
                by now apply (flush_step_window _ _ _ _ _ Hs1).
              destruct (wfr_slot _ _ _ _ Hw Hhb Hk) as [(Hl0 & Hd0)|(E & _)]; [|lia].
              assert (Hhb1 : 0 <= hb < num_buffers d1).
              { destruct Hc1 as (_ & _ & _ & -> & _). exact Hhb. }
              destruct (wfr_slot _ _ _ _ Hw1 Hhb1 Hk1) as [H|(_ & [(_ & H & _)|H])]; [exact H| |].
              ** rewrite Hsame in H. fold b in Hd0. congruence.
              ** unfold slot_free in H. rewrite Hsame, HT1 in H.
                 destruct Hl0 as (Hl0 & _). fold b in Hl0. lia.
        -- rewrite Ho2, Ho1 by exact Hne. split.
           ++ unfold control_ok. rewrite HT2. apply (wfr_control _ _ _ Hw Hbid).
           ++ intros k Hk. left.
              destruct (wfr_slot _ _ _ _ Hw Hbid Hk) as [H|(E & _)]; [|lia].
              apply Hsd2.
              assert (Hbid1 : 0 <= bid < num_buffers d1).
              { destruct Hc1 as (_ & _ & _ & -> & _). exact Hbid. }
              assert (Hk1 : in_window (buffers d1 bid) k) by now rewrite Ho1.
              destruct (wfr_slot _ _ _ _ Hw1 Hbid1 Hk1) as [H1|(E & _)]; [exact H1 | contradiction].
      * intros p Hp. rewrite HT2, <- HT1 in Hp. rewrite Hpbi2.
        split; [eapply wfr_pbi_nonneg; eauto|].
        rewrite Hbuf2. intros Hbp.
        destruct (wfr_buffered _ _ _ Hw1 Hp Hbp) as (H1 & H2).
        unfold PBN_TO_PMBD_BUFFER in *. rewrite (owner_conf _ _ _ Hc2), Hbbi2.
        split; [|exact H2].
        destruct (Z.eq_dec (PBN_TO_PMBD_BUFFER_ID d1 p) hb) as [E|Hne];
          [|now rewrite Ho2].
        rewrite E in *. apply Hwin2. split.
        -- now apply (flush_step_window _ _ _ _ _ Hs1).
        -- intros Hsnap. apply Hflushed in Hsnap. apply Hf1 in Hsnap.
           unfold slot_free in Hsnap. rewrite H2, HT1 in Hsnap. rewrite HT1 in Hp. lia.
    + (* view *)
      apply (same_view_trans d d1 d2 Hc1 Hv1).
      intros a Ha. unfold dev_byte. rewrite Hbuf2, Hpbi2, Hmem2.
      unfold PBN_TO_PMBD_BUFFER. rewrite (owner_conf _ _ _ Hc2).
      destruct (Z.eq_dec (PBN_TO_PMBD_BUFFER_ID d1 (a / pb_size)) hb) as [->|Hne].
      * now rewrite ES2.
      * now rewrite Ho2.
    + exact Hc02.
    + intros bid Hne. now rewrite Ho2, Ho1.
    + congruence.
    + congruence.
    + congruence.
    + congruence.
    + exact END2.
    + rewrite EPD2'. symmetry. apply (next_n_pos_ring d b n Hc). lia.
    + intros p Hp. rewrite Hpbi2. now apply Hp1.
Qed.

Lemma flush_post_refl (d : PMBD_DEVICE_T) (hb : Z) :
  wf d -> 0 <= hb < num_buffers d -> flush_post d hb d 0.
Proof.
  intros Hw Hhb. destruct (wfr_control _ _ _ Hw Hhb) as (HN & Hpd & _).
  unfold flush_post. conj; auto using same_view_refl, same_conf_refl.
  - lia.
  - rewrite Z.add_0_r. symmetry. apply Z.mod_small. lia.
Qed.

Lemma pmbd_buffer_flush_post (d : PMBD_DEVICE_T) (hb budget : Z) :
  wf d -> 0 <= hb < num_buffers d -> 0 <= budget ->
  exists d',
    pmbd_buffer_flush d hb budget = Ok (d', Z.min budget (num_dirty (buffers d hb))) /\
    flush_post d hb d' (Z.min budget (num_dirty (buffers d hb))).
Proof.
  intros Hw Hhb Hb. destruct (pmbd_buffer_flush_ok d hb budget Hw Hhb Hb) as (d' & Hr & H).
  exists d'. split; [exact Hr | exact H].
Qed.

(** ** [pmbd_buffer_check_and_flush] *)

Lemma pmbd_buffer_check_and_flush_ok (d : PMBD_DEVICE_T) (hb n caller : Z) :
  wf d -> 0 <= hb < num_buffers d -> 0 <= n ->
  caller = CALLER_ALLOCATOR \/ caller = CALLER_SYNCER \/ caller = CALLER_DESTROYER ->
  exists d' r,
    pmbd_buffer_check_and_flush d hb n caller = Ok (d', r) /\
    flush_post d hb d' r /\
    (r = Z.min n (num_dirty (buffers d hb)) \/
     r = 0 /\ caller = CALLER_ALLOCATOR /\ PMBD_BUFFER_IS_FULL (buffers d hb) = false).
Proof.
  intros Hw Hhb Hn Hcaller.
  destruct (pmbd_buffer_flush_post d hb n Hw Hhb Hn) as (d' & Hr & Hpost).
  destruct (wfr_control _ _ _ Hw Hhb) as (HN & Hpd & Hnd & _).
  unfold pmbd_buffer_check_and_flush.
  destruct Hcaller as [->|[->| ->]]; cbn [Z.eqb CALLER_ALLOCATOR CALLER_SYNCER CALLER_DESTROYER Pos.eqb].
  - destruct (PMBD_BUFFER_IS_FULL (buffers d hb)) eqn:Hfull; cbn [negb].
    + exists d', (Z.min n (num_dirty (buffers d hb))). auto.
    + exists d, 0. split; [reflexivity|]. split; [now apply flush_post_refl|]. right. auto.
  - destruct (PMBD_BUFFER_IS_EMPTY (buffers d hb)) eqn:Hempty.
    + exists d, 0. split; [reflexivity|]. split; [now apply flush_post_refl|]. left.
      unfold PMBD_BUFFER_IS_EMPTY in Hempty. apply Z.eqb_eq in Hempty. lia.
    + exists d', (Z.min n (num_dirty (buffers d hb))). auto.
  - exists d', (Z.min n (num_dirty (buffers d hb))). auto.
Qed.

(** A call that returned was made by one of the three callers. *)
Lemma pmbd_buffer_check_and_flush_caller (d d' : PMBD_DEVICE_T) (hb n caller r : Z) :
  pmbd_buffer_check_and_flush d hb n caller = Ok (d', r) ->
  caller = CALLER_ALLOCATOR \/ caller = CALLER_SYNCER \/ caller = CALLER_DESTROYER.
Proof.
  unfold pmbd_buffer_check_and_flush, CALLER_ALLOCATOR, CALLER_SYNCER, CALLER_DESTROYER.
  destruct (Z.eqb_spec caller 2); [auto|].
  destruct (Z.eqb_spec caller 1); [auto|].
  destruct (Z.eqb_spec caller 0); [auto|]. discriminate.
Qed.

(** ** The allocator *)

Lemma window_grow (d : PMBD_DEVICE_T) (b b' : PMBD_BUFFER_T) (k : Z) :
  control_ok d b -> num_dirty b < num_blocks b ->
  num_blocks b' = num_blocks b ->
  pos_dirty b' = pos_dirty b ->
  num_dirty b' = num_dirty b + 1 ->
  (in_window b' k <-> in_window b k \/ k = pos_clean b) /\ ~ in_window b (pos_clean b).
Proof.
  intros (HN & Hd & Hnd & Hc & _) Hfull E1 E2 E3. unfold in_window.
  rewrite E1, E2, E3, Hc. unfold ring.
  destruct (Z.ltb_spec (pos_dirty b + num_dirty b) (num_blocks b)); split; lia.
Qed.

Lemma reserve_ok (d : PMBD_DEVICE_T) (p : Z) (fuel : nat) :
  wf d -> 0 <= p < PMBD_TOTAL_PB_NUM d -> PMBD_BLOCK_IS_BUFFERED d p = false ->
  PMBD_BUFFER_IS_FULL (PBN_TO_PMBD_BUFFER d p) = false ->
  exists d',
    pmbd_buffer_alloc_block (S fuel) d (PBN_TO_PMBD_BUFFER_ID d p) p =
      Ok (d', pos_clean (PBN_TO_PMBD_BUFFER d p)) /\
    wf d' /\ same_conf d d' /\ mem_space d' = mem_space d /\
    PMBD_BLOCK_IS_BUFFERED d' p = true /\
    pbi_bbn (pbi_space d' p) = pos_clean (PBN_TO_PMBD_BUFFER d p) /\
    in_window (PBN_TO_PMBD_BUFFER d' p) (pbi_bbn (pbi_space d' p)) /\
    (forall a, a / pb_size <> p -> dev_byte d' a = dev_byte d a).
Proof.
  intros Hw Hp Hnb Hfull. unfold PBN_TO_PMBD_BUFFER in *.
  set (hb := PBN_TO_PMBD_BUFFER_ID d p) in *.
  assert (Hhb : 0 <= hb < num_buffers d) by (eapply wfr_owner; eauto).
  pose proof (wfr_control _ _ _ Hw Hhb) as Hc.
  pose proof Hc as (HN & Hpd & Hnd & Hpc & Hbs).
  set (b := buffers d hb) in *.
  assert (Hnf : num_dirty b < num_blocks b).
  { unfold PMBD_BUFFER_IS_FULL in Hfull. destruct (Z.geb_spec (num_dirty b) (num_blocks b)); [discriminate | lia]. }
  cbn [pmbd_buffer_alloc_block]. fold b. rewrite Hfull.
  eexists. split; [reflexivity|].
  match goal with |- wf ?x /\ _ => set (d' := x) end.
  assert (Hc' : same_conf d d') by (unfold same_conf; repeat split).
  assert (Hmem : mem_space d' = mem_space d) by reflexivity.
  assert (Hpbi : pbi_space d' = upd (pbi_space d) p (mkPBI (pos_clean b))) by reflexivity.
  assert (Hoth : forall bid, bid <> hb -> buffers d' bid = buffers d bid).
  { intros bid Hne. unfold d', PMBD_SET_BLOCK_BUFFERED, set_buffer, set_buffers. cbn.
    now apply upd_other. }
  assert (Hb' : num_blocks (buffers d' hb) = num_blocks b /\
                batch_size (buffers d' hb) = batch_size b /\
                buffer_space (buffers d' hb) = buffer_space b /\
                pos_dirty (buffers d' hb) = pos_dirty b /\
                num_dirty (buffers d' hb) = num_dirty b + 1 /\
                pos_clean (buffers d' hb) = PMBD_BUFFER_NEXT_POS b (pos_clean b) /\
                bbi_space (buffers d' hb) (pos_clean b) = mkBBI p true /\
                (forall k, k <> pos_clean b ->
                   bbi_space (buffers d' hb) k = bbi_space b k)).
  { unfold d', PMBD_SET_BLOCK_BUFFERED, set_buffer, set_buffers. cbn. rewrite upd_same. cbn.
    rewrite !upd_same. conj; auto. intros k Hk. now rewrite !upd_other. }
  clearbody d'.
  destruct Hb' as (EN & EBS & ESP & EPD & END & EPC & EB0 & EBO).
  pose proof (total_conf _ _ Hc') as HT.
  destruct (window_grow d b (buffers d' hb) 0 Hc Hnf EN EPD END) as (_ & Hnotin).
  assert (Hwin : forall k, in_window (buffers d' hb) k <-> in_window b k \/ k = pos_clean b).
  { intros k. apply (window_grow d b (buffers d' hb) k Hc Hnf EN EPD END). }
  assert (Hnbl : forall bid, num_blocks (buffers d' bid) = num_blocks (buffers d bid)).
  { intros bid. destruct (Z.eq_dec bid hb) as [->|Hne]; [exact EN | now rewrite Hoth]. }
  assert (Hbuf' : forall q, q <> p -> PMBD_BLOCK_IS_BUFFERED d' q = PMBD_BLOCK_IS_BUFFERED d q).
  { intros q Hq. unfold PMBD_BLOCK_IS_BUFFERED, PMBD_BLOCK_PBI, PBN_TO_PMBD_BUFFER.
    now rewrite Hpbi, upd_other, (owner_conf _ _ _ Hc'), Hnbl by exact Hq. }
  assert (Hpos : 0 <= pos_clean b < num_blocks b).
  { rewrite Hpc. unfold ring. destruct (Z.ltb_spec (pos_dirty b + num_dirty b) (num_blocks b)); lia. }
  assert (Hbp : PMBD_BLOCK_IS_BUFFERED d' p = true).
  { unfold PMBD_BLOCK_IS_BUFFERED, PMBD_BLOCK_PBI, PBN_TO_PMBD_BUFFER.
    rewrite Hpbi, upd_same, (owner_conf _ _ _ Hc'). fold hb. rewrite EN. cbn.
    apply Z.ltb_lt. lia. }
  (* a linked slot of [d] names a block other than [p] *)
  assert (Hlp : forall bid k, linked d bid k -> in_window (buffers d bid) k ->
                  bbi_pbn (bbi_space (buffers d bid) k) <> p).
  { intros bid k (H1 & H2 & H3) (Hk & _) E. rewrite E in H2, H3.
    unfold PMBD_BLOCK_IS_BUFFERED, PMBD_BLOCK_PBI, PBN_TO_PMBD_BUFFER in Hnb.
    fold hb in Hnb, H2. rewrite H3 in Hnb. subst bid.
    apply Z.ltb_ge in Hnb. unfold b in *. lia. }
  conj; auto.
  - (* invariant *)
    split; [eapply device_ok_conf; eauto; eapply wfr_device; eauto|]. split.
    + intros bid Hbid. pose proof Hc' as (_ & _ & _ & Hnum & _). rewrite Hnum in Hbid.
      destruct (Z.eq_dec bid hb) as [->|Hne].
      * split.
        -- unfold control_ok. rewrite HT, EN, EBS, EPD, END, EPC. conj; try lia.
           rewrite Hpc. rewrite (next_pos_ring d b (num_dirty b) Hc) by lia.
           unfold ring. rewrite EN. f_equal. lia.
        -- intros k Hk. left. apply Hwin in Hk. destruct Hk as [Hk| ->].
           ++ assert (Hne : k <> pos_clean b) by (intros ->; contradiction).
              destruct (wfr_slot _ _ _ _ Hw Hhb Hk) as [Hsd|(E & _)]; [|lia].
              apply (slot_dirty_pres d d' hb k); auto.
              rewrite Hpbi. apply upd_other. apply (Hlp hb k); auto. apply Hsd.
           ++ split; [|now rewrite EB0].
              unfold linked. rewrite EB0. cbn. rewrite HT, (owner_conf _ _ _ Hc'), Hpbi, upd_same.
              auto.
      * rewrite Hoth by exact Hne. split.
        -- unfold control_ok. rewrite HT. apply (wfr_control _ _ _ Hw Hbid).
        -- intros k Hk. left.
           destruct (wfr_slot _ _ _ _ Hw Hbid Hk) as [Hsd|(E & _)]; [|lia].
           apply (slot_dirty_pres d d' bid k); auto.
           ++ now rewrite Hoth.
           ++ rewrite Hpbi. apply upd_other. apply (Hlp bid k); auto. apply Hsd.
    + intros q Hq. rewrite HT in Hq. destruct (Z.eq_dec q p) as [->|Hqp].
      * rewrite Hpbi, upd_same. cbn. split; [lia|]. intros _.
        unfold PBN_TO_PMBD_BUFFER. rewrite (owner_conf _ _ _ Hc'). fold hb.
        split; [apply Hwin; now right | now rewrite EB0].
      * rewrite Hbuf' by exact Hqp. rewrite Hpbi, upd_other by exact Hqp.
        split; [eapply wfr_pbi_nonneg; eauto|]. intros Hbq.
        destruct (wfr_buffered _ _ _ Hw Hq Hbq) as (H1 & H2).
        unfold PBN_TO_PMBD_BUFFER in *. rewrite (owner_conf _ _ _ Hc').
        destruct (Z.eq_dec (PBN_TO_PMBD_BUFFER_ID d q) hb) as [E|Hne].
        -- rewrite E in *. fold b in H1, H2.
           assert (Hk : pbi_bbn (pbi_space d q) <> pos_clean b)
             by (intros E'; rewrite E' in H1; contradiction).
           split; [apply Hwin; now left | now rewrite EBO].
        -- now rewrite Hoth.
  - now rewrite Hpbi, upd_same.
  - unfold PBN_TO_PMBD_BUFFER. rewrite (owner_conf _ _ _ Hc'). fold hb.
    rewrite Hpbi, upd_same. cbn. apply Hwin. now right.
  - intros a Ha. unfold dev_byte. rewrite Hbuf', Hmem by exact Ha.
    rewrite Hpbi, upd_other by exact Ha.
    unfold PBN_TO_PMBD_BUFFER. rewrite (owner_conf _ _ _ Hc').
    destruct (Z.eq_dec (PBN_TO_PMBD_BUFFER_ID d (a / pb_size)) hb) as [->|Hne].
    + now rewrite ESP.
    + now rewrite Hoth.
Qed.

Lemma pmbd_buffer_alloc_block_full (fuel : nat) (d : PMBD_DEVICE_T) (bid pbn : Z) :
  PMBD_BUFFER_IS_FULL (buffers d bid) = true ->
  pmbd_buffer_alloc_block (S fuel) d bid pbn =
  (r <- pmbd_buffer_check_and_flush d bid (batch_size (buffers d bid)) CALLER_ALLOCATOR ;;
   pmbd_buffer_alloc_block fuel (fst r) bid pbn).
Proof. intros H. cbn [pmbd_buffer_alloc_block]. now rewrite H. Qed.

Lemma pmbd_buffer_alloc_block_ok (d : PMBD_DEVICE_T) (p : Z) (fuel : nat) :
  wf d -> 0 <= p < PMBD_TOTAL_PB_NUM d -> PMBD_BLOCK_IS_BUFFERED d p = false ->
  (2 <= fuel)%nat ->
  exists d' pos,
    pmbd_buffer_alloc_block fuel d (PBN_TO_PMBD_BUFFER_ID d p) p = Ok (d', pos) /\
    wf d' /\ same_conf d d' /\
    PMBD_BLOCK_IS_BUFFERED d' p = true /\
    pbi_bbn (pbi_space d' p) = pos /\
    in_window (PBN_TO_PMBD_BUFFER d' p) pos /\
    (forall a, 0 <= a < PMBD_MEM_TOTAL_BYTES d -> a / pb_size <> p ->
       dev_byte d' a = dev_byte d a) /\
    (forall a, 0 <= a < PMBD_MEM_TOTAL_BYTES d -> a / pb_size = p ->
       mem_space d' a = mem_space d a).
Proof.
  intros Hw Hp Hnb Hfuel.
  destruct fuel as [|[|fuel]]; try lia.
  set (hb := PBN_TO_PMBD_BUFFER_ID d p).
  assert (Hhb : 0 <= hb < num_buffers d) by (eapply wfr_owner; eauto).
  destruct (PMBD_BUFFER_IS_FULL (buffers d hb)) eqn:Hfull.
  - (* the buffer is full: flush a batch, then reserve *)
    destruct (wfr_control _ _ _ Hw Hhb) as (HN & Hpd & Hnd & Hpc & Hbs).
    destruct (pmbd_buffer_check_and_flush_ok d hb (batch_size (buffers d hb)) CALLER_ALLOCATOR
                Hw Hhb ltac:(lia) ltac:(auto))
      as (d1 & r & Hr & Hpost & Hcnt).
    destruct Hcnt as [Hcnt|(_ & _ & Hcnt)]; [|congruence].
    destruct Hpost as (Hw1 & Hv1 & Hc1 & Ho1 & EN1 & _ & _ & _ & END1 & _ & Hp1).
    rewrite (pmbd_buffer_alloc_block_full (S fuel) d hb p Hfull), Hr. cbn [bind fst].
    pose proof (total_conf _ _ Hc1) as HT1.
    assert (Hnb1 : PMBD_BLOCK_IS_BUFFERED d1 p = false).
    { unfold PMBD_BLOCK_IS_BUFFERED, PMBD_BLOCK_PBI, PBN_TO_PMBD_BUFFER in *.
      rewrite (Hp1 p Hnb), (owner_conf _ _ _ Hc1). fold hb. fold hb in Hnb. now rewrite EN1. }
    assert (Hnf1 : PMBD_BUFFER_IS_FULL (PBN_TO_PMBD_BUFFER d1 p) = false).
    { unfold PBN_TO_PMBD_BUFFER. rewrite (owner_conf _ _ _ Hc1). fold hb.
      unfold PMBD_BUFFER_IS_FULL in *. apply Z.geb_le in Hfull.
      destruct (Z.geb_spec (num_dirty (buffers d1 hb)) (num_blocks (buffers d1 hb))); [|reflexivity].
      rewrite EN1, END1 in *. lia. }
    destruct (reserve_ok d1 p fuel Hw1 ltac:(now rewrite HT1) Hnb1 Hnf1)
      as (d' & Hr' & Hw' & Hc' & Hm' & Hb' & Hq' & Hwin' & Hv').
    rewrite (owner_conf _ _ _ Hc1) in Hr'. fold hb in Hr'.
    exists d', (pos_clean (PBN_TO_PMBD_BUFFER d1 p)). conj; auto.
    + eapply same_conf_trans; eauto.
    + now rewrite <- Hq'.
    + intros a Ha Hne. rewrite Hv' by exact Hne. now apply Hv1.
    + intros a Ha E. rewrite Hm'. specialize (Hv1 a Ha). unfold dev_byte in Hv1.
      now rewrite E, Hnb, Hnb1 in Hv1.
  - destruct (reserve_ok d p (S fuel) Hw Hp Hnb Hfull)
      as (d' & Hr' & Hw' & Hc' & Hm' & Hb' & Hq' & Hwin' & Hv').
    exists d', (pos_clean (PBN_TO_PMBD_BUFFER d p)). conj; auto.
    + now rewrite <- Hq'.
    + intros a Ha E. now rewrite Hm'.
Qed.

(** ** Writing into the slot of a buffered block *)

(** A change of the bytes of the slot of the buffered block [p] that leaves
    the tables alone, except for marking slots dirty. *)
Lemma slot_fill_ok (d d' : PMBD_DEVICE_T) (p : Z) :
  wf d -> 0 <= p < PMBD_TOTAL_PB_NUM d -> PMBD_BLOCK_IS_BUFFERED d p = true ->
  same_conf d d' -> pbi_space d' = pbi_space d -> mem_space d' = mem_space d ->
  (forall bid, bid <> PBN_TO_PMBD_BUFFER_ID d p -> buffers d' bid = buffers d bid) ->
  num_blocks (PBN_TO_PMBD_BUFFER d' p) = num_blocks (PBN_TO_PMBD_BUFFER d p) ->
  num_dirty (PBN_TO_PMBD_BUFFER d' p) = num_dirty (PBN_TO_PMBD_BUFFER d p) ->
  pos_dirty (PBN_TO_PMBD_BUFFER d' p) = pos_dirty (PBN_TO_PMBD_BUFFER d p) ->
  pos_clean (PBN_TO_PMBD_BUFFER d' p) = pos_clean (PBN_TO_PMBD_BUFFER d p) ->
  batch_size (PBN_TO_PMBD_BUFFER d' p) = batch_size (PBN_TO_PMBD_BUFFER d p) ->
  (forall k, bbi_pbn (bbi_space (PBN_TO_PMBD_BUFFER d' p) k) =
             bbi_pbn (bbi_space (PBN_TO_PMBD_BUFFER d p) k)) ->
  (forall k, bbi_dirty (bbi_space (PBN_TO_PMBD_BUFFER d p) k) = true ->
             bbi_dirty (bbi_space (PBN_TO_PMBD_BUFFER d' p) k) = true) ->
  (forall x, ~ (PMBD_BUFFER_BLOCK (pbi_bbn (pbi_space d p)) <= x <
                PMBD_BUFFER_BLOCK (pbi_bbn (pbi_space d p)) + pb_size) ->
     buffer_space (PBN_TO_PMBD_BUFFER d' p) x = buffer_space (PBN_TO_PMBD_BUFFER d p) x) ->
  wf d' /\
  (forall a, 0 <= a < PMBD_MEM_TOTAL_BYTES d -> a / pb_size <> p ->
     dev_byte d' a = dev_byte d a) /\
  (forall a, a / pb_size = p ->
     dev_byte d' a =
     buffer_space (PBN_TO_PMBD_BUFFER d' p)
       (PMBD_BUFFER_BLOCK (pbi_bbn (pbi_space d p)) + a mod pb_size)).
Proof.
  intros Hw Hp Hb Hc Hpbi Hmem Hoth.
  unfold PBN_TO_PMBD_BUFFER. rewrite (owner_conf _ _ _ Hc).
  set (hb := PBN_TO_PMBD_BUFFER_ID d p) in *.
  set (k0 := pbi_bbn (pbi_space d p)).
  intros EN END EPD EPC EBS Hbp Hbd Hsp.
  assert (Hhb : 0 <= hb < num_buffers d) by (eapply wfr_owner; eauto).
  pose proof (total_conf _ _ Hc) as HT.
  pose proof (wfr_device _ _ Hw) as Hdev.
  assert (Hnbl : forall bid, num_blocks (buffers d' bid) = num_blocks (buffers d bid)).
  { intros bid. destruct (Z.eq_dec bid hb) as [->|Hne]; [exact EN | now rewrite Hoth]. }
  assert (Hbuf : forall q, PMBD_BLOCK_IS_BUFFERED d' q = PMBD_BLOCK_IS_BUFFERED d q).
  { intros q. unfold PMBD_BLOCK_IS_BUFFERED, PMBD_BLOCK_PBI, PBN_TO_PMBD_BUFFER.
    now rewrite Hpbi, (owner_conf _ _ _ Hc), Hnbl. }
  assert (Hwin : forall bid k, in_window (buffers d' bid) k <-> in_window (buffers d bid) k).
  { intros bid k. destruct (Z.eq_dec bid hb) as [->|Hne].
    - unfold in_window. rewrite EN, END, EPD. tauto.
    - now rewrite Hoth. }
  assert (Hsd : forall bid k, slot_dirty d bid k -> slot_dirty d' bid k).
  { intros bid k. destruct (Z.eq_dec bid hb) as [->|Hne].
    - intros (Hl & Hdk). split; [|now apply Hbd].
      apply (linked_pres d d' hb k Hc); auto. now rewrite Hpbi.
    - apply slot_dirty_pres; auto.
      + now rewrite Hoth.
      + now rewrite Hpbi. }
  conj.
  - split; [eapply device_ok_conf; eauto|]. split.
    + intros bid Hbid. pose proof Hc as (_ & _ & _ & Hnum & _). rewrite Hnum in Hbid. split.
      * pose proof (wfr_control _ _ _ Hw Hbid) as Hctl.
        destruct (Z.eq_dec bid hb) as [->|Hne].
        -- unfold control_ok, ring in *. rewrite HT, EN, END, EPD, EPC, EBS. exact Hctl.
        -- rewrite Hoth by exact Hne. unfold control_ok. rewrite HT. exact Hctl.
      * intros k Hk. apply Hwin in Hk. left.
        destruct (wfr_slot _ _ _ _ Hw Hbid Hk) as [H|(E & _)]; [now apply Hsd | lia].
    + intros q Hq. rewrite HT in Hq. rewrite Hpbi, Hbuf.
      split; [eapply wfr_pbi_nonneg; eauto|]. intros Hbq.
      destruct (wfr_buffered _ _ _ Hw Hq Hbq) as (H1 & H2).
      unfold PBN_TO_PMBD_BUFFER in *. rewrite (owner_conf _ _ _ Hc).
      split; [now apply Hwin|].
      destruct (Z.eq_dec (PBN_TO_PMBD_BUFFER_ID d q) hb) as [E|Hne].
      * rewrite E in *. now rewrite Hbp.
      * now rewrite Hoth.
  - intros a Ha Hne. unfold dev_byte. rewrite Hbuf, Hpbi, Hmem.
    destruct (PMBD_BLOCK_IS_BUFFERED d (a / pb_size)) eqn:Hba; [|reflexivity].
    unfold PBN_TO_PMBD_BUFFER. rewrite (owner_conf _ _ _ Hc).
    destruct (Z.eq_dec (PBN_TO_PMBD_BUFFER_ID d (a / pb_size)) hb) as [E|Hno];
      [|now rewrite Hoth].
    rewrite E. apply Hsp.
    pose proof (valid_block d a Hdev Ha) as Hq.
    destruct (wfr_buffered _ _ _ Hw Hq Hba) as (_ & H2).
    destruct (wfr_buffered _ _ _ Hw Hp Hb) as (_ & H3).
    unfold PBN_TO_PMBD_BUFFER in H2, H3. rewrite E in H2. fold hb k0 in H3.
    assert (Hk : pbi_bbn (pbi_space d (a / pb_size)) <> k0)
      by (intros E'; rewrite E' in H2; congruence).
    unfold PMBD_BUFFER_BLOCK. revert Hk. units. generalize (pbi_bbn (pbi_space d (a / 4096))).
    intros k Hk. zdiv.
  - intros a Ha. unfold dev_byte. rewrite Ha, Hbuf, Hb, Hpbi.
    unfold PBN_TO_PMBD_BUFFER. rewrite (owner_conf _ _ _ Hc). reflexivity.
Qed.

Lemma buffer_lookup_buffered (d : PMBD_DEVICE_T) (bid p : Z) :
  _pmbd_buffer_lookup d bid p =
  if PMBD_BLOCK_IS_BUFFERED d p then Some (pbi_bbn (pbi_space d p)) else None.
Proof. reflexivity. Qed.

(** The slot of block [p] is there, and holds the bytes of the block when
    the write will not cover all of it. *)
Lemma copy_to_block_prepare (fuel : nat) (d : PMBD_DEVICE_T) (p size : Z) :
  wf d -> 0 <= p < PMBD_TOTAL_PB_NUM d -> (2 <= fuel)%nat ->
  exists d1,
    match _pmbd_buffer_lookup d (PBN_TO_PMBD_BUFFER_ID d p) p with
    | Some _ => Ok d
    | None =>
      r <- pmbd_buffer_alloc_block fuel d (PBN_TO_PMBD_BUFFER_ID d p) p ;;
      if size <? pb_size
      then Ok (set_buffer (fst r) (PBN_TO_PMBD_BUFFER_ID d p)
                 (set_buffer_space (buffers (fst r) (PBN_TO_PMBD_BUFFER_ID d p))
                    (memcpy_from_pmbd (fst r)
                       (buffer_space (buffers (fst r) (PBN_TO_PMBD_BUFFER_ID d p)))
                       (PMBD_BUFFER_BLOCK (pbi_bbn (PMBD_BLOCK_PBI (fst r) p)))
                       (PMBD_BLOCK_VADDR p) pb_size)))
      else Ok (fst r)
    end = Ok d1 /\
    wf d1 /\ same_conf d d1 /\ PMBD_BLOCK_IS_BUFFERED d1 p = true /\
    (forall a, 0 <= a < PMBD_MEM_TOTAL_BYTES d -> a / pb_size <> p ->
       dev_byte d1 a = dev_byte d a) /\
    (size < pb_size -> forall a, 0 <= a < PMBD_MEM_TOTAL_BYTES d -> a / pb_size = p ->
       dev_byte d1 a = dev_byte d a).
Proof.
  intros Hw Hp Hfuel. rewrite buffer_lookup_buffered.
  set (hb := PBN_TO_PMBD_BUFFER_ID d p).
  destruct (PMBD_BLOCK_IS_BUFFERED d p) eqn:Hb.
  - exists d. conj; auto using same_conf_refl.
  - destruct (pmbd_buffer_alloc_block_ok d p fuel Hw Hp Hb Hfuel)
      as (d1 & pos & Hr & Hw1 & Hc1 & Hb1 & Hq1 & Hwin1 & Hv1 & Hm1).
    fold hb in Hr. rewrite Hr. cbn [bind fst]. unfold PMBD_BLOCK_PBI.
    pose proof (total_conf _ _ Hc1) as HT1.
    pose proof (owner_conf _ _ p Hc1) as Ho1. fold hb in Ho1.
    destruct (Z.ltb_spec size pb_size) as [Hlt|Hge].
    + eexists. split; [reflexivity|].
      match goal with |- wf ?x /\ _ => set (d2 := x) end.
      assert (Hc12 : same_conf d1 d2) by (unfold same_conf; repeat split).
      assert (Hoth : forall bid, bid <> PBN_TO_PMBD_BUFFER_ID d1 p ->
                       buffers d2 bid = buffers d1 bid).
      { intros bid Hne. rewrite Ho1 in Hne. unfold d2, set_buffer, set_buffers. cbn.
        now apply upd_other. }
      assert (Hb2 : buffers d2 hb =
                    set_buffer_space (buffers d1 hb)
                      (memcpy_from_pmbd d1 (buffer_space (buffers d1 hb))
                         (PMBD_BUFFER_BLOCK (pbi_bbn (pbi_space d1 p)))
                         (PMBD_BLOCK_VADDR p) pb_size)).
      { unfold d2, set_buffer, set_buffers. cbn. now rewrite upd_same. }
      destruct (slot_fill_ok d1 d2 p Hw1 ltac:(now rewrite HT1) Hb1 Hc12 eq_refl eq_refl Hoth)
        as (Hw2 & Hv2 & Hs2);
        unfold PBN_TO_PMBD_BUFFER; rewrite ?(owner_conf _ _ _ Hc12), ?Ho1, ?Hb2;
        try reflexivity; try (intros k; cbn; solve [auto]).
      { intros x Hx. cbn. unfold memcpy_from_pmbd. now apply memcpy_out. }
      unfold PBN_TO_PMBD_BUFFER in Hs2. rewrite (owner_conf _ _ _ Hc12), Ho1, Hb2 in Hs2.
      cbn [set_buffer_space buffer_space] in Hs2.
      assert (Hc2 : same_conf d d2) by (eapply same_conf_trans; eauto).
      conj; auto.
      * unfold PMBD_BLOCK_IS_BUFFERED, PMBD_BLOCK_PBI, PBN_TO_PMBD_BUFFER in *.
        rewrite (owner_conf _ _ _ Hc2). rewrite Ho1 in Hb1. fold hb. rewrite Hb2.
        exact Hb1.
      * intros a Ha Hne. rewrite Hv2; auto. now rewrite (bytes_conf _ _ Hc1).
      * intros _ a Ha E. rewrite (Hs2 a E). unfold memcpy_from_pmbd.
        assert (Hm : 0 <= a mod pb_size < pb_size) by (units; zdiv).
        rewrite memcpy_in by lia.
        replace (PMBD_BLOCK_VADDR p + _) with a
          by (unfold PMBD_BLOCK_VADDR; rewrite <- E; revert Hm; units; zdiv).
        rewrite (Hm1 a Ha E). unfold dev_byte. now rewrite E, Hb.
    + exists d1. conj; auto. lia.
Qed.

Lemma copy_to_pmbd_buffered_block_ok (fuel : nat) (src : memory)
  (pbn_s pbn_e offset_s offset_e p from : Z) (d : PMBD_DEVICE_T) :
  wf d -> 0 <= p < PMBD_TOTAL_PB_NUM d -> (2 <= fuel)%nat ->
  0 <= block_sect_s pbn_s offset_s p <= block_sect_e pbn_e offset_e p ->
  block_sect_e pbn_e offset_e p <= 7 ->
  exists d',
    copy_to_pmbd_buffered_block fuel src pbn_s pbn_e offset_s offset_e p (d, from) =
      Ok (d', from + block_size (block_sect_s pbn_s offset_s p)
                                (block_sect_e pbn_e offset_e p)) /\
    wf d' /\ same_conf d d' /\
    forall a, 0 <= a < PMBD_MEM_TOTAL_BYTES d ->
      dev_byte d' a =
      if (PMBD_BLOCK_VADDR p + SECTOR_TO_BYTE (block_sect_s pbn_s offset_s p) <=? a) &&
         (a <? PMBD_BLOCK_VADDR p + SECTOR_TO_BYTE (block_sect_s pbn_s offset_s p) +
               block_size (block_sect_s pbn_s offset_s p) (block_sect_e pbn_e offset_e p))
      then src (from + (a - (PMBD_BLOCK_VADDR p +
                             SECTOR_TO_BYTE (block_sect_s pbn_s offset_s p))))
      else dev_byte d a.
Proof.
  intros Hw Hp Hfuel.
  set (sect_s := block_sect_s pbn_s offset_s p).
  set (sect_e := block_sect_e pbn_e offset_e p).
  set (size := block_size sect_s sect_e).
  intros Hs He.
  unfold copy_to_pmbd_buffered_block. cbn [fst snd]. fold sect_s sect_e size.
  set (hb := PBN_TO_PMBD_BUFFER_ID d p).
  destruct (copy_to_block_prepare fuel d p size Hw Hp Hfuel)
    as (d1 & Hr & Hw1 & Hc1 & Hb1 & Hv1 & Hh1).
  fold hb in Hr. rewrite Hr. cbn [bind]. unfold PMBD_BLOCK_PBI.
  pose proof (total_conf _ _ Hc1) as HT1.
  pose proof (owner_conf _ _ p Hc1) as Ho1. fold hb in Ho1.
  set (k0 := pbi_bbn (pbi_space d1 p)).
  assert (Hsize : size = 512 * (sect_e - sect_s + 1)).
  { unfold size, block_size. units. lia. }
  eexists. split; [reflexivity|].
  clearbody sect_s sect_e size.
  match goal with |- wf ?x /\ _ => set (d2 := x) end.
  assert (Hc12 : same_conf d1 d2) by (unfold same_conf; repeat split).
  assert (Hoth : forall bid, bid <> PBN_TO_PMBD_BUFFER_ID d1 p ->
                   buffers d2 bid = buffers d1 bid).
  { intros bid Hne. rewrite Ho1 in Hne. unfold d2, set_buffer, set_buffers. cbn.
    now apply upd_other. }
  assert (Hb2 : buffers d2 hb =
                PMBD_BUFFER_SET_BBI_DIRTY
                  (set_buffer_space (buffers d1 hb)
                     (memcpy (buffer_space (buffers d1 hb))
                        (PMBD_BUFFER_BLOCK k0 + SECTOR_TO_BYTE sect_s) src from size)) k0).
  { unfold d2, set_buffer, set_buffers. cbn. now rewrite upd_same. }
  assert (Hpbi2 : pbi_space d2 = pbi_space d1) by reflexivity.
  assert (Hmem2 : mem_space d2 = mem_space d1) by reflexivity.
  clearbody d2.
  destruct (slot_fill_ok d1 d2 p Hw1 ltac:(now rewrite HT1) Hb1 Hc12 Hpbi2 Hmem2 Hoth)
    as (Hw2 & Hv2 & Hs2);
    unfold PBN_TO_PMBD_BUFFER; rewrite ?(owner_conf _ _ _ Hc12), ?Ho1, ?Hb2;
    try reflexivity.
  { intros k. cbn [PMBD_BUFFER_SET_BBI_DIRTY set_bbi_space set_buffer_space bbi_space].
    unfold upd. destruct (Z.eqb_spec k k0) as [->|]; reflexivity. }
  { intros k Hk. cbn [PMBD_BUFFER_SET_BBI_DIRTY set_bbi_space set_buffer_space bbi_space] in *.
    unfold upd. destruct (Z.eqb_spec k k0) as [->|]; auto. }
  { intros x Hx. cbn [PMBD_BUFFER_SET_BBI_DIRTY set_bbi_space set_buffer_space buffer_space].
    apply memcpy_out. fold k0 in Hx. revert Hx.
    unfold PMBD_BUFFER_BLOCK. units. lia. }
  unfold PBN_TO_PMBD_BUFFER in Hs2. rewrite (owner_conf _ _ _ Hc12), Ho1, Hb2 in Hs2.
  cbn [PMBD_BUFFER_SET_BBI_DIRTY set_bbi_space set_buffer_space buffer_space] in Hs2.
  fold k0 in Hs2.
  conj; auto.
  - eapply same_conf_trans; eauto.
  - intros a Ha.
    pose proof (valid_block d a (wfr_device _ _ Hw) Ha) as Hq.
    destruct (Z.eq_dec (a / pb_size) p) as [E|Hne].
    + rewrite (Hs2 a E). unfold memcpy, PMBD_BUFFER_BLOCK, PMBD_BLOCK_VADDR.
      assert (Ea : a = pb_size * p + a mod pb_size) by (rewrite <- E; units; zdiv).
      assert (Hm : 0 <= a mod pb_size < pb_size) by (units; zdiv).
      revert Ea Hm. generalize (a mod pb_size). intros m Ea Hm.
      units. rewrite Hsize.
      destruct (Z.leb_spec (4096 * k0 + sect_s * 512) (4096 * k0 + m));
        destruct (Z.ltb_spec (4096 * k0 + m) (4096 * k0 + sect_s * 512 + 512 * (sect_e - sect_s + 1)));
        destruct (Z.leb_spec (4096 * p + sect_s * 512) a);
        destruct (Z.ltb_spec a (4096 * p + sect_s * 512 + 512 * (sect_e - sect_s + 1)));
        cbn [andb]; try lia.
      * f_equal. lia.
      * rewrite <- (Hh1 ltac:(units; lia) a Ha E). unfold dev_byte.
        cbv zeta. units. rewrite E, Hb1. unfold PBN_TO_PMBD_BUFFER. rewrite Ho1. fold k0.
        unfold PMBD_BUFFER_BLOCK. units. do 2 f_equal. zdiv.
      * rewrite <- (Hh1 ltac:(units; lia) a Ha E). unfold dev_byte.
        cbv zeta. units. rewrite E, Hb1. unfold PBN_TO_PMBD_BUFFER. rewrite Ho1. fold k0.
        unfold PMBD_BUFFER_BLOCK. units. do 2 f_equal. zdiv.
    + rewrite Hv2, Hv1; auto; [|now rewrite (bytes_conf _ _ Hc1)].
      unfold PMBD_BLOCK_VADDR. revert Hne. units. rewrite Hsize. intros Hne.
      destruct (Z.leb_spec (4096 * p + sect_s * 512) a);
        destruct (Z.ltb_spec a (4096 * p + sect_s * 512 + 512 * (sect_e - sect_s + 1)));
        cbn [andb]; try reflexivity.
      exfalso. apply Hne. zdiv.
Qed.

(** ** Request geometry *)

Lemma request_geometry (d : PMBD_DEVICE_T) (sector bytes : Z) :
  device_ok d -> request_ok d sector bytes ->
  exists n, 0 < n /\ bytes = 512 * n /\
    SECTOR_TO_PBN sector = sector / 8 /\
    BYTE_TO_PBN (u64 (SECTOR_TO_BYTE sector + bytes - 1)) = (sector + n - 1) / 8 /\
    pmbd_buffer_aligned_request_start sector bytes = sector mod 8 /\
    pmbd_buffer_aligned_request_end sector bytes = (sector + n - 1) mod 8 /\
    (sector + n - 1) / 8 < PMBD_TOTAL_PB_NUM d /\
    512 * (sector + n) <= PMBD_MEM_TOTAL_BYTES d.
Proof.
  unfold device_ok, request_ok, PMBD_TOTAL_PB_NUM, PMBD_MEM_TOTAL_BYTES.
  units. intros (_ & _ & Hn0 & Hn8 & Hmax) (Hs & Hb & Hm & Hle).
  exists (bytes / 512).
  assert (Eb : bytes = 512 * (bytes / 512)) by zdiv.
  revert Hle. generalize dependent (bytes / 512). intros n Eb. subst bytes. intros Hle.
  assert (Hn : 0 < n) by lia.
  assert (HU : U64_MOD = 18446744073709551616) by reflexivity.
  conj; try lia.
  - unfold SECTOR_TO_PBN, BYTE_TO_PBN. units. zdiv.
  - unfold BYTE_TO_PBN. units. rewrite u64_small by lia. zdiv.
  - unfold pmbd_buffer_aligned_request_start, SECTOR_TO_PBN, PBN_TO_SECTOR, BYTE_TO_PBN,
      PBN_TO_BYTE. units. cbv zeta.
    assert (E : sector * 512 / 4096 * 4096 / 512 = 8 * (sector / 8)) by zdiv.
    rewrite E. destruct (Z.geb_spec sector (8 * (sector / 8))).
    + rewrite u64_small by zdiv. zdiv.
    + zdiv.
  - unfold pmbd_buffer_aligned_request_end, SECTOR_TO_PBN, PBN_TO_SECTOR, BYTE_TO_PBN,
      PBN_TO_BYTE. units. cbv zeta.
    replace (512 * n / 512) with n by zdiv.
    rewrite (u64_small (sector + n - 1)) by lia.
    assert (E : (sector + n - 1) * 512 / 4096 * 4096 / 512 = 8 * ((sector + n - 1) / 8))
      by zdiv.
    rewrite E. destruct (Z.geb_spec (sector + n - 1) (8 * ((sector + n - 1) / 8))).
    + rewrite u64_small by zdiv. zdiv.
    + zdiv.
  - zdiv.
Qed.

(** ** The buffered write *)

Lemma copy_to_pmbd_buffered_ok (fuel : nat) (d : PMBD_DEVICE_T) (src : memory)
  (sector bytes : Z) :
  wf d -> request_ok d sector bytes -> (2 <= fuel)%nat ->
  exists d', copy_to_pmbd_buffered fuel d src sector bytes = Ok d' /\
    wf d' /\ same_conf d d' /\
    forall a, 0 <= a < PMBD_MEM_TOTAL_BYTES d ->
      dev_byte d' a =
      if (SECTOR_TO_BYTE sector <=? a) && (a <? SECTOR_TO_BYTE sector + bytes)
      then src (a - SECTOR_TO_BYTE sector) else dev_byte d a.
Proof.
  intros Hw Hreq Hfuel.
  destruct (request_geometry d sector bytes (wfr_device _ _ Hw) Hreq)
    as (n & Hn & -> & Eps & Epe & Eos & Eoe & Hpe & Hend).
  assert (Hs : 0 <= sector) by apply Hreq.
  unfold copy_to_pmbd_buffered. rewrite Eps, Epe, Eos, Eoe. cbv zeta.
  set (ps := sector / 8). set (pe := (sector + n - 1) / 8).
  set (os := sector mod 8). set (oe := (sector + n - 1) mod 8).
  assert (Gs : sector = 8 * ps + os /\ 0 <= os < 8) by (unfold ps, os; zdiv).
  assert (Ge : sector + n - 1 = 8 * pe + oe /\ 0 <= oe < 8) by (unfold pe, oe; zdiv).
  assert (Hps : 0 <= ps) by (unfold ps; zdiv).
  fold ps pe os oe in Hpe. clearbody ps pe os oe.
  set (I := fun (i : Z) (st : PMBD_DEVICE_T * Z) =>
    wf (fst st) /\ same_conf d (fst st) /\
    snd st = Z.max (Z.min (4096 * i) (512 * (sector + n))) (512 * sector) - 512 * sector /\
    forall a, 0 <= a < PMBD_MEM_TOTAL_BYTES d ->
      dev_byte (fst st) a =
      if (512 * sector <=? a) && (a <? Z.min (4096 * i) (512 * (sector + n)))
      then src (a - 512 * sector) else dev_byte d a).
  destruct (for_range_inv I
              (copy_to_pmbd_buffered_block fuel src ps pe os oe)
              (Z.to_nat (pe - ps + 1)) ps (d, 0)) as ((d', from') & Hr & HI).
  - intros i (d0, from) Hi (Hw0 & Hc0 & Hfrom & Hv0). cbn [fst snd] in *.
    assert (Hi' : ps <= i <= pe) by lia.
    assert (Hss : block_sect_s ps os i = if i =? ps then os else 0) by reflexivity.
    assert (Hse : block_sect_e pe oe i = if i =? pe then oe else 7) by reflexivity.
    destruct (copy_to_pmbd_buffered_block_ok fuel src ps pe os oe i from d0 Hw0)
      as (d1 & Hr & Hw1 & Hc1 & Hv1); auto.
    { rewrite (total_conf _ _ Hc0). lia. }
    { rewrite Hss, Hse.
      destruct (Z.eqb_spec i ps); destruct (Z.eqb_spec i pe); lia. }
    { rewrite Hse. destruct (Z.eqb_spec i pe); lia. }
    eexists. split; [exact Hr|]. unfold I. cbn [fst snd].
    assert (Hbs : block_size (block_sect_s ps os i) (block_sect_e pe oe i) =
                  512 * (block_sect_e pe oe i - block_sect_s ps os i + 1)).
    { unfold block_size. units. lia. }
    assert (Hlo : PMBD_BLOCK_VADDR i + SECTOR_TO_BYTE (block_sect_s ps os i) =
                  Z.max (4096 * i) (512 * sector)).
    { unfold PMBD_BLOCK_VADDR. units. rewrite Hss.
      destruct (Z.eqb_spec i ps); lia. }
    assert (Hhi : Z.max (4096 * i) (512 * sector) +
                  512 * (block_sect_e pe oe i - block_sect_s ps os i + 1) =
                  Z.min (4096 * (i + 1)) (512 * (sector + n))).
    { rewrite Hss, Hse.
      destruct (Z.eqb_spec i ps); destruct (Z.eqb_spec i pe); lia. }
    conj; auto.
    + eapply same_conf_trans; eauto.
    + rewrite Hbs, Hfrom. lia.
    + intros a Ha. rewrite Hv1 by now rewrite (bytes_conf _ _ Hc0).
      rewrite Hbs, Hlo, Hhi, (Hv0 a Ha), Hfrom.
      destruct (Z.leb_spec (Z.max (4096 * i) (512 * sector)) a);
        destruct (Z.ltb_spec a (Z.min (4096 * (i + 1)) (512 * (sector + n))));
        destruct (Z.leb_spec (512 * sector) a);
        destruct (Z.ltb_spec a (Z.min (4096 * i) (512 * (sector + n))));
        cbn [andb]; try reflexivity; try lia.
      f_equal. lia.
  - unfold I. cbn [fst snd]. conj; auto using same_conf_refl.
    + lia.
    + intros a Ha.
      destruct (Z.leb_spec (512 * sector) a);
        destruct (Z.ltb_spec a (Z.min (4096 * ps) (512 * (sector + n))));
        cbn [andb]; try reflexivity; lia.
  - rewrite Hr. cbn [bind fst]. exists d'.
    destruct HI as (Hw' & Hc' & _ & Hv'). cbn [fst snd] in *.
    conj; auto.
    intros a Ha. rewrite (Hv' a Ha). units.
    replace (ps + Z.of_nat (Z.to_nat (pe - ps + 1))) with (pe + 1) by lia.
    replace (Z.min (4096 * (pe + 1)) (512 * (sector + n))) with (sector * 512 + 512 * n)
      by lia.
    replace (512 * sector) with (sector * 512) by lia. reflexivity.
Qed.

(** ** The buffered read *)

Lemma copy_from_pmbd_buffered_block_eq (d : PMBD_DEVICE_T)
  (pbn_s pbn_e offset_s offset_e p : Z) (dst : list byte) :
  0 <= block_sect_s pbn_s offset_s p ->
  block_sect_s pbn_s offset_s p <= block_sect_e pbn_e offset_e p <= 7 ->
  copy_from_pmbd_buffered_block d pbn_s pbn_e offset_s offset_e p dst =
  dst ++ read_bytes (dev_byte d)
           (PMBD_BLOCK_VADDR p + SECTOR_TO_BYTE (block_sect_s pbn_s offset_s p))
           (Z.to_nat (block_size (block_sect_s pbn_s offset_s p)
                                 (block_sect_e pbn_e offset_e p))).
Proof.
  set (sect_s := block_sect_s pbn_s offset_s p).
  set (sect_e := block_sect_e pbn_e offset_e p).
  intros Hs He. unfold copy_from_pmbd_buffered_block. fold sect_s sect_e.
  rewrite buffer_lookup_buffered. cbv zeta.
  assert (Hsz : block_size sect_s sect_e = 512 * (sect_e - sect_s + 1))
    by (unfold block_size; units; lia).
  rewrite Hsz. clearbody sect_s sect_e.
  assert (Hblk : forall j, 0 <= j < 512 * (sect_e - sect_s + 1) ->
            (PMBD_BLOCK_VADDR p + SECTOR_TO_BYTE sect_s + j) / pb_size = p /\
            (PMBD_BLOCK_VADDR p + SECTOR_TO_BYTE sect_s + j) mod pb_size =
              SECTOR_TO_BYTE sect_s + j).
  { intros j Hj. unfold PMBD_BLOCK_VADDR. units. zdiv. }
  destruct (PMBD_BLOCK_IS_BUFFERED d p) eqn:Hb; f_equal; apply read_bytes_ext;
    intros j Hj; rewrite Z2Nat.id in Hj by lia; destruct (Hblk j Hj) as (E1 & E2);
    unfold dev_byte; cbv zeta; rewrite E1, E2, Hb.
  - unfold PBN_TO_PMBD_BUFFER, PMBD_BLOCK_PBI. f_equal. lia.
  - reflexivity.
Qed.

Lemma copy_from_pmbd_buffered_ok (d : PMBD_DEVICE_T) (sector bytes : Z) :
  device_ok d -> request_ok d sector bytes ->
  copy_from_pmbd_buffered d sector bytes =
  read_bytes (dev_byte d) (SECTOR_TO_BYTE sector) (Z.to_nat bytes).
Proof.
  intros Hd Hreq.
  destruct (request_geometry d sector bytes Hd Hreq)
    as (n & Hn & -> & Eps & Epe & Eos & Eoe & Hpe & Hend).
  assert (Hs : 0 <= sector) by apply Hreq.
  unfold copy_from_pmbd_buffered. rewrite Eps, Epe, Eos, Eoe. cbv zeta.
  set (ps := sector / 8). set (pe := (sector + n - 1) / 8).
  set (os := sector mod 8). set (oe := (sector + n - 1) mod 8).
  assert (Gs : sector = 8 * ps + os /\ 0 <= os < 8) by (unfold ps, os; zdiv).
  assert (Ge : sector + n - 1 = 8 * pe + oe /\ 0 <= oe < 8) by (unfold pe, oe; zdiv).
  clearbody ps pe os oe.
  set (I := fun (i : Z) (dst : list byte) =>
    dst = read_bytes (dev_byte d) (512 * sector)
            (Z.to_nat (Z.max (Z.min (4096 * i) (512 * (sector + n))) (512 * sector)
                       - 512 * sector))).
  assert (HI : I (ps + Z.of_nat (Z.to_nat (pe - ps + 1)))
                 (for_each (Z.to_nat (pe - ps + 1)) ps
                    (copy_from_pmbd_buffered_block d ps pe os oe) [])).
  { apply for_each_inv.
    - intros i dst Hi HI. unfold I in *.
      assert (Hss : block_sect_s ps os i = if i =? ps then os else 0) by reflexivity.
      assert (Hse : block_sect_e pe oe i = if i =? pe then oe else 7) by reflexivity.
      rewrite copy_from_pmbd_buffered_block_eq.
      2:{ rewrite Hss. destruct (Z.eqb_spec i ps); lia. }
      2:{ rewrite Hss, Hse. destruct (Z.eqb_spec i ps); destruct (Z.eqb_spec i pe); lia. }
      assert (Hbs : block_size (block_sect_s ps os i) (block_sect_e pe oe i) =
                    512 * (block_sect_e pe oe i - block_sect_s ps os i + 1)).
      { unfold block_size. units. lia. }
      assert (Hlo : PMBD_BLOCK_VADDR i + SECTOR_TO_BYTE (block_sect_s ps os i) =
                    Z.max (4096 * i) (512 * sector)).
      { unfold PMBD_BLOCK_VADDR. units. rewrite Hss. destruct (Z.eqb_spec i ps); lia. }
      assert (Hhi : Z.max (4096 * i) (512 * sector) +
                    512 * (block_sect_e pe oe i - block_sect_s ps os i + 1) =
                    Z.min (4096 * (i + 1)) (512 * (sector + n))).
      { rewrite Hss, Hse. destruct (Z.eqb_spec i ps); destruct (Z.eqb_spec i pe); lia. }
      assert (Hpos : 0 <= block_sect_e pe oe i - block_sect_s ps os i).
      { rewrite Hss, Hse. destruct (Z.eqb_spec i ps); destruct (Z.eqb_spec i pe); lia. }
      rewrite Hbs, Hlo, HI.
      replace (Z.to_nat (Z.max (Z.min (4096 * (i + 1)) (512 * (sector + n))) (512 * sector)
                         - 512 * sector))
        with (Z.to_nat (Z.max (Z.min (4096 * i) (512 * (sector + n))) (512 * sector)
                        - 512 * sector) +
              Z.to_nat (512 * (block_sect_e pe oe i - block_sect_s ps os i + 1)))%nat
        by lia.
      rewrite read_bytes_app. do 2 f_equal. lia.
    - unfold I. replace (Z.max _ _ - _) with 0 by lia. reflexivity. }
  unfold I in HI. rewrite HI. units. f_equal; [lia|]. f_equal. lia.
Qed.

(** ** Writes and reads that go straight to the PM region *)

(** The invariant does not look at the PM region. *)
Lemma wf_set_mem_space (d : PMBD_DEVICE_T) (m : memory) :
  wf d -> wf (set_mem_space d m).
Proof.
  intros (Hd & Hb & Hp). split; [exact Hd|]. split.
  - intros bid Hbid. destruct (Hb bid Hbid) as (Hc & Hk). split; [exact Hc|].
    intros k Hin. destruct (Hk k Hin) as [Hs | (E & _)]; [left; exact Hs|].
    exfalso. cbn in Hbid. lia.
  - exact Hp.
Qed.

Lemma copy_to_pmbd_unbuffered_ok (d : PMBD_DEVICE_T) (src : memory) (sector bytes : Z)
  (do_fua : bool) :
  copy_to_pmbd_unbuffered d src sector bytes do_fua =
  Ok (memcpy_to_pmbd d (SECTOR_TO_BYTE sector) src 0 bytes).
Proof.
  unfold copy_to_pmbd_unbuffered. units. cbv zeta.
  destruct (PMBD_USE_WRITE_VERIFICATION _); [|reflexivity].
  unfold pmbd_verify_wr_pages. rewrite mem_eqb_true; [reflexivity|].
  intros j Hj. unfold memcpy_to_pmbd. cbn [mem_space set_mem_space].
  destruct (Z_le_gt_dec bytes 0) as [Hle|Hgt]; [lia|].
  rewrite Z2Nat.id in Hj by lia. rewrite memcpy_in by lia. f_equal. lia.
Qed.

Lemma copy_from_pmbd_unbuffered_ok (d : PMBD_DEVICE_T) (sector bytes : Z) :
  copy_from_pmbd_unbuffered d sector bytes =
  read_bytes (mem_space d) (SECTOR_TO_BYTE sector) (Z.to_nat bytes).
Proof. unfold copy_from_pmbd_unbuffered. units. reflexivity. Qed.

(** ** Writes and reads of the device *)

Lemma written_eq (view src : memory) (sector bytes a : Z) :
  written view src sector bytes a =
  if (SECTOR_TO_BYTE sector <=? a) && (a <? SECTOR_TO_BYTE sector + bytes)
  then src (a - SECTOR_TO_BYTE sector) else view a.
Proof. unfold written, memcpy. now rewrite Z.add_0_l. Qed.

Lemma copy_to_pmbd_ok (fuel : nat) (d : PMBD_DEVICE_T) (src : memory) (sector bytes : Z)
  (do_fua : bool) :
  dev_inv d -> request_ok d sector bytes -> (2 <= fuel)%nat ->
  exists d', copy_to_pmbd fuel d src sector bytes do_fua = Ok d' /\
    dev_inv d' /\ same_conf d d' /\
    (forall a, 0 <= a < PMBD_MEM_TOTAL_BYTES d ->
       dev_view d' a = written (dev_view d) src sector bytes a) /\
    (do_fua = true -> forall a, 0 <= a < PMBD_MEM_TOTAL_BYTES d ->
       SECTOR_TO_BYTE sector <= a < SECTOR_TO_BYTE sector + bytes ->
       mem_space d' a = src (a - SECTOR_TO_BYTE sector)).
Proof.
  unfold dev_inv, copy_to_pmbd.
  intros Hinv Hreq Hfuel. destruct (PMBD_DEV_USE_BUFFER d) eqn:Hbuf.
  - destruct (copy_to_pmbd_buffered_ok fuel d src sector bytes Hinv Hreq Hfuel)
      as (d1 & Hr & Hw1 & Hc1 & Hv1).
    rewrite Hr. cbn [bind].
    assert (Hbuf1 : PMBD_DEV_USE_BUFFER d1 = true).
    { unfold PMBD_DEV_USE_BUFFER in *. destruct Hc1 as (_ & -> & _). exact Hbuf. }
    assert (Ev : forall x, dev_view d x = dev_byte d x)
      by (intros x; unfold dev_view; now rewrite Hbuf).
    destruct do_fua.
    + rewrite copy_to_pmbd_unbuffered_ok. eexists. split; [reflexivity|].
      unfold memcpy_to_pmbd.
      set (d2 := set_mem_space d1 _).
      assert (Hc2 : same_conf d1 d2) by (unfold same_conf; repeat split).
      assert (Hbuf2 : PMBD_DEV_USE_BUFFER d2 = true) by exact Hbuf1.
      rewrite Hbuf2.
      conj.
      * now apply wf_set_mem_space.
      * eapply same_conf_trans; eauto.
      * intros a Ha. rewrite written_eq, Ev, <- (Hv1 a Ha).
        unfold dev_view. rewrite Hbuf2. unfold dev_byte. cbv zeta.
        change (PMBD_BLOCK_IS_BUFFERED d2 (a / pb_size))
          with (PMBD_BLOCK_IS_BUFFERED d1 (a / pb_size)).
        destruct (PMBD_BLOCK_IS_BUFFERED d1 (a / pb_size)) eqn:Hb; [reflexivity|].
        unfold d2. cbn [mem_space set_mem_space]. unfold memcpy.
        specialize (Hv1 a Ha). unfold dev_byte in Hv1. cbv zeta in Hv1.
        rewrite Hb in Hv1.
        destruct (Z.leb_spec (SECTOR_TO_BYTE sector) a);
          destruct (Z.ltb_spec a (SECTOR_TO_BYTE sector + bytes)); cbn [andb] in *;
          try reflexivity.
        rewrite Hv1. reflexivity.
      * intros _ a Ha Hin. unfold d2. cbn [mem_space set_mem_space].
        rewrite memcpy_in by lia. reflexivity.
    + exists d1. rewrite Hbuf1. conj; auto; [|discriminate].
      intros a Ha. rewrite written_eq, Ev, <- (Hv1 a Ha).
      unfold dev_view. now rewrite Hbuf1.
  - rewrite copy_to_pmbd_unbuffered_ok. eexists. split; [reflexivity|].
    unfold memcpy_to_pmbd.
    set (d2 := set_mem_space d _).
    assert (Hbuf2 : PMBD_DEV_USE_BUFFER d2 = false) by exact Hbuf.
    rewrite Hbuf2. conj; auto.
    + unfold same_conf; repeat split.
    + intros a Ha. unfold written, dev_view. rewrite Hbuf2. unfold d2.
      cbn [mem_space set_mem_space]. unfold memcpy. now rewrite Hbuf.
    + intros _ a Ha Hin. unfold d2. cbn [mem_space set_mem_space].
      rewrite memcpy_in by lia. reflexivity.
Qed.

Lemma copy_from_pmbd_ok (d : PMBD_DEVICE_T) (sector bytes : Z) :
  dev_inv d -> request_ok d sector bytes ->
  copy_from_pmbd d sector bytes =
  read_bytes (dev_view d) (SECTOR_TO_BYTE sector) (Z.to_nat bytes).
Proof.
  unfold dev_inv, copy_from_pmbd, dev_view. intros Hinv Hreq.
  destruct (PMBD_DEV_USE_BUFFER d).
  - apply copy_from_pmbd_buffered_ok; auto. exact (wfr_device _ _ Hinv).
  - apply copy_from_pmbd_unbuffered_ok.
Qed.

(** ** The write barrier *)

(** With nothing dirty, no block is buffered: reads go to the PM region. *)
Lemma clean_unbuffered (d : PMBD_DEVICE_T) (p : Z) :
  wf d -> 0 <= p < PMBD_TOTAL_PB_NUM d ->
  num_dirty (PBN_TO_PMBD_BUFFER d p) = 0 ->
  PMBD_BLOCK_IS_BUFFERED d p = false.
Proof.
  intros Hw Hp Hz. destruct (PMBD_BLOCK_IS_BUFFERED d p) eqn:Hb; [|reflexivity].
  destruct (wfr_buffered _ _ _ Hw Hp Hb) as ((Hk & Hin) & _).
  pose proof (wfr_control _ _ _ Hw (owner_bound d p (proj1 (wfr_device _ _ Hw)))) as (_ & Hpd & _).
  unfold PBN_TO_PMBD_BUFFER in *. lia.
Qed.

Lemma barrier_flush_ok (d : PMBD_DEVICE_T) :
  wf d ->
  exists d',
    for_range (Z.to_nat (num_buffers d)) 0
      (fun i d' =>
         r <- pmbd_buffer_check_and_flush d' i (num_blocks (buffers d' i))
                CALLER_DESTROYER ;;
         Ok (fst r)) d = Ok d' /\
    wf d' /\ same_conf d d' /\ same_view d d' /\
    forall bid, 0 <= bid < num_buffers d -> num_dirty (buffers d' bid) = 0.
Proof.
  intros Hw.
  set (I := fun (i : Z) (d' : PMBD_DEVICE_T) =>
    wf d' /\ same_conf d d' /\ same_view d d' /\
    forall bid, 0 <= bid < i -> num_dirty (buffers d' bid) = 0).
  destruct (for_range_inv I
              (fun i d' =>
                 r <- pmbd_buffer_check_and_flush d' i (num_blocks (buffers d' i))
                        CALLER_DESTROYER ;;
                 Ok (fst r))
              (Z.to_nat (num_buffers d)) 0 d) as (d' & Hr & HI).
  - intros i d0 Hi (Hw0 & Hc0 & Hv0 & Hz0).
    assert (Hnb : num_buffers d0 = num_buffers d) by apply Hc0.
    assert (Hi0 : 0 <= i < num_buffers d0) by lia.
    destruct (wfr_control _ _ _ Hw0 Hi0) as (HN & _ & Hnd & _).
    destruct (pmbd_buffer_check_and_flush_ok d0 i (num_blocks (buffers d0 i))
                CALLER_DESTROYER Hw0 Hi0 ltac:(lia) ltac:(auto))
      as (d1 & r & Hr & Hpost & Hcnt).
    rewrite Hr. cbn [bind fst]. exists d1. split; [reflexivity|].
    destruct Hpost as (Hw1 & Hv1 & Hc1 & Hoth & _ & _ & _ & _ & Hnd1 & _).
    unfold I. conj; auto.
    + eapply same_conf_trans; eauto.
    + exact (same_view_trans d d0 d1 Hc0 Hv0 Hv1).
    + intros bid Hbid. destruct (Z.eq_dec bid i) as [->|Hne].
      * destruct Hcnt as [E | (_ & E & _)]; [lia | discriminate E].
      * rewrite Hoth by exact Hne. apply Hz0. lia.
  - unfold I. conj; auto using same_conf_refl, same_view_refl. intros bid Hbid. lia.
  - exists d'. destruct HI as (Hw' & Hc' & Hv' & Hz'). conj; auto.
    intros bid Hbid. apply Hz'. lia.
Qed.

Lemma pmbd_write_barrier_ok (d : PMBD_DEVICE_T) :
  dev_inv d -> num_flying_wr d = 0 ->
  exists d', pmbd_write_barrier d = Ok d' /\
    dev_inv d' /\ same_conf d d' /\
    (forall a, 0 <= a < PMBD_MEM_TOTAL_BYTES d -> dev_view d' a = dev_view d a) /\
    (PMBD_DEV_USE_BUFFER d = true ->
       (forall bid, 0 <= bid < num_buffers d -> num_dirty (buffers d' bid) = 0) /\
       (forall a, 0 <= a < PMBD_MEM_TOTAL_BYTES d -> mem_space d' a = dev_view d a)).
Proof.
  unfold dev_inv, pmbd_write_barrier. intros Hinv Hfly. rewrite Hfly. cbn [Z.eqb negb].
  assert (Hend : forall d1 : PMBD_DEVICE_T,
            match g_pmbd_cpu_cache_flag d1 with
            | PAGE_CACHE_WB =>
              if g_pmbd_nts d1 then Ok d1
              else if g_pmbd_cpu_cache_clflush d1 then Ok d1
              else Ok (pmbd_clflush_all d1)
            | PAGE_CACHE_WC | PAGE_CACHE_UC_MINUS => Ok d1
            | PAGE_CACHE_UC => Ok d1
            end = Ok d1).
  { intros d1. unfold pmbd_clflush_all.
    destruct (g_pmbd_cpu_cache_flag d1), (g_pmbd_nts d1), (g_pmbd_cpu_cache_clflush d1);
      reflexivity. }
  destruct (PMBD_DEV_USE_BUFFER d) eqn:Hbuf.
  - destruct (barrier_flush_ok d Hinv) as (d1 & Hr & Hw1 & Hc1 & Hv1 & Hz1).
    rewrite Hr. cbn [bind]. rewrite Hend. exists d1.
    assert (Hbuf1 : PMBD_DEV_USE_BUFFER d1 = true).
    { unfold PMBD_DEV_USE_BUFFER in *. destruct Hc1 as (_ & -> & _). exact Hbuf. }
    rewrite Hbuf1. unfold dev_view. rewrite Hbuf, Hbuf1. conj; auto.
    intros _. split; [exact Hz1|]. intros a Ha. rewrite <- (Hv1 a Ha).
    unfold dev_byte. cbv zeta. rewrite clean_unbuffered; auto.
    + rewrite (total_conf _ _ Hc1). apply valid_block; auto. exact (wfr_device _ _ Hinv).
    + apply Hz1. rewrite <- (proj1 (proj2 (proj2 (proj2 Hc1)))).
      apply owner_bound. exact (proj1 (wfr_device _ _ Hw1)).
  - cbn [bind]. rewrite Hend. exists d. rewrite Hbuf. conj; auto using same_conf_refl.
    discriminate.
Qed.

(** ** More passes through [check_again] do not change a result *)

Lemma for_range_mono {St : Type} (b1 b2 : Z -> St -> result St) (n : nat) (lo : Z)
  (s s' : St) :
  (forall i s0 s1, b1 i s0 = Ok s1 -> b2 i s0 = Ok s1) ->
  for_range n lo b1 s = Ok s' -> for_range n lo b2 s = Ok s'.
Proof.
  intros Hb. revert lo s. induction n as [|n IH]; intros lo s; cbn [for_range]; [auto|].
  destruct (b1 lo s) as [s1| |] eqn:E; cbn [bind]; try discriminate.
  rewrite (Hb _ _ _ E). cbn [bind]. apply IH.
Qed.

Lemma pmbd_buffer_alloc_block_mono (f f' : nat) (d : PMBD_DEVICE_T) (bid pbn : Z)
  (r : PMBD_DEVICE_T * Z) :
  (f <= f')%nat ->
  pmbd_buffer_alloc_block f d bid pbn = Ok r ->
  pmbd_buffer_alloc_block f' d bid pbn = Ok r.
Proof.
  revert f' d. induction f as [|f IH]; intros f' d Hle; [discriminate|].
  destruct f' as [|f']; [lia|]. cbn [pmbd_buffer_alloc_block].
  destruct (PMBD_BUFFER_IS_FULL (buffers d bid)); [|auto].
  destruct (pmbd_buffer_check_and_flush d bid _ CALLER_ALLOCATOR) as [x| |];
    cbn [bind]; try discriminate.
  apply IH. lia.
Qed.

Lemma copy_to_pmbd_buffered_block_mono (f f' : nat) (src : memory)
  (pbn_s pbn_e offset_s offset_e i : Z) (s0 s1 : PMBD_DEVICE_T * Z) :
  (f <= f')%nat ->
  copy_to_pmbd_buffered_block f src pbn_s pbn_e offset_s offset_e i s0 = Ok s1 ->
  copy_to_pmbd_buffered_block f' src pbn_s pbn_e offset_s offset_e i s0 = Ok s1.
Proof.
  intros Hle. unfold copy_to_pmbd_buffered_block. cbv zeta.
  destruct (_pmbd_buffer_lookup _ _ _); [auto|].
  destruct (pmbd_buffer_alloc_block f _ _ _) as [y| |] eqn:Ea; cbn [bind];
    try discriminate.
  rewrite (pmbd_buffer_alloc_block_mono f f' _ _ _ _ Hle Ea). cbn [bind]. auto.
Qed.

Lemma copy_to_pmbd_mono (f f' : nat) (d d' : PMBD_DEVICE_T) (src : memory)
  (sector bytes : Z) (do_fua : bool) :
  (f <= f')%nat ->
  copy_to_pmbd f d src sector bytes do_fua = Ok d' ->
  copy_to_pmbd f' d src sector bytes do_fua = Ok d'.
Proof.
  intros Hle. unfold copy_to_pmbd. destruct (PMBD_DEV_USE_BUFFER d); [|auto].
  unfold copy_to_pmbd_buffered. cbv zeta.
  match goal with
  | |- context [for_range ?n ?lo (copy_to_pmbd_buffered_block f ?s ?a ?b ?c ?e) ?st] =>
    destruct (for_range n lo (copy_to_pmbd_buffered_block f s a b c e) st)
      as [x| |] eqn:E; cbn [bind]; try discriminate;
    rewrite (for_range_mono _ (copy_to_pmbd_buffered_block f' s a b c e) _ _ _ _
               (fun i s0 s1 => copy_to_pmbd_buffered_block_mono f f' s a b c e i s0 s1 Hle)
               E)
  end.
  cbn [bind]. auto.
Qed.

(** ** The invariant holds of every state of the device *)

Lemma pmbd_create_inv (c : PMBD_CONF) (pm : memory) (junk : Z -> memory) :
  conf_ok c -> dev_inv (pmbd_create c pm junk) /\ num_flying_wr (pmbd_create c pm junk) = 0.
Proof.
  intros (Hsize & Hbuf). split; [|reflexivity].
  unfold dev_inv, PMBD_DEV_USE_BUFFER. cbn [bufmode pmbd_create].
  destruct ((g_pmbd_bufsize c >? 0) && (g_pmbd_num_buffers c >? 0)) eqn:Hmode; [|exact I].
  destruct (Hbuf eq_refl) as (Hstride & Hbatch & Hnb).
  apply andb_prop in Hmode. destruct Hmode as (Hbs & Hnum).
  apply Z.gtb_lt in Hbs, Hnum.
  assert (Hsec : GB_TO_SECTORS (g_pmbd_size c) = 2097152 * g_pmbd_size c).
  { unfold GB_TO_SECTORS. rewrite Z.shiftl_mul_pow2 by (cbv; discriminate).
    change (2 ^ (GB_SHIFT - SECTOR_SHIFT)) with 2097152. lia. }
  set (d := pmbd_create c pm junk).
  assert (HT : PMBD_TOTAL_PB_NUM d = (GB_TO_SECTORS (g_pmbd_size c) * sector_size) / pb_size)
    by reflexivity.
  assert (HN : forall bid, num_blocks (buffers d bid) =
                           num_blocks (pmbd_buffer_create c 0 (fun _ => x00)))
    by reflexivity.
  assert (HNpos : 0 < num_blocks (pmbd_buffer_create c 0 (fun _ => x00))).
  { unfold pmbd_buffer_create. cbn [num_blocks]. unfold MB_TO_BYTES, PMBD_BUFFER_MIN_BUFSIZE.
    rewrite !Z.shiftl_mul_pow2 by (cbv; discriminate).
    change (2 ^ MB_SHIFT) with 1048576. units.
    destruct (Z.gtb_spec (g_pmbd_bufsize c) 4); zdiv. }
  assert (Hd : device_ok d).
  { unfold device_ok. cbn [num_buffers buffer_stride num_sectors d pmbd_create].
    rewrite Hsec. unfold U64_MOD. units. conj; try lia. zdiv. }
  pose proof (total_bound d Hd) as (HT0 & _).
  split; [exact Hd|]. split.
  - intros bid Hbid. split.
    + assert (E1 : pos_dirty (buffers d bid) = 0) by reflexivity.
      assert (E2 : num_dirty (buffers d bid) = 0) by reflexivity.
      assert (E3 : pos_clean (buffers d bid) = 0) by reflexivity.
      assert (E4 : batch_size (buffers d bid) = g_pmbd_buffer_batch_size c) by reflexivity.
      unfold control_ok, ring. rewrite E1, E2, E3, E4, HN, HT.
      destruct (Z.ltb_spec (0 + 0) (num_blocks (pmbd_buffer_create c 0 (fun _ => x00))));
        lia.
    + intros k (Hk & Hin). exfalso.
      assert (E1 : pos_dirty (buffers d bid) = 0) by reflexivity.
      assert (E2 : num_dirty (buffers d bid) = 0) by reflexivity.
      rewrite E1, E2 in Hin. lia.
  - intros p Hp. split.
    + change (pbi_bbn (pbi_space d p)) with (PMBD_TOTAL_PB_NUM d + 3). lia.
    + intros Hb. exfalso. unfold PMBD_BLOCK_IS_BUFFERED, PBN_TO_PMBD_BUFFER in Hb.
      rewrite HN in Hb. apply Z.ltb_lt in Hb.
      change (pbi_bbn (PMBD_BLOCK_PBI d p)) with (PMBD_TOTAL_PB_NUM d + 3) in Hb. lia.
Qed.

Lemma reachable_inv (c : PMBD_CONF) (d : PMBD_DEVICE_T) :
  conf_ok c -> reachable c d ->
  dev_inv d /\ num_flying_wr d = 0 /\
  same_conf (pmbd_create c (fun _ => x00) (fun _ _ => x00)) d.
Proof.
  intros Hc H. induction H as
    [pm junk
    | d d' fuel src sector bytes do_fua _ IH Hreq Hr
    | d d' fuel pbn pos _ IH Hbuf Hp Hl Hr
    | d d' bid n caller cleaned _ IH Hbuf Hbid Hn Hr
    | d d' _ IH Hr].
  - destruct (pmbd_create_inv c pm junk Hc) as (Hi & Hf). conj; auto.
    unfold same_conf. repeat split.
  - destruct IH as (Hi & Hf & Hs).
    destruct (copy_to_pmbd_ok (Nat.max fuel 2) d src sector bytes do_fua Hi Hreq
                ltac:(lia)) as (d1 & Hr1 & Hi1 & Hc1 & _).
    rewrite (copy_to_pmbd_mono fuel (Nat.max fuel 2) _ _ _ _ _ _ ltac:(lia) Hr) in Hr1.
    injection Hr1 as <-. conj; auto.
    + destruct Hc1 as (_ & _ & _ & _ & _ & -> & _). exact Hf.
    + eapply same_conf_trans; eauto.
  - destruct IH as (Hi & Hf & Hs).
    unfold dev_inv, PMBD_DEV_USE_BUFFER in Hi. rewrite Hbuf in Hi.
    rewrite buffer_lookup_buffered in Hl.
    destruct (PMBD_BLOCK_IS_BUFFERED d pbn) eqn:Hb; [discriminate|].
    destruct (pmbd_buffer_alloc_block_ok d pbn (Nat.max fuel 2) Hi Hp Hb ltac:(lia))
      as (d1 & pos1 & Hr1 & Hw1 & Hc1 & _).
    rewrite (pmbd_buffer_alloc_block_mono fuel (Nat.max fuel 2) _ _ _ _ ltac:(lia) Hr) in Hr1.
    injection Hr1 as <- <-. conj.
    + unfold dev_inv, PMBD_DEV_USE_BUFFER. destruct Hc1 as (_ & -> & _).
      rewrite Hbuf. exact Hw1.
    + destruct Hc1 as (_ & _ & _ & _ & _ & -> & _). exact Hf.
    + eapply same_conf_trans; eauto.
  - destruct IH as (Hi & Hf & Hs).
    unfold dev_inv, PMBD_DEV_USE_BUFFER in Hi. rewrite Hbuf in Hi.
    destruct (pmbd_buffer_check_and_flush_ok d bid n caller Hi Hbid Hn
                (pmbd_buffer_check_and_flush_caller _ _ _ _ _ _ Hr))
      as (d1 & r & Hr1 & (Hw1 & _ & Hc1 & _) & _).
    rewrite Hr in Hr1. injection Hr1 as <- <-. conj.
    + unfold dev_inv, PMBD_DEV_USE_BUFFER. destruct Hc1 as (_ & -> & _).
      rewrite Hbuf. exact Hw1.
    + destruct Hc1 as (_ & _ & _ & _ & _ & -> & _). exact Hf.
    + eapply same_conf_trans; eauto.
  - destruct IH as (Hi & Hf & Hs).
    destruct (pmbd_write_barrier_ok d Hi Hf) as (d1 & Hr1 & Hi1 & Hc1 & _).
    rewrite Hr in Hr1. injection Hr1 as <-. conj; auto.
    + destruct Hc1 as (_ & _ & _ & _ & _ & -> & _). exact Hf.
    + eapply same_conf_trans; eauto.
Qed.

(** ** Operations that leave a byte range alone *)


Lemma dev_inv_conf (d d' : PMBD_DEVICE_T) :
  same_conf d d' -> PMBD_DEV_USE_BUFFER d' = PMBD_DEV_USE_BUFFER d.
Proof. intros (_ & H & _). exact H. Qed.

Lemma request_conf (d d' : PMBD_DEVICE_T) (sector bytes : Z) :
  same_conf d d' -> request_ok d sector bytes -> request_ok d' sector bytes.
Proof. intros (E & _). unfold request_ok. now rewrite E. Qed.


(** * The storage claims *)

Lemma conf_buffered_ok : conf_ok conf_buffered.
Proof. split; [cbv; auto|]. intros _. vm_compute. repeat split; discriminate. Qed.


Lemma request_in_range (d : PMBD_DEVICE_T) (sector bytes : Z) :
  request_ok d sector bytes ->
  0 <= SECTOR_TO_BYTE sector /\ SECTOR_TO_BYTE sector + bytes <= PMBD_MEM_TOTAL_BYTES d.
Proof.
  unfold request_ok, PMBD_MEM_TOTAL_BYTES. units. intros (H1 & H2 & H3 & H4). zdiv.
Qed.








Lemma reachable_wf (c : PMBD_CONF) (d : PMBD_DEVICE_T) :
  conf_ok c -> reachable c d -> PMBD_DEV_USE_BUFFER d = true -> wf d.
Proof.
  intros Hc Hreach Hbuf. destruct (reachable_inv c d Hc Hreach) as (Hi & _).
  unfold dev_inv in Hi. now rewrite Hbuf in Hi.
Qed.

Lemma dev_dirty_reachable : reachable conf_buffered dev_dirty.
Proof.
  apply (reach_write conf_buffered dev_buffered dev_dirty 2 (of_list sector_11) 9 512 false).
  - apply reach_create.
  - vm_compute; repeat split; discriminate.
  - reflexivity.
Qed.







(** * Device emulation: proofs *)

(** ** Cycles and nanoseconds *)

Lemma cycle_to_ns_exact (c khz : Z) :
  0 < khz -> 0 <= c -> c * 1000000 < U64_MOD ->
  _cycle_to_ns c khz = c * 1000000 / khz.
Proof. intros Hk Hc Hb. unfold _cycle_to_ns. rewrite u64_small by lia. reflexivity. Qed.


Lemma cycles_for_spec (khz ns c : Z) :
  0 < khz -> 0 <= ns ->
  (ns < c * 1000000 / khz <-> cycles_for khz ns <= c).
Proof.
  intros Hk Hn. unfold cycles_for. split; intros H.
  - assert (H1 : (ns + 1) * khz <= c * 1000000).
    { pose proof (Z.mul_div_le (c * 1000000) khz Hk).
      assert ((ns + 1) * khz <= (c * 1000000 / khz) * khz)
        by (apply Z.mul_le_mono_nonneg_r; lia).
      lia. }
    assert (((ns + 1) * khz + 999999) / 1000000 < c + 1); [|lia].
    apply Z.div_lt_upper_bound; lia.
  - assert (H1 : (ns + 1) * khz <= c * 1000000).
    { pose proof (Z.mul_div_le ((ns + 1) * khz + 999999) 1000000 ltac:(lia)).
      pose proof (Z.mod_pos_bound ((ns + 1) * khz + 999999) 1000000 ltac:(lia)).
      pose proof (Z.div_mod ((ns + 1) * khz + 999999) 1000000 ltac:(lia)).
      nia. }
    apply Z.lt_le_pred. unfold Z.pred.
    replace (ns + 1 + -1) with ns in * by lia.
    assert (ns + 1 <= c * 1000000 / khz); [|lia].
    apply Z.div_le_lower_bound; lia.
Qed.

Lemma cycles_for_bound (khz ns : Z) :
  0 < khz -> 0 <= ns ->
  0 < cycles_for khz ns /\ (ns + 1) * khz <= cycles_for khz ns * 1000000.
Proof.
  intros Hk Hn. unfold cycles_for.
  pose proof (Z.div_mod ((ns + 1) * khz + 999999) 1000000 ltac:(lia)).
  pose proof (Z.mod_pos_bound ((ns + 1) * khz + 999999) 1000000 ltac:(lia)).
  split; [|lia].
  apply Z.div_str_pos. nia.
Qed.

Lemma cycles_for_mono (khz ns ns' : Z) :
  0 < khz -> ns <= ns' -> cycles_for khz ns <= cycles_for khz ns'.
Proof. intros Hk Hle. unfold cycles_for. apply Z.div_le_mono; nia. Qed.

(** ** Waiting *)


Lemma same_emul_trans (e1 e2 e3 : PMBD_EMUL_T) :
  same_emul e1 e2 -> same_emul e2 e3 -> same_emul e1 e3.
Proof. unfold same_emul. intuition congruence. Qed.

Lemma same_batch_refl (e : PMBD_EMUL_T) : same_batch e e.
Proof. unfold same_batch. repeat split. Qed.


Lemma sync_poll_ok (khz P ns start : Z) (fuel : nat) :
  forall e : PMBD_EMUL_T,
  0 < khz -> (forall t, 0 < pace e t <= P) -> 0 <= ns ->
  (cycles_for khz ns + P) * 1000000 < U64_MOD ->
  start <= tsc e -> tsc e - start <= cycles_for khz ns + P ->
  (0 < fuel)%nat -> cycles_for khz ns - (tsc e - start) < Z.of_nat fuel ->
  exists e', sync_poll fuel start ns khz e = Ok e' /\
    same_emul e e' /\ same_batch e e' /\ trace e' = trace e /\
    start + cycles_for khz ns < tsc e' /\ tsc e < tsc e'.
Proof.
  induction fuel as [|fuel IH]; intros e Hk Hp Hn Hb Hs Hr Hf0 Hf; [lia|].
  pose proof (cycles_for_bound khz ns Hk Hn) as (HC & _).
  cbn [sync_poll TIMESTAMP].
  rewrite (u64_small (tsc e - start)) by (unfold U64_MOD in *; lia).
  rewrite cycle_to_ns_exact by (unfold U64_MOD in *; nia).
  pose proof (Hp (tsc e)) as Hpace.
  destruct (Z.gtb_spec ((tsc e - start) * 1000000 / khz) ns) as [Hgt|Hle].
  - apply (cycles_for_spec khz ns (tsc e - start) Hk Hn) in Hgt.
    eexists. split; [reflexivity|]. cbn [tsc set_tsc trace].
    split; [unfold same_emul; repeat split|]. split; [unfold same_batch; repeat split|].
    split; [reflexivity|]. lia.
  - assert (Hlt : tsc e - start < cycles_for khz ns).
    { destruct (Z_lt_le_dec (tsc e - start) (cycles_for khz ns)) as [H|H]; [exact H|].
      apply (cycles_for_spec khz ns (tsc e - start) Hk Hn) in H. lia. }
    destruct (IH (set_tsc e (tsc e + pace e (tsc e)))) as (e' & Hr' & He & Hb' & Ht & H1 & H2);
      cbn [tsc set_tsc pace]; auto; try lia.
    exists e'. split; [exact Hr'|]. cbn [tsc set_tsc] in H2.
    split; [exact He|]. split; [exact Hb'|]. split; [exact Ht|]. lia.
Qed.

Lemma sync_slowdown_ok (P ns : Z) (fuel : nat) (e : PMBD_EMUL_T) :
  clock_ok e P ns -> 0 < ns -> cycles_for (cpu_khz e) ns <= Z.of_nat fuel ->
  exists e', sync_slowdown fuel ns e = Ok e' /\
    same_emul e e' /\ same_batch e e' /\
    trace e' = (tsc e, EvBusyWait ns (batch_lock e)) :: trace e /\
    tsc e + cycles_for (cpu_khz e) ns < tsc e'.
Proof.
  intros (Hk & Hp & Ht & Hb) Hn Hf. unfold sync_slowdown, get_cpu_freq.
  destruct (Z.eqb_spec ns 0) as [|_]; [lia|]. cbn [negb TIMESTAMP].
  pose proof (cycles_for_bound (cpu_khz e) ns Hk ltac:(lia)) as (HC & _).
  pose proof (Hp (tsc e)) as Hpace.
  match goal with |- context [sync_poll fuel ?s ns ?k ?x] =>
    destruct (sync_poll_ok k P ns s fuel x) as (e' & Hr & He & Hb' & Htr & H1 & H2)
  end; cbn [tsc set_tsc log_event pace cpu_khz]; auto; try lia.
  exists e'. split; [exact Hr|]. cbn [tsc set_tsc log_event] in *.
  split; [exact He|]. split; [exact Hb'|]. split; [exact Htr|]. exact H1.
Qed.


Lemma pmbd_slowdown_ok (P ns : Z) (in_lock : bool) (fuel : nat) (e : PMBD_EMUL_T) :
  clock_ok e P ns -> 0 < ns < U64_MOD -> cycles_for (cpu_khz e) ns <= Z.of_nat fuel ->
  exists e', pmbd_slowdown fuel ns in_lock e = Ok e' /\
    same_emul e e' /\ same_batch e e' /\
    ns * cpu_khz e <= (tsc e' - tsc e) * 1000000 /\
    (in_lock = true -> trace e' = (tsc e, EvBusyWait ns (batch_lock e)) :: trace e) /\
    (exists evs, trace e' = evs ++ trace e /\ forallb is_wait evs = true).
Proof.
  intros Hclk Hn Hf. pose proof Hclk as (Hk & Hp & Ht & Hb).
  assert (Hsync : exists e', sync_slowdown fuel ns e = Ok e' /\
            same_emul e e' /\ same_batch e e' /\
            ns * cpu_khz e <= (tsc e' - tsc e) * 1000000 /\
            (in_lock = true -> trace e' = (tsc e, EvBusyWait ns (batch_lock e)) :: trace e) /\
            (exists evs, trace e' = evs ++ trace e /\ forallb is_wait evs = true)).
  { destruct (sync_slowdown_ok P ns fuel e Hclk ltac:(lia) Hf)
      as (e' & Hr & He & Hb' & Htr & Hts).
    pose proof (cycles_for_bound (cpu_khz e) ns Hk ltac:(lia)) as (_ & HC).
    exists e'. repeat (split; [assumption|]). split; [nia|]. split; [auto|].
    exists [(tsc e, EvBusyWait ns (batch_lock e))]. split; [exact Htr | reflexivity]. }
  unfold pmbd_slowdown.
  destruct (Z.gtb_spec ns MAX_SYNC_SLOWDOWN) as [Hbig|Hsmall]; cbn [andb].
  - destruct in_lock; cbn [negb].
    + destruct (Z.gtb_spec ns 0); [exact Hsync | lia].
    + unfold async_slowdown.
      assert (Hms : 0 <= ns / 1000000 /\ ns / 1000000 * 1000000 <= ns /\
                    ns - ns / 1000000 * 1000000 < 1000000) by zdiv.
      rewrite (u64_small (ns / 1000000 * 1000000)) by lia.
      rewrite (u64_small (ns - ns / 1000000 * 1000000)) by lia.
      set (ms := ns / 1000000) in *. set (left := ns - ms * 1000000).
      destruct (Z.eq_dec left 0) as [E0|Hne].
      * unfold sync_slowdown. rewrite E0. cbn [Z.eqb negb].
        eexists. split; [reflexivity|]. unfold msleep. cbn [tsc set_tsc log_event cpu_khz trace].
        split; [unfold same_emul; repeat split|]. split; [unfold same_batch; repeat split|].
        split; [unfold left in E0; nia|]. split; [discriminate|].
        eexists [_]. split; reflexivity.
      * assert (Hc1 : clock_ok (msleep ms e) P left).
        { unfold clock_ok, msleep. cbn [tsc set_tsc log_event cpu_khz pace].
          repeat split; auto; try apply Hp; try nia.
          pose proof (cycles_for_mono (cpu_khz e) left ns Hk ltac:(unfold left; lia)). lia. }
        destruct (sync_slowdown_ok P left fuel (msleep ms e) Hc1 ltac:(unfold left in *; lia))
          as (e' & Hr & He & Hb' & Htr & Hts).
        { pose proof (cycles_for_mono (cpu_khz e) left ns Hk ltac:(unfold left; lia)).
          unfold msleep. cbn [cpu_khz set_tsc log_event]. lia. }
        pose proof (cycles_for_bound (cpu_khz e) left Hk ltac:(unfold left; lia)) as (_ & HC).
        exists e'. split; [exact Hr|]. split; [exact He|]. split; [exact Hb'|].
        unfold msleep in Hts, Htr. cbn [tsc set_tsc log_event cpu_khz trace batch_lock] in Hts, Htr.
        split; [unfold left in *; nia|]. split; [discriminate|].
        eexists [_; _]. split; [exact Htr | reflexivity].
  - destruct (Z.gtb_spec ns 0); [exact Hsync | lia].
Qed.

(** ** Access time *)

Lemma cycle_to_ns_nonneg (c khz : Z) : 0 < khz -> 0 <= _cycle_to_ns c khz.
Proof.
  intros Hk. unfold _cycle_to_ns, u64. apply Z.div_pos; [|exact Hk].
  apply Z.mod_pos_bound. reflexivity.
Qed.



(** ** Transfer time *)

Lemma cal_trans_time_bound (s rw : Z) (e : PMBD_EMUL_T) :
  0 <= cal_trans_time s rw e < U32_MOD.
Proof.
  unfold cal_trans_time. cbv zeta.
  destruct (negb _); [|unfold U32_MOD; lia].
  assert (H : 0 <= DIV64_ROUND (u64 (u32 (u32 s * PMBD_SECTOR_SIZE) *
                                     Z.shiftr 1000000000 MB_SHIFT))
                               (if rw =? READ then rdbw e else wrbw e) < U32_MOD).
  { unfold DIV64_ROUND. destruct (_ >? 0); [|unfold U32_MOD; lia]. cbv zeta.
    unfold u32 at 1. apply Z.mod_pos_bound. reflexivity. }
  rewrite Z.add_0_l, u64_small; [exact H|]. unfold U32_MOD, U64_MOD in *. lia.
Qed.

Lemma pmbd_emul_transfer_time_ok (P M : Z) (fuel : nat) (n rw : Z) (e : PMBD_EMUL_T) :
  clock_ok e P M -> batch_open e rw -> batch_target_ns e rw n <= M ->
  cycles_for (cpu_khz e) M <= Z.of_nat fuel ->
  exists e', pmbd_emul_transfer_time fuel n rw e = Ok e' /\
    same_emul e e' /\ batch_lock e' = false /\
    batch_end_cycle e' rw = tsc e /\
    batch_start_cycle e' rw =
      (if batch_closes e rw n then tsc e else batch_start_cycle e rw) /\
    batch_sectors e' rw =
      (if batch_gap e rw then u64 n
       else if batch_closes e rw n then 0 else batch_accumulated e rw n) /\
    (forall rw', rw' <> rw ->
       batch_start_cycle e' rw' = batch_start_cycle e rw' /\
       batch_end_cycle e' rw' = batch_end_cycle e rw' /\
       batch_sectors e' rw' = batch_sectors e rw') /\
    (if batch_closes e rw n && (batch_accumulated e rw n >? PMBD_BATCH_MIN_SECTORS) &&
        (batch_target_ns e rw n >? batch_real_ns e rw)
     then trace e' =
            (tsc e + pace e (tsc e),
             EvBusyWait (batch_target_ns e rw n - batch_real_ns e rw) true) :: trace e /\
          (batch_target_ns e rw n - batch_real_ns e rw) * cpu_khz e <=
            (tsc e' - (tsc e + pace e (tsc e))) * 1000000
     else trace e' = trace e /\ tsc e' = tsc e + pace e (tsc e)).
Proof.
  intros Hclk (Hlock & Hstart & Hend) HM Hf. pose proof Hclk as (Hk & Hp & Ht & Hb).
  unfold pmbd_emul_transfer_time, spin_lock_batch. rewrite Hlock. cbn [bind TIMESTAMP].
  set (e1 := set_tsc (set_batch_lock e true) (tsc (set_batch_lock e true) +
                 pace (set_batch_lock e true) (tsc (set_batch_lock e true)))).
  change (tsc (set_batch_lock e true)) with (tsc e).
  change (batch_start_cycle e1 rw) with (batch_start_cycle e rw).
  change (batch_end_cycle e1 rw) with (batch_end_cycle e rw).
  destruct (Z.eqb_spec (batch_start_cycle e rw) 0) as [E|_]; [contradiction|].
  destruct (Z.geb_spec (tsc e) (batch_end_cycle e rw)) as [_|H]; [|lia]. cbn [negb].
  change (cycle_to_ns e1 (u64 (tsc e - batch_end_cycle e rw)) >=? PMBD_BATCH_MAX_INTERVAL)
    with (batch_gap e rw).
  match goal with |- context [cycle_to_ns ?x _ >=? PMBD_BATCH_MAX_DURATION] => set (e2 := x) end.
  assert (F1 : forall i, batch_start_cycle e2 i = batch_start_cycle e i)
    by (intros i; unfold e2; destruct (batch_gap e rw); reflexivity).
  assert (F2 : batch_end_cycle e2 rw = if batch_gap e rw then batch_end_cycle e rw else tsc e).
  { unfold e2. destruct (batch_gap e rw); [reflexivity|].
    cbn [batch_end_cycle set_batch]. apply upd_same. }
  assert (F3 : batch_sectors e2 rw = batch_accumulated e rw n).
  { unfold e2, batch_accumulated. destruct (batch_gap e rw); [reflexivity|].
    cbn [batch_sectors set_batch]. apply upd_same. }
  assert (F4 : forall i, i <> rw -> batch_end_cycle e2 i = batch_end_cycle e i /\
                                    batch_sectors e2 i = batch_sectors e i).
  { intros i Hi. unfold e2. destruct (batch_gap e rw); [split; reflexivity|].
    cbn [batch_end_cycle batch_sectors set_batch]. now rewrite !upd_other. }
  assert (F5 : same_emul e e2)
    by (unfold e2; destruct (batch_gap e rw); unfold same_emul; repeat split).
  assert (F6 : tsc e2 = tsc e + pace e (tsc e) /\ batch_lock e2 = true /\ trace e2 = trace e)
    by (unfold e2; destruct (batch_gap e rw); repeat split).
  destruct F6 as (F6 & F7 & F8).
  assert (F9 : forall x, cycle_to_ns e2 x = cycle_to_ns e x).
  { intros x. unfold cycle_to_ns, get_cpu_freq. destruct F5 as (_ & _ & _ & _ & _ & -> & _).
    reflexivity. }
  assert (F10 : forall s, cal_trans_time s rw e2 = cal_trans_time s rw e).
  { intros s. unfold cal_trans_time. destruct F5 as (_ & _ & _ & -> & -> & _). reflexivity. }
  clearbody e2. clear e1.
  rewrite !F9, !F10, !F1, !F2, !F3.
  fold (batch_real_ns e rw). fold (batch_target_ns e rw n). fold (batch_closes e rw n).
  pose proof (cal_trans_time_bound (batch_accumulated e rw n) rw e) as Htb.
  fold (batch_target_ns e rw n) in Htb.
  assert (Hreal : 0 <= batch_real_ns e rw)
    by (unfold batch_real_ns, cycle_to_ns; now apply cycle_to_ns_nonneg).
  assert (Hdone : forall e3 : PMBD_EMUL_T,
            same_emul e e3 -> same_batch e2 e3 ->
            exists e',
              Ok (spin_unlock_batch
                    (if batch_gap e rw
                     then set_batch
                            (if batch_closes e rw n
                             then set_batch e3 (upd (batch_start_cycle e3) rw (tsc e))
                                    (upd (batch_end_cycle e3) rw (tsc e))
                                    (upd (batch_sectors e3) rw 0)
                             else e3)
                            (upd (batch_start_cycle
                                    (if batch_closes e rw n
                                     then set_batch e3 (upd (batch_start_cycle e3) rw (tsc e))
                                            (upd (batch_end_cycle e3) rw (tsc e))
                                            (upd (batch_sectors e3) rw 0)
                                     else e3)) rw (tsc e))
                            (upd (batch_end_cycle
                                    (if batch_closes e rw n
                                     then set_batch e3 (upd (batch_start_cycle e3) rw (tsc e))
                                            (upd (batch_end_cycle e3) rw (tsc e))
                                            (upd (batch_sectors e3) rw 0)
                                     else e3)) rw (tsc e))
                            (upd (batch_sectors
                                    (if batch_closes e rw n
                                     then set_batch e3 (upd (batch_start_cycle e3) rw (tsc e))
                                            (upd (batch_end_cycle e3) rw (tsc e))
                                            (upd (batch_sectors e3) rw 0)
                                     else e3)) rw (u64 n))
                     else (if batch_closes e rw n
                           then set_batch e3 (upd (batch_start_cycle e3) rw (tsc e))
                                  (upd (batch_end_cycle e3) rw (tsc e))
                                  (upd (batch_sectors e3) rw 0)
                           else e3))) = Ok e' /\
              same_emul e e' /\ batch_lock e' = false /\
              batch_end_cycle e' rw = tsc e /\
              batch_start_cycle e' rw =
                (if batch_closes e rw n then tsc e else batch_start_cycle e rw) /\
              batch_sectors e' rw =
                (if batch_gap e rw then u64 n
                 else if batch_closes e rw n then 0 else batch_accumulated e rw n) /\
              (forall rw', rw' <> rw ->
                 batch_start_cycle e' rw' = batch_start_cycle e rw' /\
                 batch_end_cycle e' rw' = batch_end_cycle e rw' /\
                 batch_sectors e' rw' = batch_sectors e rw') /\
              trace e' = trace e3 /\ tsc e' = tsc e3).
  { intros e3 He3 (B1 & B2 & B3 & B4). eexists. split; [reflexivity|].
    assert (Hgc : batch_gap e rw = true -> batch_closes e rw n = true)
      by (unfold batch_closes; intros ->; reflexivity).
    destruct (batch_gap e rw) eqn:Hg; [rewrite (Hgc eq_refl) in *|];
      [|destruct (batch_closes e rw n) eqn:Hcl];
      cbn [spin_unlock_batch set_batch_lock set_batch batch_lock batch_end_cycle
           batch_start_cycle batch_sectors trace tsc];
      rewrite ?upd_same, ?B1, ?B2, ?B3, ?F1, ?F2, ?F3, ?Hg;
      (split; [unfold same_emul in *; cbn; exact He3|]);
      repeat (split; [reflexivity|]);
      (split; [|split; reflexivity]);
      intros i Hi; rewrite ?upd_other by exact Hi; rewrite ?B1, ?B2, ?B3, ?F1;
      destruct (F4 i Hi) as (-> & ->); repeat split. }
  assert (Hfin : forall e3 : PMBD_EMUL_T, same_emul e e3 -> same_batch e2 e3 ->
            forall Q : PMBD_EMUL_T -> Prop,
            (forall e', trace e' = trace e3 -> tsc e' = tsc e3 -> Q e') ->
            exists e',
              (e0 <- (if batch_closes e rw n
                      then Ok (set_batch e3 (upd (batch_start_cycle e3) rw (tsc e))
                                 (upd (batch_end_cycle e3) rw (tsc e))
                                 (upd (batch_sectors e3) rw 0))
                      else Ok e3) ;;
               Ok (spin_unlock_batch
                     (if batch_gap e rw
                      then set_batch e0 (upd (batch_start_cycle e0) rw (tsc e))
                             (upd (batch_end_cycle e0) rw (tsc e))
                             (upd (batch_sectors e0) rw (u64 n))
                      else e0))) = Ok e' /\
              same_emul e e' /\ batch_lock e' = false /\
              batch_end_cycle e' rw = tsc e /\
              batch_start_cycle e' rw =
                (if batch_closes e rw n then tsc e else batch_start_cycle e rw) /\
              batch_sectors e' rw =
                (if batch_gap e rw then u64 n
                 else if batch_closes e rw n then 0 else batch_accumulated e rw n) /\
              (forall rw', rw' <> rw ->
                 batch_start_cycle e' rw' = batch_start_cycle e rw' /\
                 batch_end_cycle e' rw' = batch_end_cycle e rw' /\
                 batch_sectors e' rw' = batch_sectors e rw') /\
              Q e').
  { intros e3 He3 Hb3 Q HQ.
    destruct (Hdone e3 He3 Hb3) as (e' & Hr & G1 & G2 & G3 & G4 & G5 & G6 & G7 & G8).
    exists e'. split.
    - rewrite <- Hr. destruct (batch_closes e rw n); reflexivity.
    - repeat (split; [assumption|]). now apply HQ. }
  clear Hdone.
  destruct (batch_closes e rw n) eqn:Hcl; cbn [andb].
  - destruct (Z.gtb_spec (batch_accumulated e rw n) PMBD_BATCH_MIN_SECTORS) as [Hacc|Hacc].
    + destruct (Z.gtb_spec (batch_target_ns e rw n) (batch_real_ns e rw)) as [Hgt|Hle].
      * rewrite (u64_small (batch_target_ns e rw n - batch_real_ns e rw))
          by (unfold U32_MOD, U64_MOD in *; lia).
        assert (Hclk2 : clock_ok e2 P (batch_target_ns e rw n - batch_real_ns e rw)).
        { destruct F5 as (_ & _ & _ & _ & _ & Ek & Ep). unfold clock_ok.
          rewrite Ek, Ep, F6. pose proof (Hp (tsc e)).
          pose proof (cycles_for_mono (cpu_khz e)
                        (batch_target_ns e rw n - batch_real_ns e rw) M Hk ltac:(lia)).
          repeat split; auto; try apply Hp; lia. }
        destruct (pmbd_slowdown_ok P _ TRUE fuel e2 Hclk2)
          as (e3 & Hr & He3 & Hb3 & Hts & Htr & _).
        { unfold U32_MOD, U64_MOD in *. lia. }
        { destruct F5 as (_ & _ & _ & _ & _ & -> & _).
          pose proof (cycles_for_mono (cpu_khz e)
                        (batch_target_ns e rw n - batch_real_ns e rw) M Hk ltac:(lia)).
          lia. }
        rewrite Hr. cbn [bind].
        apply (Hfin e3 (same_emul_trans _ _ _ F5 He3) Hb3). intros e' E1 E2.
        rewrite E1, E2, (Htr eq_refl), F6, F7, F8.
        destruct F5 as (_ & _ & _ & _ & _ & Ek & _). rewrite Ek, F6 in Hts.
        split; [reflexivity | exact Hts].
      * cbn [bind]. apply (Hfin e2 F5 (same_batch_refl e2)). intros e' E1 E2.
        rewrite E1, E2. cbn [andb]. auto.

    + cbn [bind]. apply (Hfin e2 F5 (same_batch_refl e2)). intros e' E1 E2.
      rewrite E1, E2. cbn [andb]. auto.
  - apply (Hfin e2 F5 (same_batch_refl e2)). intros e' E1 E2. rewrite E1, E2. auto.
Qed.



(** ** The end hook *)



(** * The emulation claims *)

(** C9, as claimed, fails: a write batch that closes, after a gap, with
    exactly 256 accumulated sectors and a target time of 1249116 ns against
    100000 ns really spent, is not made to wait. *)
Lemma batch_of_256_sectors_not_throttled :
  batch_open emul_batch_256 WRITE /\
  batch_closes emul_batch_256 WRITE 8 = true /\
  batch_accumulated emul_batch_256 WRITE 8 = PMBD_BATCH_MIN_SECTORS /\
  batch_real_ns emul_batch_256 WRITE = 100000 /\
  batch_target_ns emul_batch_256 WRITE 8 = 1249116 /\
  exists e',
    pmbd_emul_transfer_time 2000 8 WRITE emul_batch_256 = Ok e' /\
    trace e' = [] /\ tsc e' = tsc emul_batch_256 + 1000.
Proof.
  split; [repeat split; vm_compute; discriminate|].
  repeat (split; [reflexivity|]).
  eexists. split; [vm_compute; reflexivity|]. split; reflexivity.
Qed.

(** C9, amended.  When a call of [pmbd_emul_transfer_time] closes the batch
    (gap of [MAX_INTERVAL] or more, duration of [MAX_DURATION] or more, or
    [MAX_SECTORS] accumulated sectors or more) with more than 256
    accumulated sectors, the target time is [cal_trans_time] of the
    accumulated sectors, and if the time really spent is smaller the call
    busy-waits for the difference with [batch_lock] held and returns no
    sooner; a batch that closes with 256 sectors or fewer, and a call that
    does not close the batch, wait for nothing. *)
Theorem batch_close_threshold (P M : Z) (fuel : nat) (n rw : Z) (e : PMBD_EMUL_T) :
  clock_ok e P M -> batch_open e rw -> batch_target_ns e rw n <= M ->
  cycles_for (cpu_khz e) M <= Z.of_nat fuel ->
  exists e',
    pmbd_emul_transfer_time fuel n rw e = Ok e' /\ batch_lock e' = false /\
    batch_target_ns e rw n = cal_trans_time (batch_accumulated e rw n) rw e /\
    (batch_closes e rw n = true ->
     batch_accumulated e rw n > PMBD_BATCH_MIN_SECTORS ->
     batch_real_ns e rw < batch_target_ns e rw n ->
     trace e' =
       (tsc e + pace e (tsc e),
        EvBusyWait (batch_target_ns e rw n - batch_real_ns e rw) true) :: trace e /\
     (batch_target_ns e rw n - batch_real_ns e rw) * cpu_khz e <=
       (tsc e' - (tsc e + pace e (tsc e))) * 1000000) /\
    (batch_closes e rw n = true ->
     batch_accumulated e rw n <= PMBD_BATCH_MIN_SECTORS ->
     trace e' = trace e /\ tsc e' = tsc e + pace e (tsc e)) /\
    (batch_closes e rw n = true ->
     batch_target_ns e rw n <= batch_real_ns e rw ->
     trace e' = trace e /\ tsc e' = tsc e + pace e (tsc e)) /\
    (batch_closes e rw n = false ->
     trace e' = trace e /\ tsc e' = tsc e + pace e (tsc e)).
Proof.
  intros Hclk Hopen HM Hf.
  destruct (pmbd_emul_transfer_time_ok P M fuel n rw e Hclk Hopen HM Hf)
    as (e' & Hr & _ & Hl & _ & _ & _ & _ & Hw).
  exists e'. split; [exact Hr|]. split; [exact Hl|]. split; [reflexivity|].
  destruct (batch_closes e rw n); cbn [andb] in Hw.
  - destruct (Z.gtb_spec (batch_accumulated e rw n) PMBD_BATCH_MIN_SECTORS) as [Ha|Ha];
      destruct (Z.gtb_spec (batch_target_ns e rw n) (batch_real_ns e rw)) as [Ht|Ht];
      cbn [andb] in Hw; repeat split; intros; try lia; try discriminate;
      try apply Hw.
  - repeat split; intros; try discriminate; apply Hw.
Qed.

Lemma batch_close_threshold_witness :
  clock_ok emul_batch_4088 1 19985859 /\ batch_open emul_batch_4088 WRITE /\
  batch_target_ns emul_batch_4088 WRITE 8 <= 19985859 /\
  cycles_for (cpu_khz emul_batch_4088) 19985859 <= Z.of_nat (Z.to_nat 20000) /\
  exists e',
    pmbd_emul_transfer_time (Z.to_nat 20000) 8 WRITE emul_batch_4088 = Ok e' /\
    batch_lock e' = false /\
    trace e' =
      (tsc emul_batch_4088 + pace emul_batch_4088 (tsc emul_batch_4088),
       EvBusyWait (batch_target_ns emul_batch_4088 WRITE 8 -
                   batch_real_ns emul_batch_4088 WRITE) true) :: trace emul_batch_4088.
Proof.
  assert (H1 : clock_ok emul_batch_4088 1 19985859).
  { unfold clock_ok. cbn [cpu_khz pace tsc emul_batch_4088].
    repeat split; try lia; vm_compute; reflexivity. }
  assert (H2 : batch_open emul_batch_4088 WRITE)
    by (repeat split; vm_compute; discriminate).
  assert (H3 : batch_target_ns emul_batch_4088 WRITE 8 <= 19985859)
    by (vm_compute; discriminate).
  assert (H4 : cycles_for (cpu_khz emul_batch_4088) 19985859 <= Z.of_nat (Z.to_nat 20000))
    by (vm_compute; discriminate).
  repeat (split; [assumption|]).
  destruct (batch_close_threshold 1 19985859 (Z.to_nat 20000) 8 WRITE emul_batch_4088
              H1 H2 H3 H4) as (e' & Hr & Hl & _ & Hthr & _).
  exists e'. split; [exact Hr|]. split; [exact Hl|].
  apply Hthr; vm_compute; reflexivity.
Defined.





(** * The dispatcher: proofs *)





(** ** Requests in flight *)





(** * The dispatcher claims *)








(** * Further properties of the storage routines *)

(** Two states that show the same bytes over a request answer a read of
    it alike. *)
Lemma copy_from_pmbd_view (d d' : PMBD_DEVICE_T) (sector bytes : Z) :
  dev_inv d -> dev_inv d' -> same_conf d d' -> request_ok d sector bytes ->
  (forall a, 0 <= a < PMBD_MEM_TOTAL_BYTES d ->
     SECTOR_TO_BYTE sector <= a < SECTOR_TO_BYTE sector + bytes ->
     dev_view d' a = dev_view d a) ->
  copy_from_pmbd d' sector bytes = copy_from_pmbd d sector bytes.
Proof.
  intros Hi Hi' Hc Hreq Hv.
  rewrite (copy_from_pmbd_ok d' sector bytes Hi' (request_conf _ _ _ _ Hc Hreq)).
  rewrite (copy_from_pmbd_ok d sector bytes Hi Hreq).
  destruct (request_in_range d sector bytes Hreq) as (H0 & H1).
  destruct Hreq as (_ & Hb & _).
  apply read_bytes_ext. intros j Hj. rewrite Z2Nat.id in Hj by lia.
  apply Hv; lia.
Qed.

(** X1.  A flush is invisible to readers: in every reachable state of a
    buffered device, [pmbd_buffer_check_and_flush] returns for each of its
    three callers, for every buffer and every budget; it cleans no more
    slots than the budget, and every read after it returns the bytes it would
    have returned before. *)
Theorem flush_keeps_reads (c : PMBD_CONF) (d : PMBD_DEVICE_T)
  (bid n caller sector bytes : Z) :
  conf_ok c -> reachable c d -> PMBD_DEV_USE_BUFFER d = true ->
  0 <= bid < num_buffers d -> 0 <= n ->
  caller = CALLER_ALLOCATOR \/ caller = CALLER_SYNCER \/ caller = CALLER_DESTROYER ->
  request_ok d sector bytes ->
  exists d' cleaned,
    pmbd_buffer_check_and_flush d bid n caller = Ok (d', cleaned) /\
    0 <= cleaned <= n /\
    num_dirty (buffers d' bid) = num_dirty (buffers d bid) - cleaned /\
    copy_from_pmbd d' sector bytes = copy_from_pmbd d sector bytes.
Proof.
  intros Hc Hreach Hbuf Hbid Hn Hcaller Hreq.
  assert (Hw : wf d) by (eapply reachable_wf; eauto).
  destruct (pmbd_buffer_check_and_flush_ok d bid n caller Hw Hbid Hn Hcaller)
    as (d' & r & Hr & (Hw' & Hv & Hcf & _ & _ & _ & _ & _ & Hnd & _) & Hcount).
  assert (Hb' : PMBD_DEV_USE_BUFFER d' = true) by (rewrite (dev_inv_conf _ _ Hcf); exact Hbuf).
  assert (Hnd0 : 0 <= num_dirty (buffers d bid)).
  { destruct (wfr_control d (-1) bid Hw Hbid) as (_ & _ & H & _). lia. }
  exists d', r. conj; auto.
  - destruct Hcount as [-> | (-> & _)]; lia.
  - destruct Hcount as [-> | (-> & _)]; lia.
  - apply copy_from_pmbd_view; auto.
    + unfold dev_inv. now rewrite Hbuf.
    + unfold dev_inv. now rewrite Hb'.
    + intros a Ha _. unfold dev_view. rewrite Hb', Hbuf. now apply Hv.
Qed.

Lemma flush_keeps_reads_witness :
  conf_ok conf_buffered /\ reachable conf_buffered dev_dirty /\
  PMBD_DEV_USE_BUFFER dev_dirty = true /\ 0 <= 0 < num_buffers dev_dirty /\ 0 <= 16 /\
  (CALLER_SYNCER = CALLER_ALLOCATOR \/ CALLER_SYNCER = CALLER_SYNCER \/
   CALLER_SYNCER = CALLER_DESTROYER) /\
  request_ok dev_dirty 8 4096 /\
  exists d' cleaned,
    pmbd_buffer_check_and_flush dev_dirty 0 16 CALLER_SYNCER = Ok (d', cleaned) /\
    copy_from_pmbd d' 8 4096 = copy_from_pmbd dev_dirty 8 4096.
Proof.
  assert (H1 : conf_ok conf_buffered) by exact conf_buffered_ok.
  assert (H2 : reachable conf_buffered dev_dirty) by exact dev_dirty_reachable.
  assert (H3 : PMBD_DEV_USE_BUFFER dev_dirty = true) by reflexivity.
  assert (H4 : 0 <= 0 < num_buffers dev_dirty) by (cbv; split; [discriminate|reflexivity]).
  assert (H5 : 0 <= 16) by lia.
  assert (H6 : CALLER_SYNCER = CALLER_ALLOCATOR \/ CALLER_SYNCER = CALLER_SYNCER \/
               CALLER_SYNCER = CALLER_DESTROYER) by (right; left; reflexivity).
  assert (H7 : request_ok dev_dirty 8 4096) by (vm_compute; repeat split; discriminate).
  repeat (split; [assumption|]).
  destruct (flush_keeps_reads conf_buffered dev_dirty 0 16 CALLER_SYNCER 8 4096
              H1 H2 H3 H4 H5 H6 H7) as (d' & cleaned & Hr & _ & _ & Hread).
  exists d', cleaned. split; assumption.
Defined.

(** What a barrier leaves: the same content, all of it in the PM region. *)
Lemma barrier_synced (c : PMBD_CONF) (d : PMBD_DEVICE_T) :
  conf_ok c -> reachable c d ->
  exists d', pmbd_write_barrier d = Ok d' /\ dev_inv d' /\ same_conf d d' /\
    (forall a, 0 <= a < PMBD_MEM_TOTAL_BYTES d -> dev_view d' a = dev_view d a) /\
    (forall a, 0 <= a < PMBD_MEM_TOTAL_BYTES d -> mem_space d' a = dev_view d a) /\
    (PMBD_DEV_USE_BUFFER d = true ->
     forall bid, 0 <= bid < num_buffers d -> num_dirty (buffers d' bid) = 0).
Proof.
  intros Hc Hreach. destruct (reachable_inv c d Hc Hreach) as (Hi & Hfly & _).
  destruct (pmbd_write_barrier_ok d Hi Hfly) as (d' & Hr & Hi' & Hcf & Hv & Hbuf).
  exists d'. conj; auto.
  - intros a Ha. destruct (PMBD_DEV_USE_BUFFER d) eqn:Hb.
    + now apply (proj2 (Hbuf eq_refl)).
    + rewrite <- (Hv a Ha). unfold dev_view. now rewrite (dev_inv_conf _ _ Hcf), Hb.
  - intros Hb. now apply (proj1 (Hbuf Hb)).
Qed.

(** X2.  A barrier is invisible to readers and leaves nothing behind in
    the buffers: in every reachable state, buffered or not,
    [pmbd_write_barrier] returns; a read of any range returns the bytes it
    would have returned before, and the same bytes are then found in the PM
    region itself, by a read that goes past the buffer. *)
Theorem barrier_keeps_reads (c : PMBD_CONF) (d : PMBD_DEVICE_T) (sector bytes : Z) :
  conf_ok c -> reachable c d -> request_ok d sector bytes ->
  exists d',
    pmbd_write_barrier d = Ok d' /\
    copy_from_pmbd d' sector bytes = copy_from_pmbd d sector bytes /\
    copy_from_pmbd_unbuffered d' sector bytes = copy_from_pmbd d sector bytes.
Proof.
  intros Hc Hreach Hreq. destruct (reachable_inv c d Hc Hreach) as (Hi & _).
  destruct (barrier_synced c d Hc Hreach) as (d' & Hr & Hi' & Hcf & Hv & Hm & _).
  exists d'. conj; auto.
  - apply copy_from_pmbd_view; auto.
  - rewrite copy_from_pmbd_unbuffered_ok, (copy_from_pmbd_ok d sector bytes Hi Hreq).
    destruct (request_in_range d sector bytes Hreq) as (H0 & H1).
    destruct Hreq as (_ & Hb & _).
    apply read_bytes_ext. intros j Hj. rewrite Z2Nat.id in Hj by lia. apply Hm. lia.
Qed.

Lemma barrier_keeps_reads_witness :
  conf_ok conf_buffered /\ reachable conf_buffered dev_dirty /\
  request_ok dev_dirty 8 4096 /\
  exists d',
    pmbd_write_barrier dev_dirty = Ok d' /\
    copy_from_pmbd d' 8 4096 = copy_from_pmbd dev_dirty 8 4096 /\
    copy_from_pmbd_unbuffered d' 8 4096 = copy_from_pmbd dev_dirty 8 4096.
Proof.
  assert (H1 : conf_ok conf_buffered) by exact conf_buffered_ok.
  assert (H2 : reachable conf_buffered dev_dirty) by exact dev_dirty_reachable.
  assert (H3 : request_ok dev_dirty 8 4096) by (vm_compute; repeat split; discriminate).
  repeat (split; [assumption|]).
  exact (barrier_keeps_reads conf_buffered dev_dirty 8 4096 H1 H2 H3).
Defined.

(** X3.  Forced unit access: a write with [do_fua] set returns with its
    bytes in the PM region itself, on a buffered device as well, where it
    also went through the buffer; a read through the buffer and a read past
    it both return the bytes written. *)
Theorem fua_write_reaches_pm (c : PMBD_CONF) (d : PMBD_DEVICE_T) (fuel : nat)
  (buf : list byte) (sector : Z) :
  conf_ok c -> reachable c d ->
  request_ok d sector (Z.of_nat (length buf)) -> (2 <= fuel)%nat ->
  exists d',
    copy_to_pmbd fuel d (of_list buf) sector (Z.of_nat (length buf)) true = Ok d' /\
    copy_from_pmbd_unbuffered d' sector (Z.of_nat (length buf)) = buf /\
    copy_from_pmbd d' sector (Z.of_nat (length buf)) = buf.
Proof.
  intros Hc Hreach Hreq Hfuel. destruct (reachable_inv c d Hc Hreach) as (Hi & _).
  destruct (copy_to_pmbd_ok fuel d (of_list buf) sector _ true Hi Hreq Hfuel)
    as (d' & Hr & Hi' & Hcf & Hv & Hfua).
  destruct (request_in_range d sector _ Hreq) as (H0 & H1).
  exists d'. conj; auto.
  - rewrite copy_from_pmbd_unbuffered_ok, Nat2Z.id.
    rewrite <- (read_bytes_of_list buf) at 2.
    apply read_bytes_ext. intros j Hj. rewrite (Hfua eq_refl); try lia.
    f_equal. lia.
  - rewrite (copy_from_pmbd_ok d' sector _ Hi' (request_conf _ _ _ _ Hcf Hreq)), Nat2Z.id.
    rewrite <- (read_bytes_of_list buf) at 2.
    apply read_bytes_ext. intros j Hj. rewrite Hv, written_eq by lia.
    destruct (Z.leb_spec (SECTOR_TO_BYTE sector) (SECTOR_TO_BYTE sector + j)); [|lia].
    destruct (Z.ltb_spec (SECTOR_TO_BYTE sector + j)
                (SECTOR_TO_BYTE sector + Z.of_nat (length buf))); [|lia].
    cbn [andb]. f_equal. lia.
Qed.

Lemma fua_write_reaches_pm_witness :
  conf_ok conf_buffered /\ reachable conf_buffered dev_buffered /\
  request_ok dev_buffered 9 (Z.of_nat (length sector_11)) /\ (2 <= 2)%nat /\
  exists d',
    copy_to_pmbd 2 dev_buffered (of_list sector_11) 9 (Z.of_nat (length sector_11)) true
      = Ok d' /\
    copy_from_pmbd_unbuffered d' 9 (Z.of_nat (length sector_11)) = sector_11 /\
    copy_from_pmbd d' 9 (Z.of_nat (length sector_11)) = sector_11.
Proof.
  assert (H1 : conf_ok conf_buffered) by exact conf_buffered_ok.
  assert (H2 : reachable conf_buffered dev_buffered) by apply reach_create.
  assert (H3 : request_ok dev_buffered 9 (Z.of_nat (length sector_11)))
    by (vm_compute; repeat split; discriminate).
  assert (H4 : (2 <= 2)%nat) by lia.
  repeat (split; [assumption|]).
  exact (fua_write_reaches_pm conf_buffered dev_buffered 2 sector_11 9 H1 H2 H3 H4).
Defined.

(** ** A fresh device, and a device that is torn down *)

Lemma create_unbuffered (c : PMBD_CONF) (pm : memory) (junk : Z -> memory) (p : Z) :
  conf_ok c -> PMBD_DEV_USE_BUFFER (pmbd_create c pm junk) = true ->
  PMBD_BLOCK_IS_BUFFERED (pmbd_create c pm junk) p = false.
Proof.
  intros (_ & Hbuf) Hmode. destruct (Hbuf Hmode) as (_ & _ & Hnb).
  unfold PMBD_BLOCK_IS_BUFFERED. apply Z.ltb_ge.
  change (num_blocks (PBN_TO_PMBD_BUFFER (pmbd_create c pm junk) p))
    with (num_blocks (pmbd_buffer_create c 0 (fun _ => x00))).
  change (pbi_bbn (PMBD_BLOCK_PBI (pmbd_create c pm junk) p))
    with ((GB_TO_SECTORS (g_pmbd_size c) * sector_size) / pb_size + 3).
  exact Hnb.
Qed.

Lemma create_view (c : PMBD_CONF) (pm : memory) (junk : Z -> memory) (a : Z) :
  conf_ok c -> dev_view (pmbd_create c pm junk) a = pm a.
Proof.
  intros Hc. unfold dev_view. destruct (PMBD_DEV_USE_BUFFER (pmbd_create c pm junk)) eqn:Hb;
    [|reflexivity].
  unfold dev_byte. cbv zeta. now rewrite create_unbuffered.
Qed.

(** X4.  A fresh device shows the reserved memory as it found it: right
    after [pmbd_create] no block is buffered, every buffer is empty, no
    request is in flight, and a read of any range returns the bytes that the
    PM region held when the device was created. *)
Theorem fresh_device_reads_pm (c : PMBD_CONF) (pm : memory) (junk : Z -> memory)
  (sector bytes : Z) :
  conf_ok c -> request_ok (pmbd_create c pm junk) sector bytes ->
  copy_from_pmbd (pmbd_create c pm junk) sector bytes =
    read_bytes pm (SECTOR_TO_BYTE sector) (Z.to_nat bytes) /\
  (PMBD_DEV_USE_BUFFER (pmbd_create c pm junk) = true ->
   forall p, PMBD_BLOCK_IS_BUFFERED (pmbd_create c pm junk) p = false) /\
  (forall bid, PMBD_BUFFER_IS_EMPTY (buffers (pmbd_create c pm junk) bid) = true) /\
  num_flying_wr (pmbd_create c pm junk) = 0.
Proof.
  intros Hc Hreq. destruct (pmbd_create_inv c pm junk Hc) as (Hi & Hf). conj; auto.
  - rewrite (copy_from_pmbd_ok _ sector bytes Hi Hreq).
    apply read_bytes_ext. intros j _. now apply create_view.
  - intros Hb p. now apply create_unbuffered.
Qed.

Lemma fresh_device_reads_pm_witness :
  conf_ok conf_buffered /\
  request_ok (pmbd_create conf_buffered (fun _ => x11) (fun _ => zero_memory)) 9 512 /\
  copy_from_pmbd (pmbd_create conf_buffered (fun _ => x11) (fun _ => zero_memory)) 9 512 =
    read_bytes (fun _ => x11) (SECTOR_TO_BYTE 9) (Z.to_nat 512).
Proof.
  assert (H1 : conf_ok conf_buffered) by exact conf_buffered_ok.
  assert (H2 : request_ok (pmbd_create conf_buffered (fun _ => x11) (fun _ => zero_memory))
                 9 512) by (vm_compute; repeat split; discriminate).
  repeat (split; [assumption|]).
  exact (proj1 (fresh_device_reads_pm conf_buffered (fun _ => x11) (fun _ => zero_memory)
                  9 512 H1 H2)).
Defined.

Lemma reachable_bufmode (c : PMBD_CONF) (d d' : PMBD_DEVICE_T) :
  conf_ok c -> reachable c d -> reachable c d' ->
  PMBD_DEV_USE_BUFFER d' = PMBD_DEV_USE_BUFFER d.
Proof.
  intros Hc H H'. destruct (reachable_inv c d Hc H) as (_ & _ & E).
  destruct (reachable_inv c d' Hc H') as (_ & _ & E').
  rewrite (dev_inv_conf _ _ E), (dev_inv_conf _ _ E'). reflexivity.
Qed.

(** The buffers of a device that does not use them stay empty. *)
Lemma reachable_unbuffered_empty (c : PMBD_CONF) (d : PMBD_DEVICE_T) :
  conf_ok c -> reachable c d -> PMBD_DEV_USE_BUFFER d = false ->
  forall bid, num_dirty (buffers d bid) = 0.
Proof.
  intros Hc H. induction H as
    [pm junk
    | d d' fuel src sector bytes do_fua Hreach IH Hreq Hr
    | d d' fuel pbn pos Hreach IH Hbuf Hp Hl Hr
    | d d' bid n caller cleaned Hreach IH Hbuf Hbid Hn Hr
    | d d' Hreach IH Hr]; intros Hb.
  - reflexivity.
  - assert (Hbd : PMBD_DEV_USE_BUFFER d = false).
    { rewrite <- Hb. eapply reachable_bufmode; eauto. eapply reach_write; eauto. }
    unfold copy_to_pmbd in Hr. rewrite Hbd, copy_to_pmbd_unbuffered_ok in Hr.
    injection Hr as <-. exact (IH Hbd).
  - exfalso. assert (Hbd : PMBD_DEV_USE_BUFFER d = false).
    { rewrite <- Hb. eapply reachable_bufmode; eauto. eapply reach_alloc; eauto. }
    unfold PMBD_DEV_USE_BUFFER in Hbd. congruence.
  - exfalso. assert (Hbd : PMBD_DEV_USE_BUFFER d = false).
    { rewrite <- Hb. eapply reachable_bufmode; eauto. eapply reach_flush; eauto. }
    unfold PMBD_DEV_USE_BUFFER in Hbd. congruence.
  - assert (Hbd : PMBD_DEV_USE_BUFFER d = false).
    { rewrite <- Hb. eapply reachable_bufmode; eauto. eapply reach_barrier; eauto. }
    unfold pmbd_write_barrier in Hr. rewrite Hbd in Hr.
    destruct (negb (num_flying_wr d =? 0)); [discriminate|]. cbn [bind] in Hr.
    unfold pmbd_clflush_all in Hr.
    destruct (g_pmbd_cpu_cache_flag d), (g_pmbd_nts d), (g_pmbd_cpu_cache_clflush d);
      injection Hr as <-; exact (IH Hbd).
Qed.

(** Destroying buffers that are empty changes nothing. *)
Lemma pmbd_buffers_destroy_empty (d : PMBD_DEVICE_T) :
  (forall bid, 0 <= bid < num_buffers d -> num_dirty (buffers d bid) = 0) ->
  pmbd_buffers_destroy d = Ok d.
Proof.
  intros Hz. unfold pmbd_buffers_destroy.
  destruct (for_range_inv (fun (_ : Z) (d' : PMBD_DEVICE_T) => d' = d)
              (fun i d' => pmbd_buffer_destroy d' i) (Z.to_nat (num_buffers d)) 0 d)
    as (d' & Hr & ->); auto.
  intros i s0 Hi ->. exists d. split; [|reflexivity].
  unfold pmbd_buffer_destroy, pmbd_buffer_check_and_flush, pmbd_buffer_flush.
  cbn [Z.eqb CALLER_DESTROYER]. unfold PMBD_BUFFER_IS_EMPTY.
  rewrite Hz by lia. reflexivity.
Qed.

(** X5.  Nothing is lost when a device is torn down: in every reachable
    state, buffered or not, [pmbd_destroy] returns, and the PM region then
    holds every byte as a read would have returned it before.  A device that
    is created again on this memory with the same parameters answers every
    read as the old one did. *)
Theorem destroy_keeps_content (c : PMBD_CONF) (d : PMBD_DEVICE_T) (junk : Z -> memory)
  (sector bytes : Z) :
  conf_ok c -> reachable c d -> request_ok d sector bytes ->
  exists pm,
    pmbd_destroy d = Ok pm /\
    (forall a, 0 <= a < PMBD_MEM_TOTAL_BYTES d -> pm a = dev_view d a) /\
    copy_from_pmbd (pmbd_create c pm junk) sector bytes = copy_from_pmbd d sector bytes.
Proof.
  intros Hc Hreach Hreq. destruct (reachable_inv c d Hc Hreach) as (Hi & _ & Hconf).
  destruct (barrier_synced c d Hc Hreach) as (d1 & Hr & Hi1 & Hcf & _ & Hm & Hz).
  assert (Hfree : pmbd_buffer_space_free d1 = Ok d1).
  { unfold pmbd_buffer_space_free. destruct (num_buffers d1 <=? 0); [reflexivity|].
    apply pmbd_buffers_destroy_empty. intros bid Hbid.
    destruct (PMBD_DEV_USE_BUFFER d) eqn:Hb.
    - apply Hz; auto. destruct Hcf as (_ & _ & _ & E & _). now rewrite <- E.
    - apply (reachable_unbuffered_empty c d1 Hc).
      + eapply reach_barrier; eauto.
      + now rewrite (dev_inv_conf _ _ Hcf). }
  exists (mem_space d1). conj.
  - unfold pmbd_destroy. rewrite Hr. cbn [bind]. rewrite Hfree. reflexivity.
  - exact Hm.
  - destruct (pmbd_create_inv c (mem_space d1) junk Hc) as (Hi0 & _).
    assert (Hreq0 : request_ok (pmbd_create c (mem_space d1) junk) sector bytes).
    { unfold request_ok in *.
      change (num_sectors (pmbd_create c (mem_space d1) junk))
        with (num_sectors (pmbd_create c (fun _ => x00) (fun _ _ => x00))).
      destruct Hconf as (E & _). now rewrite <- E. }
    rewrite (copy_from_pmbd_ok _ sector bytes Hi0 Hreq0).
    rewrite (copy_from_pmbd_ok d sector bytes Hi Hreq).
    destruct (request_in_range d sector bytes Hreq) as (H0 & H1).
    destruct Hreq as (_ & Hb & _).
    apply read_bytes_ext. intros j Hj. rewrite Z2Nat.id in Hj by lia.
    rewrite create_view by exact Hc. apply Hm. lia.
Qed.

Lemma destroy_keeps_content_witness :
  conf_ok conf_buffered /\ reachable conf_buffered dev_dirty /\
  request_ok dev_dirty 8 4096 /\
  exists pm,
    pmbd_destroy dev_dirty = Ok pm /\
    copy_from_pmbd (pmbd_create conf_buffered pm (fun _ => zero_memory)) 8 4096 =
      copy_from_pmbd dev_dirty 8 4096.
Proof.
  assert (H1 : conf_ok conf_buffered) by exact conf_buffered_ok.
  assert (H2 : reachable conf_buffered dev_dirty) by exact dev_dirty_reachable.
  assert (H3 : request_ok dev_dirty 8 4096) by (vm_compute; repeat split; discriminate).
  repeat (split; [assumption|]).
  destruct (destroy_keeps_content conf_buffered dev_dirty (fun _ => zero_memory) 8 4096
              H1 H2 H3) as (pm & Hr & _ & Hread).
  exists pm. split; assumption.
Defined.

(** ** The allocator and the ring *)

(** The allocation in a buffer that is not full. *)
Lemma alloc_block_free (d : PMBD_DEVICE_T) (bid pbn : Z) (fuel : nat) :
  PMBD_BUFFER_IS_FULL (buffers d bid) = false ->
  exists d',
    pmbd_buffer_alloc_block (S fuel) d bid pbn = Ok (d', pos_clean (buffers d bid)) /\
    num_dirty (buffers d' bid) = num_dirty (buffers d bid) + 1 /\
    pos_clean (buffers d' bid) =
      PMBD_BUFFER_NEXT_POS (buffers d bid) (pos_clean (buffers d bid)) /\
    pos_dirty (buffers d' bid) = pos_dirty (buffers d bid) /\
    num_blocks (buffers d' bid) = num_blocks (buffers d bid).
Proof.
  intros Hfull. cbn [pmbd_buffer_alloc_block]. rewrite Hfull.
  eexists. split; [reflexivity|].
  unfold PMBD_SET_BLOCK_BUFFERED, set_pbi_space, set_buffer, set_buffers.
  cbn [buffers]. rewrite upd_same. repeat split.
Qed.

(** X6.  The allocator hands out the slots in ring order and makes room
    one batch at a time: in every reachable state of a buffered device,
    [pmbd_buffer_alloc_block] returns the slot at [pos_clean] and moves
    [pos_clean] to the next position of the ring.  When the buffer is not
    full this adds one dirty slot; when it is full, the [batch_size] oldest
    slots (all of them if the batch is larger than the buffer) are flushed
    first, within two passes through [check_again]. *)
Theorem alloc_block_accounting (c : PMBD_CONF) (d : PMBD_DEVICE_T) (bid pbn : Z)
  (fuel : nat) :
  conf_ok c -> reachable c d -> PMBD_DEV_USE_BUFFER d = true ->
  0 <= bid < num_buffers d -> (2 <= fuel)%nat ->
  exists d',
    pmbd_buffer_alloc_block fuel d bid pbn = Ok (d', pos_clean (buffers d bid)) /\
    pos_clean (buffers d' bid) =
      PMBD_BUFFER_NEXT_POS (buffers d bid) (pos_clean (buffers d bid)) /\
    num_blocks (buffers d' bid) = num_blocks (buffers d bid) /\
    (PMBD_BUFFER_IS_FULL (buffers d bid) = false ->
     num_dirty (buffers d' bid) = num_dirty (buffers d bid) + 1 /\
     pos_dirty (buffers d' bid) = pos_dirty (buffers d bid)) /\
    (PMBD_BUFFER_IS_FULL (buffers d bid) = true ->
     num_dirty (buffers d' bid) =
       num_blocks (buffers d bid) -
       Z.min (batch_size (buffers d bid)) (num_blocks (buffers d bid)) + 1 /\
     pos_dirty (buffers d' bid) =
       PMBD_BUFFER_NEXT_N_POS (buffers d bid) (pos_dirty (buffers d bid))
         (Z.min (batch_size (buffers d bid)) (num_blocks (buffers d bid)))).
Proof.
  intros Hc Hreach Hbuf Hbid Hfuel.
  assert (Hw : wf d) by (eapply reachable_wf; eauto).
  destruct fuel as [|[|fuel]]; try lia.
  destruct (wfr_control _ _ _ Hw Hbid) as (HN & Hpd & Hnd & Hpc & Hbs).
  destruct (PMBD_BUFFER_IS_FULL (buffers d bid)) eqn:Hfull.
  - destruct (pmbd_buffer_check_and_flush_ok d bid (batch_size (buffers d bid))
                CALLER_ALLOCATOR Hw Hbid ltac:(lia) ltac:(auto))
      as (d1 & r & Hr & Hpost & Hcnt).
    destruct Hcnt as [Hcnt|(_ & _ & Hcnt)]; [|congruence].
    destruct Hpost as (_ & _ & _ & _ & EN1 & _ & _ & EC1 & END1 & EPD1 & _).
    assert (Hnum : num_dirty (buffers d bid) = num_blocks (buffers d bid)).
    { unfold PMBD_BUFFER_IS_FULL in Hfull. apply Z.geb_le in Hfull. lia. }
    assert (Hnf1 : PMBD_BUFFER_IS_FULL (buffers d1 bid) = false).
    { unfold PMBD_BUFFER_IS_FULL.
      destruct (Z.geb_spec (num_dirty (buffers d1 bid)) (num_blocks (buffers d1 bid)));
        [|reflexivity]. rewrite EN1, END1 in *. lia. }
    destruct (alloc_block_free d1 bid pbn fuel Hnf1) as (d' & Hr' & E1 & E2 & E3 & E4).
    rewrite (pmbd_buffer_alloc_block_full (S fuel) d bid pbn Hfull), Hr. cbn [bind fst].
    exists d'. rewrite <- EC1. conj; auto.
    + rewrite E2. unfold PMBD_BUFFER_NEXT_POS. now rewrite EN1.
    + congruence.
    + discriminate.
    + intros _. split.
      * rewrite E1, END1, Hcnt, Hnum. lia.
      * rewrite E3, EPD1, Hcnt, Hnum. reflexivity.
  - destruct (alloc_block_free d bid pbn (S fuel) Hfull) as (d' & Hr' & E1 & E2 & E3 & E4).
    exists d'. conj; auto. discriminate.
Qed.

Lemma alloc_block_accounting_witness :
  conf_ok conf_buffered /\ reachable conf_buffered dev_dirty /\
  PMBD_DEV_USE_BUFFER dev_dirty = true /\ 0 <= 0 < num_buffers dev_dirty /\ (2 <= 2)%nat /\
  exists d',
    pmbd_buffer_alloc_block 2 dev_dirty 0 5 = Ok (d', pos_clean (buffers dev_dirty 0)) /\
    pos_clean (buffers d' 0) =
      PMBD_BUFFER_NEXT_POS (buffers dev_dirty 0) (pos_clean (buffers dev_dirty 0)).
Proof.
  assert (H1 : conf_ok conf_buffered) by exact conf_buffered_ok.
  assert (H2 : reachable conf_buffered dev_dirty) by exact dev_dirty_reachable.
  assert (H3 : PMBD_DEV_USE_BUFFER dev_dirty = true) by reflexivity.
  assert (H4 : 0 <= 0 < num_buffers dev_dirty) by (cbv; split; [discriminate|reflexivity]).
  assert (H5 : (2 <= 2)%nat) by lia.
  repeat (split; [assumption|]).
  destruct (alloc_block_accounting conf_buffered dev_dirty 0 5 2 H1 H2 H3 H4 H5)
    as (d' & Hr & Hpc & _).
  exists d'. split; assumption.
Defined.

(** X7.  The positions of a buffer form a ring: for a buffer with at least
    one slot and a position inside it, [PMBD_BUFFER_NEXT_POS] and
    [PMBD_BUFFER_PRIO_POS] stay inside the buffer and undo each other, one
    step forward is [PMBD_BUFFER_NEXT_N_POS] by 1, and going all the way
    round comes back to the position. *)
Theorem buffer_positions_ring (b : PMBD_BUFFER_T) (pos : Z) :
  0 < num_blocks b -> 0 <= pos < num_blocks b ->
  0 <= PMBD_BUFFER_NEXT_POS b pos < num_blocks b /\
  0 <= PMBD_BUFFER_PRIO_POS b pos < num_blocks b /\
  PMBD_BUFFER_PRIO_POS b (PMBD_BUFFER_NEXT_POS b pos) = pos /\
  PMBD_BUFFER_NEXT_POS b (PMBD_BUFFER_PRIO_POS b pos) = pos /\
  PMBD_BUFFER_NEXT_N_POS b pos 1 = PMBD_BUFFER_NEXT_POS b pos /\
  PMBD_BUFFER_NEXT_N_POS b pos (num_blocks b) = pos /\
  (forall n m, 0 <= n -> 0 <= m ->
     PMBD_BUFFER_NEXT_N_POS b (PMBD_BUFFER_NEXT_N_POS b pos n) m =
     PMBD_BUFFER_NEXT_N_POS b pos (n + m)).
Proof.
  intros HN Hpos. unfold PMBD_BUFFER_NEXT_POS, PMBD_BUFFER_PRIO_POS, PMBD_BUFFER_NEXT_N_POS.
  conj.
  - destruct (Z.eqb_spec pos (num_blocks b - 1)); lia.
  - destruct (Z.eqb_spec pos (num_blocks b - 1)); lia.
  - destruct (Z.eqb_spec pos 0); lia.
  - destruct (Z.eqb_spec pos 0); lia.
  - destruct (Z.eqb_spec pos (num_blocks b - 1)) as [E|E].
    + now rewrite Z.eqb_refl.
    + destruct (Z.eqb_spec (pos + 1) 0); lia.
  - destruct (Z.eqb_spec pos 0) as [E|E].
    + now rewrite Z.eqb_refl.
    + destruct (Z.eqb_spec (pos - 1) (num_blocks b - 1)); lia.
  - destruct (Z.eqb_spec pos (num_blocks b - 1)) as [E|E].
    + rewrite E. replace (num_blocks b - 1 + 1) with (num_blocks b) by lia.
      apply Z.mod_same. lia.
    + apply Z.mod_small. lia.
  - rewrite <- (Z.mul_1_l (num_blocks b)) at 1. rewrite Z.mod_add by lia.
    apply Z.mod_small. lia.
  - intros n m Hn Hm. rewrite Zplus_mod_idemp_l. f_equal. lia.
Qed.

Lemma buffer_positions_ring_witness :
  0 < num_blocks (buffers dev_dirty 0) /\ 0 <= 1023 < num_blocks (buffers dev_dirty 0) /\
  PMBD_BUFFER_PRIO_POS (buffers dev_dirty 0) (PMBD_BUFFER_NEXT_POS (buffers dev_dirty 0) 1023)
    = 1023 /\
  PMBD_BUFFER_NEXT_POS (buffers dev_dirty 0) (PMBD_BUFFER_PRIO_POS (buffers dev_dirty 0) 1023)
    = 1023.
Proof.
  assert (H1 : 0 < num_blocks (buffers dev_dirty 0)) by reflexivity.
  assert (H2 : 0 <= 1023 < num_blocks (buffers dev_dirty 0))
    by (split; [discriminate|reflexivity]).
  repeat (split; [assumption|]).
  destruct (buffer_positions_ring (buffers dev_dirty 0) 1023 H1 H2)
    as (_ & _ & H3 & H4 & _).
  split; assumption.
Defined.

(** ** The pieces of a buffered request *)

(** X8.  The buffered copy routines cut a request into one piece per
    physical block, and each piece is exactly the part of the request that
    lies in its block: for a request that the dispatcher lets through, on a
    reachable buffered device, the blocks visited are those from the block
    of the first byte to the block of the last byte, all of them on the
    device; in block [p] the sectors copied lie inside the block, begin at
    the later of the start of the request and the start of the block, and
    end at the earlier of the end of the request and the end of the
    block. *)
Theorem request_pieces_tile (c : PMBD_CONF) (d : PMBD_DEVICE_T) (sector bytes p : Z) :
  conf_ok c -> reachable c d -> PMBD_DEV_USE_BUFFER d = true ->
  request_ok d sector bytes ->
  let pbn_s := SECTOR_TO_PBN sector in
  let pbn_e := BYTE_TO_PBN (u64 (SECTOR_TO_BYTE sector + bytes - 1)) in
  let sect_s := block_sect_s pbn_s (pmbd_buffer_aligned_request_start sector bytes) p in
  let sect_e := block_sect_e pbn_e (pmbd_buffer_aligned_request_end sector bytes) p in
  PBN_TO_BYTE pbn_s <= SECTOR_TO_BYTE sector < PBN_TO_BYTE (pbn_s + 1) /\
  PBN_TO_BYTE pbn_e < SECTOR_TO_BYTE sector + bytes <= PBN_TO_BYTE (pbn_e + 1) /\
  0 <= pbn_s <= pbn_e /\ pbn_e < PMBD_TOTAL_PB_NUM d /\
  (pbn_s <= p <= pbn_e ->
   0 <= sect_s <= sect_e /\ sect_e <= 7 /\
   PMBD_BLOCK_VADDR p + SECTOR_TO_BYTE sect_s =
     Z.max (SECTOR_TO_BYTE sector) (PMBD_BLOCK_VADDR p) /\
   PMBD_BLOCK_VADDR p + SECTOR_TO_BYTE sect_s + block_size sect_s sect_e =
     Z.min (SECTOR_TO_BYTE sector + bytes) (PMBD_BLOCK_VADDR (p + 1))).
Proof.
  intros Hc Hreach Hbuf Hreq.
  assert (Hw : wf d) by (eapply reachable_wf; eauto).
  destruct (request_geometry d sector bytes (wfr_device _ _ Hw) Hreq)
    as (n & Hn & -> & E1 & E2 & E3 & E4 & Hlast & Htot).
  destruct Hreq as (Hs & _).
  cbv zeta. rewrite E1, E2, E3, E4.
  unfold block_sect_s, block_sect_e, block_size, PMBD_BLOCK_VADDR, PBN_TO_SECTOR, PBN_TO_BYTE.
  units. change (1 * 4096 / 512 - 1) with 7.
  conj; try zdiv.
  intros Hp.
  destruct (Z.eqb_spec p (sector / 8)) as [Es|Es];
    destruct (Z.eqb_spec p ((sector + n - 1) / 8)) as [Ee|Ee]; conj; zdiv.
Qed.

Lemma request_pieces_tile_witness :
  conf_ok conf_buffered /\ reachable conf_buffered dev_dirty /\
  PMBD_DEV_USE_BUFFER dev_dirty = true /\ request_ok dev_dirty 9 8192 /\
  (SECTOR_TO_PBN 9 <= 2 <= BYTE_TO_PBN (u64 (SECTOR_TO_BYTE 9 + 8192 - 1)) ->
   PMBD_BLOCK_VADDR 2 +
   SECTOR_TO_BYTE
     (block_sect_s (SECTOR_TO_PBN 9) (pmbd_buffer_aligned_request_start 9 8192) 2) =
   Z.max (SECTOR_TO_BYTE 9) (PMBD_BLOCK_VADDR 2)).
Proof.
  assert (H1 : conf_ok conf_buffered) by exact conf_buffered_ok.
  assert (H2 : reachable conf_buffered dev_dirty) by exact dev_dirty_reachable.
  assert (H3 : PMBD_DEV_USE_BUFFER dev_dirty = true) by reflexivity.
  assert (H4 : request_ok dev_dirty 9 8192) by (vm_compute; repeat split; discriminate).
  repeat (split; [assumption|]).
  intros Hp.
  exact (proj1 (proj2 (proj2
    (proj2 (proj2 (proj2 (proj2
      (request_pieces_tile conf_buffered dev_dirty 9 8192 2 H1 H2 H3 H4)))) Hp)))).
Defined.

(** ** Write verification *)

Lemma mem_eqb_eq (n : nat) (m1 : memory) (a1 : Z) (m2 : memory) (a2 : Z) :
  mem_eqb n m1 a1 m2 a2 = true ->
  forall j, 0 <= j < Z.of_nat n -> m1 (a1 + j) = m2 (a2 + j).
Proof.
  revert a1 a2. induction n as [|n IH]; intros a1 a2 H j Hj; [lia|].
  simpl in H. apply andb_prop in H. destruct H as (H0 & H1).
  destruct (Z.eq_dec j 0) as [->|Hne].
  - rewrite !Z.add_0_r. now apply byte_dec_bl.
  - replace (a1 + j) with (a1 + 1 + (j - 1)) by lia.
    replace (a2 + j) with (a2 + 1 + (j - 1)) by lia.
    apply IH; [exact H1 | lia].
Qed.

Lemma mem_eqb_false (n : nat) (m1 : memory) (a1 : Z) (m2 : memory) (a2 : Z) :
  mem_eqb n m1 a1 m2 a2 = false ->
  exists j, 0 <= j < Z.of_nat n /\ m1 (a1 + j) <> m2 (a2 + j).
Proof.
  revert a1 a2. induction n as [|n IH]; intros a1 a2 E; [discriminate|].
  simpl in E. apply andb_false_iff in E. destruct E as [E|E].
  - exists 0. split; [lia|]. rewrite !Z.add_0_r. intros Heq. rewrite Heq in E.
    rewrite byte_dec_lb in E; [discriminate | reflexivity].
  - destruct (IH (a1 + 1) (a2 + 1) E) as (j & Hj & Hne).
    exists (j + 1). split; [lia|].
    replace (a1 + (j + 1)) with (a1 + 1 + j) by lia.
    replace (a2 + (j + 1)) with (a2 + 1 + j) by lia. exact Hne.
Qed.

(** X9.  Write verification: [pmbd_verify_wr_pages] passes exactly when the
    PM range holds the bytes of its source, and panics otherwise.  The
    unbuffered write passes its own verification whatever it is asked to
    write, so it returns with verification on as with verification off; it
    changes no byte outside the range written. *)
Theorem write_verification (d : PMBD_DEVICE_T) (src : memory) (sector bytes : Z)
  (do_fua : bool) :
  0 <= bytes ->
  (forall (ram : memory) (va : Z),
     (pmbd_verify_wr_pages d va ram 0 bytes = Ok tt <->
      forall j, 0 <= j < bytes -> mem_space d (va + j) = ram j) /\
     (pmbd_verify_wr_pages d va ram 0 bytes = Panic <->
      exists j, 0 <= j < bytes /\ mem_space d (va + j) <> ram j)) /\
  exists d',
    copy_to_pmbd_unbuffered d src sector bytes do_fua = Ok d' /\
    pmbd_verify_wr_pages d' (SECTOR_TO_BYTE sector) src 0 bytes = Ok tt /\
    (forall a, ~ (SECTOR_TO_BYTE sector <= a < SECTOR_TO_BYTE sector + bytes) ->
       mem_space d' a = mem_space d a).
Proof.
  intros Hb.
  assert (Hiff : forall (d0 : PMBD_DEVICE_T) (ram : memory) (va : Z),
            pmbd_verify_wr_pages d0 va ram 0 bytes = Ok tt <->
            forall j, 0 <= j < bytes -> mem_space d0 (va + j) = ram j).
  { intros d0 ram va. unfold pmbd_verify_wr_pages. split.
    - destruct (mem_eqb (Z.to_nat bytes) (mem_space d0) va ram 0) eqn:E; [|discriminate].
      intros _ j Hj. rewrite (mem_eqb_eq _ _ _ _ _ E j) by lia. reflexivity.
    - intros H. rewrite mem_eqb_true; [reflexivity|].
      intros j Hj. rewrite H by lia. reflexivity. }
  split.
  - intros ram va. split; [apply Hiff|]. split.
    + intros HP. unfold pmbd_verify_wr_pages in HP.
      destruct (mem_eqb (Z.to_nat bytes) (mem_space d) va ram 0) eqn:E; [discriminate|].
      destruct (mem_eqb_false _ _ _ _ _ E) as (j & Hj & Hne).
      exists j. split; [lia|]. exact Hne.
    + intros (j & Hj & Hne). unfold pmbd_verify_wr_pages.
      destruct (mem_eqb (Z.to_nat bytes) (mem_space d) va ram 0) eqn:E; [|reflexivity].
      exfalso. apply Hne. rewrite (mem_eqb_eq _ _ _ _ _ E j) by lia. reflexivity.
  - rewrite copy_to_pmbd_unbuffered_ok. eexists. split; [reflexivity|]. split.
    + apply Hiff. intros j Hj. unfold memcpy_to_pmbd, set_mem_space. cbn [mem_space].
      rewrite memcpy_in by lia. f_equal. lia.
    + intros a Ha. unfold memcpy_to_pmbd, set_mem_space. cbn [mem_space].
      now apply memcpy_out.
Qed.

Lemma write_verification_witness :
  0 <= 512 /\
  exists d',
    copy_to_pmbd_unbuffered dev_unbuffered (of_list sector_11) 9 512 false = Ok d' /\
    pmbd_verify_wr_pages d' (SECTOR_TO_BYTE 9) (of_list sector_11) 0 512 = Ok tt.
Proof.
  assert (H1 : 0 <= 512) by lia.
  repeat (split; [assumption|]).
  destruct (proj2 (write_verification dev_unbuffered (of_list sector_11) 9 512 false H1))
    as (d' & Hr & Hv & _).
  exists d'. split; assumption.
Defined.

(** * The copy loops *)

Lemma memcpy_to_pmbd_nopmap_sub (fuel : nat) (pm : memory) (dst : Z) (src : memory)
  (from left : Z) (wr : list (Z * Z)) :
  0 <= left -> (left + 63) / 64 + 1 <= Z.of_nat fuel ->
  exists pm' wr',
    memcpy_to_pmbd_nopmap fuel true pm dst src from left wr = Ok (pm', wr' ++ wr) /\
    (forall a, pm' a = memcpy pm dst src from left a) /\
    Forall (piece_differs pm dst src from left) wr'.
Proof.
  revert pm dst from left wr. induction fuel as [|fuel IH]; intros pm dst from left wr Hl Hf.
  - exfalso. zdiv.
  - cbn [memcpy_to_pmbd_nopmap]. destruct (Z.eqb_spec left 0) as [->|Hne].
    + exists pm, []. conj; auto. intros a. rewrite memcpy_out; [reflexivity | lia].
    + cbn [Bool.eqb TRUE]. unfold MIN_OF, PMBD_CACHELINE_SIZE.
      set (size := if left <? 64 then left else 64).
      assert (Hs : 0 < size <= left /\ size <= 64)
        by (unfold size; destruct (Z.ltb_spec left 64); lia).
      assert (Hf' : (left - size + 63) / 64 + 1 <= Z.of_nat fuel)
        by (unfold size in *; destruct (Z.ltb_spec left 64); zdiv).
      destruct (mem_eqb (Z.to_nat size) pm dst src from) eqn:E; cbn [negb].
      * destruct (IH pm (dst + size) (from + size) (left - size) wr ltac:(lia) Hf')
          as (pm' & wr' & Hr & Hm & Hw).
        exists pm', wr'. conj; auto.
        -- intros a. rewrite Hm. unfold memcpy.
           destruct (Z.leb_spec (dst + size) a); destruct (Z.ltb_spec a (dst + size + (left - size)));
             destruct (Z.leb_spec dst a); destruct (Z.ltb_spec a (dst + left));
             cbn [andb]; try lia; try reflexivity.
           ++ f_equal. lia.
           ++ pose proof (mem_eqb_eq _ _ _ _ _ E (a - dst) ltac:(lia)) as He.
              replace (dst + (a - dst)) with a in He by lia. exact He.
        -- eapply Forall_impl; [|exact Hw]. intros (a, s). unfold piece_differs. cbn [fst snd].
           intros (H1 & H2 & H3 & j & Hj & Hd). conj; try lia.
           exists j. split; [lia|]. replace (from + (a - dst) + j)
             with (from + size + (a - (dst + size)) + j) by lia. exact Hd.
      * destruct (IH (memcpy pm dst src from size) (dst + size) (from + size) (left - size)
                    ((dst, size) :: wr) ltac:(lia) Hf') as (pm' & wr' & Hr & Hm & Hw).
        exists pm', (wr' ++ [(dst, size)]). rewrite <- app_assoc. conj; auto.
        -- intros a. rewrite Hm. unfold memcpy.
           destruct (Z.leb_spec (dst + size) a); destruct (Z.ltb_spec a (dst + size + (left - size)));
             destruct (Z.leb_spec dst a); destruct (Z.ltb_spec a (dst + left));
             destruct (Z.ltb_spec a (dst + size));
             cbn [andb]; try lia; try reflexivity.
           f_equal. lia.
        -- apply Forall_app. split.
           ++ eapply Forall_impl; [|exact Hw]. intros (a, s). unfold piece_differs.
              cbn [fst snd]. intros (H1 & H2 & H3 & j & Hj & Hd). conj; try lia.
              exists j. split; [lia|].
              rewrite memcpy_out in Hd by lia.
              replace (from + (a - dst) + j)
                with (from + size + (a - (dst + size)) + j) by lia. exact Hd.
           ++ constructor; [|constructor]. unfold piece_differs, PMBD_CACHELINE_SIZE.
              cbn [fst snd]. conj; try lia.
              destruct (mem_eqb_false _ _ _ _ _ E) as (j & Hj & Hd).
              exists j. split; [lia|]. replace (from + (dst - dst) + j) with (from + j) by lia.
              exact Hd.
Qed.

(** X10.  The write loop of [memcpy_to_pmbd_nopmap] copies the whole
    range, with or without sub-page updates: it ends, and the PM region then
    holds the source over the range and is unchanged elsewhere.  Without
    sub-page updates the range is written in one piece.  With them every
    piece written is at most a cache line of 64 bytes in which some byte
    differed from the source, so a range that already holds the source is
    not written at all. *)
Theorem memcpy_to_pmbd_nopmap_ok (fuel : nat) (g_pmbd_subpage_update : bool)
  (pm : memory) (dst : Z) (src : memory) (from bytes : Z) :
  0 <= bytes -> (bytes + 63) / 64 + 1 <= Z.of_nat fuel ->
  exists pm' wr,
    memcpy_to_pmbd_nopmap fuel g_pmbd_subpage_update pm dst src from bytes [] =
      Ok (pm', wr) /\
    (forall a, pm' a = memcpy pm dst src from bytes a) /\
    (g_pmbd_subpage_update = false -> 0 < bytes -> wr = [(dst, bytes)]) /\
    (g_pmbd_subpage_update = true ->
     Forall (piece_differs pm dst src from bytes) wr /\
     ((forall j, 0 <= j < bytes -> pm (dst + j) = src (from + j)) -> wr = [])).
Proof.
  intros Hb Hf. destruct g_pmbd_subpage_update.
  - destruct (memcpy_to_pmbd_nopmap_sub fuel pm dst src from bytes [] Hb Hf)
      as (pm' & wr & Hr & Hm & Hw).
    rewrite app_nil_r in Hr. exists pm', wr. conj; auto; try discriminate.
    intros _. split; [exact Hw|]. intros Heq.
    destruct wr as [|(a, s) wr]; [reflexivity|]. exfalso.
    apply Forall_inv in Hw. destruct Hw as (H1 & H2 & H3 & j & Hj & Hd).
    cbn [fst snd] in *. apply Hd.
    replace (a + j) with (dst + (a - dst + j)) by lia.
    rewrite Heq by lia. f_equal. lia.
  - destruct (Z.eq_dec bytes 0) as [->|Hne].
    + destruct fuel as [|fuel]; [exfalso; zdiv|]. exists pm, [].
      conj; try discriminate; try lia; try reflexivity.
      intros a. rewrite memcpy_out; [reflexivity | lia].
    + destruct fuel as [|[|fuel]]; try (exfalso; zdiv).
      exists (memcpy pm dst src from bytes), [(dst, bytes)].
      cbn [memcpy_to_pmbd_nopmap Bool.eqb TRUE].
      destruct (Z.eqb_spec bytes 0); [lia|]. rewrite Z.sub_diag. cbn [Z.eqb].
      conj; auto. discriminate.
Qed.

Lemma memcpy_to_pmbd_nopmap_ok_witness :
  0 <= 128 /\ (128 + 63) / 64 + 1 <= Z.of_nat 3 /\
  exists pm' wr,
    memcpy_to_pmbd_nopmap 3 true zero_memory 4096 (of_list sector_11) 0 128 [] =
      Ok (pm', wr) /\
    (forall a, pm' a = memcpy zero_memory 4096 (of_list sector_11) 0 128 a).
Proof.
  assert (H1 : 0 <= 128) by lia.
  assert (H2 : (128 + 63) / 64 + 1 <= Z.of_nat 3) by (vm_compute; discriminate).
  repeat (split; [assumption|]).
  destruct (memcpy_to_pmbd_nopmap_ok 3 true zero_memory 4096 (of_list sector_11) 0 128 H1 H2)
    as (pm' & wr & Hr & Hm & _).
  exists pm', wr. split; assumption.
Defined.

(** The page offset of a physical address, and the address at which
    [pmap_atomic_pfn] shows it. *)
Lemma page_offset (pa : Z) : Z.land pa (Z.lnot PAGE_MASK) = pa mod 4096.
Proof.
  unfold PAGE_MASK. rewrite Z.lnot_involutive.
  change (PAGE_SIZE - 1) with (Z.ones 12). now rewrite Z.land_ones by lia.
Qed.

Lemma pmap_address (pa : Z) : pmap_atomic_pfn (Z.shiftr pa PAGE_SHIFT) (pa mod 4096) = pa.
Proof.
  unfold pmap_atomic_pfn, PAGE_SHIFT.
  rewrite Z.shiftr_div_pow2, Z.shiftl_mul_pow2 by lia. change (2 ^ 12) with 4096. zdiv.
Qed.

Lemma memcpy_pmap_read (fuel : nat) (sub : bool) (phys ram : memory)
  (ram_va pa bytes : Z) (wr : list (Z * Z)) :
  0 <= bytes -> bytes + 1 <= Z.of_nat fuel ->
  exists ram',
    _memcpy_pmbd_pmap_loop fuel sub phys ram ram_va pa bytes READ wr = Ok (phys, ram', wr) /\
    forall a, ram' a = memcpy ram ram_va phys pa bytes a.
Proof.
  revert ram ram_va pa bytes. induction fuel as [|fuel IH]; intros ram ram_va pa bytes Hb Hf;
    [lia|].
  cbn [_memcpy_pmbd_pmap_loop]. destruct (Z.eqb_spec bytes 0) as [->|Hne].
  - exists ram. split; [reflexivity|]. intros a. rewrite memcpy_out; [reflexivity | lia].
  - cbn [Z.eqb READ]. rewrite page_offset, pmap_address. unfold MIN_OF.
    change PAGE_SIZE with 4096.
    set (size := if 4096 - pa mod 4096 <? bytes then 4096 - pa mod 4096 else bytes).
    assert (Hs : 0 < size <= bytes)
      by (unfold size; destruct (Z.ltb_spec (4096 - pa mod 4096) bytes); zdiv).
    destruct (IH (memcpy ram ram_va phys pa size) (ram_va + size) (pa + size) (bytes - size)
                ltac:(lia) ltac:(lia)) as (ram' & Hr & Hm).
    exists ram'. split; [exact Hr|]. intros a. rewrite Hm. unfold memcpy.
    destruct (Z.leb_spec (ram_va + size) a);
      destruct (Z.ltb_spec a (ram_va + size + (bytes - size)));
      destruct (Z.leb_spec ram_va a); destruct (Z.ltb_spec a (ram_va + bytes));
      destruct (Z.ltb_spec a (ram_va + size)); cbn [andb]; try lia; try reflexivity.
    f_equal. lia.
Qed.

Lemma memcpy_pmap_write (fuel : nat) (sub : bool) (phys ram : memory)
  (ram_va pa bytes : Z) (wr : list (Z * Z)) :
  0 <= bytes -> bytes + 1 <= Z.of_nat fuel ->
  exists phys' wr',
    _memcpy_pmbd_pmap_loop fuel sub phys ram ram_va pa bytes WRITE wr =
      Ok (phys', ram, wr' ++ wr) /\
    (forall a, phys' a = memcpy phys pa ram ram_va bytes a) /\
    Forall (fun x => piece_in_page x /\ pa <= fst x /\ fst x + snd x <= pa + bytes /\
                     (sub = true -> piece_differs phys pa ram ram_va bytes x)) wr'.
Proof.
  revert phys ram_va pa bytes wr.
  induction fuel as [|fuel IH]; intros phys ram_va pa bytes wr Hb Hf; [lia|].
  cbn [_memcpy_pmbd_pmap_loop]. destruct (Z.eqb_spec bytes 0) as [->|Hne].
  - exists phys, []. conj; auto. intros a. rewrite memcpy_out; [reflexivity | lia].
  - cbn [Z.eqb READ WRITE]. rewrite page_offset, pmap_address. unfold MIN_OF.
    change PAGE_SIZE with 4096. unfold PMBD_CACHELINE_SIZE.
    set (size0 := if 4096 - pa mod 4096 <? bytes then 4096 - pa mod 4096 else bytes).
    set (size := if Bool.eqb sub TRUE then (if size0 <? 64 then size0 else 64) else size0).
    assert (Hs0 : 0 < size0 <= bytes /\ size0 <= 4096 - pa mod 4096)
      by (unfold size0; destruct (Z.ltb_spec (4096 - pa mod 4096) bytes); zdiv).
    assert (Hs : 0 < size <= size0 /\ (sub = true -> size <= 64)).
    { unfold size. destruct sub; cbn [Bool.eqb TRUE].
      - destruct (Z.ltb_spec size0 64); split; auto; lia.
      - split; [lia | discriminate]. }
    assert (Hpage : piece_in_page (pa, size)).
    { unfold piece_in_page. cbn [fst snd]. change PAGE_SIZE with 4096. split; [lia|]. zdiv. }
    assert (Hcopy : forall (phys1 : memory) (wr1 : list (Z * Z)),
              (forall a, phys1 a = memcpy phys pa ram ram_va size a) ->
              (wr1 = wr \/
               wr1 = (pa, size) :: wr /\
               (sub = true -> exists j, 0 <= j < size /\ phys (pa + j) <> ram (ram_va + j))) ->
              exists phys' wr',
                _memcpy_pmbd_pmap_loop fuel sub phys1 ram (ram_va + size) (pa + size)
                  (bytes - size) WRITE wr1 = Ok (phys', ram, wr' ++ wr) /\
                (forall a, phys' a = memcpy phys pa ram ram_va bytes a) /\
                Forall (fun x => piece_in_page x /\ pa <= fst x /\
                                 fst x + snd x <= pa + bytes /\
                                 (sub = true -> piece_differs phys pa ram ram_va bytes x)) wr').
    { intros phys1 wr1 H1 Hwr.
      destruct (IH phys1 (ram_va + size) (pa + size) (bytes - size) wr1 ltac:(lia) ltac:(lia))
        as (phys' & wr' & Hr & Hm & Hw).
      assert (Hw' : Forall (fun x => piece_in_page x /\ pa <= fst x /\
                              fst x + snd x <= pa + bytes /\
                              (sub = true -> piece_differs phys pa ram ram_va bytes x)) wr').
      { eapply Forall_impl; [|exact Hw]. intros (a, s). cbn [fst snd].
        intros (Hp & H2 & H3 & Hd). conj; auto; try lia.
        intros Hsub. destruct (Hd Hsub) as (D1 & D2 & D3 & j & Hj & Hne').
        cbn [fst snd] in *. unfold piece_differs. cbn [fst snd]. conj; try lia.
        exists j. split; [lia|]. rewrite H1, memcpy_out in Hne' by lia.
        replace (ram_va + (a - pa) + j) with (ram_va + size + (a - (pa + size)) + j) by lia.
        exact Hne'. }
      assert (Hm' : forall a, phys' a = memcpy phys pa ram ram_va bytes a).
      { intros a. rewrite Hm. unfold memcpy at 1.
        destruct (Z.leb_spec (pa + size) a);
          destruct (Z.ltb_spec a (pa + size + (bytes - size))); cbn [andb].
        - rewrite memcpy_in by lia. f_equal. lia.
        - rewrite H1. rewrite !memcpy_out by lia. reflexivity.
        - rewrite H1. destruct (Z.leb_spec pa a).
          + rewrite !memcpy_in by lia. reflexivity.
          + rewrite !memcpy_out by lia. reflexivity.
        - lia. }
      destruct Hwr as [->|(-> & Hdiff)].
      - exists phys', wr'. conj; auto.
      - exists phys', (wr' ++ [(pa, size)]). rewrite <- app_assoc. conj; auto.
        apply Forall_app. split; [exact Hw'|]. constructor; [|constructor].
        cbn [fst snd]. conj; auto; try lia. intros Hsub. unfold piece_differs.
        cbn [fst snd]. unfold PMBD_CACHELINE_SIZE. destruct (Hdiff Hsub) as (j & Hj & Hne').
        conj; try lia. { apply Hs. exact Hsub. }
        exists j. split; [lia|]. replace (ram_va + (pa - pa) + j) with (ram_va + j) by lia.
        exact Hne'. }
    destruct sub; cbn [Bool.eqb TRUE] in *.
    + destruct (mem_eqb (Z.to_nat size) phys pa ram ram_va) eqn:E; cbn [negb].
      * apply Hcopy; [|left; reflexivity]. intros a.
        destruct (Z.leb_spec pa a); destruct (Z.ltb_spec a (pa + size)).
        -- rewrite memcpy_in by lia.
           pose proof (mem_eqb_eq _ _ _ _ _ E (a - pa) ltac:(lia)) as He.
           replace (pa + (a - pa)) with a in He by lia. exact He.
        -- rewrite memcpy_out by lia. reflexivity.
        -- rewrite memcpy_out by lia. reflexivity.
        -- rewrite memcpy_out by lia. reflexivity.
      * apply Hcopy; [reflexivity|]. right. split; [reflexivity|]. intros _.
        destruct (mem_eqb_false _ _ _ _ _ E) as (j & Hj & Hd). exists j. split; [lia|exact Hd].
    + apply Hcopy; [reflexivity|]. right. split; [reflexivity|]. discriminate.
Qed.

(** X11.  The loop of [_memcpy_pmbd_pmap] maps one page frame at a time
    and copies the whole range, whatever the alignment of its first byte: a
    read ends with the RAM side holding the bytes of physical memory from
    [g_highmem_phys_addr + va - 4096] on and writes nothing to physical
    memory; a write ends with physical memory holding the source over the
    range and unchanged elsewhere.  No piece written crosses a page
    boundary, and with sub-page updates each piece is at most a cache line
    in which some byte differed. *)
Theorem memcpy_pmbd_pmap_ok (fuel : nat) (g_pmbd_subpage_update : bool)
  (g_highmem_phys_addr : Z) (phys ram : memory) (ram_va va bytes : Z) :
  0 <= bytes -> bytes + 1 <= Z.of_nat fuel ->
  (exists ram',
     _memcpy_pmbd_pmap fuel g_pmbd_subpage_update g_highmem_phys_addr phys ram ram_va va
       bytes READ = Ok (phys, ram', []) /\
     forall a, ram' a =
       memcpy ram ram_va phys (PMBD_PMAP_VA_TO_PA g_highmem_phys_addr va) bytes a) /\
  (exists phys' wr,
     _memcpy_pmbd_pmap fuel g_pmbd_subpage_update g_highmem_phys_addr phys ram ram_va va
       bytes WRITE = Ok (phys', ram, wr) /\
     (forall a, phys' a =
        memcpy phys (PMBD_PMAP_VA_TO_PA g_highmem_phys_addr va) ram ram_va bytes a) /\
     Forall piece_in_page wr /\
     (g_pmbd_subpage_update = true ->
      Forall (piece_differs phys (PMBD_PMAP_VA_TO_PA g_highmem_phys_addr va) ram ram_va bytes)
        wr)).
Proof.
  intros Hb Hf. unfold _memcpy_pmbd_pmap. split.
  - exact (memcpy_pmap_read fuel g_pmbd_subpage_update phys ram ram_va _ bytes [] Hb Hf).
  - destruct (memcpy_pmap_write fuel g_pmbd_subpage_update phys ram ram_va
                (PMBD_PMAP_VA_TO_PA g_highmem_phys_addr va) bytes [] Hb Hf)
      as (phys' & wr & Hr & Hm & Hw).
    rewrite app_nil_r in Hr. exists phys', wr. conj; auto.
    + eapply Forall_impl; [|exact Hw]. intros x Hx. apply Hx.
    + intros Hsub. eapply Forall_impl; [|exact Hw]. intros x Hx. now apply Hx.
Qed.

Lemma memcpy_pmbd_pmap_ok_witness :
  0 <= 128 /\ 128 + 1 <= Z.of_nat 129 /\
  exists phys' wr,
    _memcpy_pmbd_pmap 129 false 1048576 zero_memory (fun _ => x11) 0 8160 128 WRITE =
      Ok (phys', (fun _ => x11), wr) /\
    Forall piece_in_page wr.
Proof.
  assert (H1 : 0 <= 128) by lia.
  assert (H2 : 128 + 1 <= Z.of_nat 129) by (vm_compute; discriminate).
  repeat (split; [assumption|]).
  destruct (proj2 (memcpy_pmbd_pmap_ok 129 false 1048576 zero_memory (fun _ => x11)
                     0 8160 128 H1 H2)) as (phys' & wr & Hr & _ & Hp & _).
  exists phys', wr. split; assumption.
Defined.
